(** * Adike Mitra: detection, pricing, irrigation and settings workflows

    A shallow embedding of the request handlers of [app.py] (with the
    entities of [models.py] and the price source of [price_scraper.py])
    and the properties of the workflows built on them.

    Conventions of the embedding.
    - Python floats are rationals ([Q]): arithmetic is exact, except for
      a result wrapped in [fl], the rounding to the nearest double;
      comparisons and branches are those of the source. [round(x, 2)] is
      rounding to the nearest hundredth, ties to even. There is no
      infinity. A NaN, which [float] reads from a form field, is [None]:
      every comparison with it is false and the store keeps it as NULL.
    - An insertion-ordered [dict] that is iterated is an association list;
      a [dict] that is only looked up is a [gmap].
    - A table of the relational store is the list of its rows in insertion
      order; [commit] makes the handler's working copy the stored table and
      [rollback] discards it.
    - A raised exception is [None] (or [inl e] where the handler reports
      it); an uncaught one ends the request with [ServerError], or with
      [None] as the result of the handler.
    - The clock readings of one request are taken as one instant [now]. *)

From Stdlib Require Import ZArith QArith Qround Qabs Lqa Lia.
From stdpp Require Import base strings pretty gmap list.

Local Open Scope Q_scope.

(** ** Numbers *)

Module Num.

(** [x > y] and [x < y] on floats. *)
Definition gtb (x y : Q) : bool := negb (Qle_bool x y).
Definition ltb (x y : Q) : bool := negb (Qle_bool y x).
Definition geb (x y : Q) : bool := Qle_bool y x.

(** Nearest integer, ties to the even neighbour. *)
Definition round_half_even (x : Q) : Z :=
  let n := Qfloor x in
  match Qcompare (x - inject_Z n) (1 # 2) with
  | Lt => n
  | Gt => (n + 1)%Z
  | Eq => if Z.even n then n else (n + 1)%Z
  end.

(** [round(x, 2)]. *)
Definition round2 (x : Q) : Q := inject_Z (round_half_even (x * 100)) / 100.

(** [sum(l)], [np.mean(l)], [max(l)] and [min(l)]; the last two raise
    [ValueError] on an empty argument. *)
Definition sum (l : list Q) : Q := foldr Qplus 0 l.
Definition np_mean (l : list Q) : Q := sum l / inject_Z (Z.of_nat (length l)).

Definition qmax (x y : Q) : Q := if gtb y x then y else x.
Definition qmin (x y : Q) : Q := if ltb y x then y else x.

Definition py_max (l : list Q) : option Q :=
  match l with
  | [] => None
  | x :: l' => Some (foldl qmax x l')
  end.

Definition py_min (l : list Q) : option Q :=
  match l with
  | [] => None
  | x :: l' => Some (foldl qmin x l')
  end.

(** [l[-n:]] and [l[-n]] ([IndexError] when [n] exceeds the length). *)
Definition lastn {A} (n : nat) (l : list A) : list A := drop (length l - n) l.
Definition nth_back {A} (n : nat) (l : list A) : option A :=
  if (n <=? length l)%nat then l !! (length l - n)%nat else None.

End Num.

(** ** Detection workflow *)

Module Detection.
Import Num.

(** One classifier's entry of the [results] dict. *)
Record prediction := Prediction {
  disease : string;
  confidence : Q;
  status : string
}.

(** The values of the [results] dict: the ['validation'] dict, a
    classifier entry, or the ['error'] string. *)
Inductive entry :=
| Validation (is_valid : bool) (v_confidence : Q) (reason : string)
| Pred (p : prediction)
| ErrorText (msg : string).

Definition results := list (string * entry).

(** [d[k] = v] on an insertion-ordered dict. *)
Fixpoint dict_set (d : results) (k : string) (v : entry) : results :=
  match d with
  | [] => [(k, v)]
  | (k', v') :: d' =>
      if String.eqb k' k then (k, v) :: d' else (k', v') :: dict_set d' k v
  end.

Definition py_in (x : string) (l : list string) : bool :=
  existsb (String.eqb x) l.

Section Classifiers.

(** The preprocessed image array, and the loaded models: a model's
    [predict] gives the probability [float(prediction[0][0])] or
    raises. *)
Variable img : Type.
Variable disease_models : gmap string (img -> option Q).

Definition validate_image_content (img_array : img) : bool * Q * string :=
  (true, 75, "Image validation bypassed - user responsibility").

(** The two branches on [prob] of one classifier block. *)
Definition classify (infected healthy : string) (prob : Q) : prediction :=
  if gtb prob (1 # 2) then
    {| disease := infected;
       confidence := round2 (prob * 100);
       status := "Infected" |}
  else
    {| disease := healthy;
       confidence := round2 ((1 - prob) * 100);
       status := "Healthy" |}.

(** One classifier block of [predict_disease]: skipped unless the
    type is requested and the model is loaded. *)
Definition run_model (key : string) (types : list string)
    (infected healthy : string) (detection_type : string)
    (normalized_img : img) (res : results) : option results :=
  if py_in detection_type types then
    match disease_models !! key with
    | Some model =>
        prob ← model normalized_img;
        Some (dict_set res key (Pred (classify infected healthy prob)))
    | None => Some res
    end
  else Some res.

(** [predict_disease]; [opened] is the image after [Image.open] and
    resizing, [None] when that raises. The outer [None] is the
    [return None] of the [except] clause. *)
Definition predict_disease (opened : option img) (detection_type : string)
    : option results :=
  img_array ← opened;
  let '(is_valid, validation_confidence, validation_reason) :=
    validate_image_content img_array in
  let res :=
    [("validation",
      Validation is_valid validation_confidence validation_reason)] in
  if negb is_valid then
    Some (dict_set res "error"
            (ErrorText ("Invalid image: " +:+ validation_reason)))
  else
    res ← run_model "yellow_leaf" ["yellow_leaf"; "both"]
            "Yellow Leaf Disease" "Healthy Leaf"
            detection_type img_array res;
    run_model "fruit_rot" ["fruit_rot"; "both"]
            "Fruit Rot (Koleroga)" "Healthy Fruit"
            detection_type img_array res.

End Classifiers.

(** The loop of [disease_detection] over [predictions.items()];
    subscripting the ['error'] string or the ['validation'] dict with
    ['status'] raises. *)
Fixpoint primary_loop (items : results) (primary_disease : option string)
    (max_confidence : Q) : option (option string * Q) :=
  match items with
  | [] => Some (primary_disease, max_confidence)
  | (pred_type, pred_data) :: rest =>
      if String.eqb pred_type "validation" then
        primary_loop rest primary_disease max_confidence
      else
        match pred_data with
        | Pred p =>
            if String.eqb (status p) "Infected"
               && gtb (confidence p) max_confidence
            then primary_loop rest (Some (disease p)) (confidence p)
            else primary_loop rest primary_disease max_confidence
        | _ => None
        end
  end.

(** The generator of the [max(...)] call: every dict value with a
    ['confidence'] key. *)
Definition confidences (predictions : results) : list Q :=
  omap (fun kv => match kv.2 with
                  | Validation _ c _ => Some c
                  | Pred p => Some (confidence p)
                  | ErrorText _ => None
                  end) predictions.

Record recommendation := Recommendation {
  treatment : string;
  severity : string;
  preventive : string
}.

Definition healthy_recommendation : recommendation :=
  {| treatment := "No treatment required. Your crop looks healthy!";
     severity := "None";
     preventive := "Continue regular monitoring. Maintain good cultural practices." |}.

Definition get_disease_recommendation (disease_name : string) (conf : Q)
    : recommendation :=
  if String.eqb disease_name "Yellow Leaf Disease" then
    {| treatment := "Apply Bordeaux mixture (1%) or Copper oxychloride (0.3%). Ensure proper drainage and avoid waterlogging.";
       severity := if gtb conf 85 then "moderate" else "mild";
       preventive := "Maintain soil pH between 5.5-6.5. Apply organic manure regularly. Ensure adequate spacing between plants." |}
  else if String.eqb disease_name "Fruit Rot (Koleroga)" then
    {| treatment := "Spray Carbendazim (0.1%) or Mancozeb (0.25%). Remove and destroy infected fruits immediately.";
       severity := if gtb conf 90 then "severe" else "moderate";
       preventive := "Improve air circulation. Avoid overhead irrigation. Apply prophylactic sprays during monsoon." |}
  else healthy_recommendation.

(** The persisted [DiseaseDetection] row (the columns set from the
    classification). *)
Record DiseaseDetection := {
  disease_name : string;
  det_severity : string;
  det_confidence : Q;
  det_recommendation : string;
  weather_warning : string
}.

Inductive outcome :=
| Persisted (row : DiseaseDetection)
| ProcessingFailed (flash : string)
| ServerError.

(** [not primary_disease]. *)
Definition falsy (s : option string) : bool :=
  match s with
  | None => true
  | Some s => String.eqb s ""
  end.

(** The part of [disease_detection] after the upload is stored:
    [predictions] is the value of [predict_disease], [rain_chance] the
    draw of [random.randint(0, 100)]. On a failed prediction the stored
    file is removed and nothing is persisted. *)
Definition disease_detection (predictions : option results)
    (rain_chance : Z) : outcome :=
  match predictions with
  | None | Some [] =>
      ProcessingFailed "Error processing image. Please upload a clear image of an arecanut leaf or fruit."
  | Some predictions =>
      match primary_loop predictions None 0 with
      | None => ServerError
      | Some (primary_disease, max_confidence) =>
          let chosen :=
            if falsy primary_disease then
              c ← py_max (confidences predictions); Some ("Healthy", c)
            else Some (default "" primary_disease, max_confidence) in
          match chosen with
          | None => ServerError
          | Some (primary_disease, conf) =>
              let recommendation_data :=
                get_disease_recommendation primary_disease conf in
              Persisted
                {| disease_name := primary_disease;
                   det_severity := severity recommendation_data;
                   det_confidence := conf;
                   det_recommendation := treatment recommendation_data;
                   weather_warning :=
                     if (rain_chance >? 60)%Z
                     then "Do not spray today, rain expected. Spraying safe tomorrow between 6-10 AM."
                     else "Weather is favorable for spraying. Best time: 7 AM - 11 AM." |}
          end
      end
  end.

End Detection.

(** ** Dates *)

Module Time.

Definition day_us : Z := 86400000000.

(** A [datetime]: microseconds of wall-clock time since a fixed origin
    at midnight, and whether a [tzinfo] is attached. The only zone of
    the program is [IST], so an aware value carries IST wall-clock
    time; the naive values read back from the store are IST readings
    whose [tzinfo] was dropped. *)
Record datetime := DateTime {
  wall : Z;
  aware : bool
}.

(** [get_ist_now()] at clock reading [t]. *)
Definition get_ist_now (t : Z) : datetime := {| wall := t; aware := true |}.

(** [d.replace(tzinfo=IST)]. *)
Definition replace_tzinfo_IST (d : datetime) : datetime :=
  {| wall := wall d; aware := true |}.

(** [d.replace(hour=0, minute=0, second=0, microsecond=0)]. *)
Definition midnight (d : datetime) : datetime :=
  {| wall := wall d - wall d `mod` day_us; aware := aware d |}.

(** [(a - b)] as a [timedelta] in microseconds, its [.days] (the floor
    of the whole days) and [d + timedelta(days=i)]. *)
Definition sub (a b : datetime) : Z := wall a - wall b.
Definition days (delta : Z) : Z := delta `div` day_us.
Definition add_days (d : datetime) (i : Z) : datetime :=
  {| wall := wall d + i * day_us; aware := aware d |}.

(** [a >= b] and [a > b]. *)
Definition dt_geb (a b : datetime) : bool := (wall b <=? wall a)%Z.
Definition dt_gtb (a b : datetime) : bool := (wall b <? wall a)%Z.

(** The calendar day (its index from the origin) a value falls on. *)
Definition calendar_day (d : datetime) : Z := wall d `div` day_us.

End Time.

(** ** Market prices *)

Module Prices.
Import Time.

(** A row of [market_prices]. The two price columns are nullable: a
    price is a number or NULL ([None]). *)
Record MarketPrice := {
  source : string;
  red_arecanut_price : option Q;
  white_arecanut_price : option Q;
  grade : string;
  date : datetime
}.

Definition table := list MarketPrice.

(** The values of the price dicts: numbers, and the ['source'] tag. *)
Inductive pyval :=
| PNum (q : Q)
| PStr (s : string).

(** [price_scraper.py]. *)
Definition scrape_mangalore_prices : gmap string pyval :=
  list_to_map [("red_arecanut_price", PNum 150);
               ("white_arecanut_price", PNum 160);
               ("kokum_price", PNum 120);
               ("coconut_price", PNum 25);
               ("banana_price", PNum 40)].

Definition get_fallback_prices : gmap string pyval :=
  list_to_map [("red_arecanut_price", PNum 145);
               ("white_arecanut_price", PNum 155);
               ("kokum_price", PNum 115);
               ("coconut_price", PNum 23);
               ("banana_price", PNum 38)].

(** [d[k]] read as a price: [KeyError] when absent. *)
Definition get_price (d : gmap string pyval) (k : string) : option Q :=
  match d !! k with
  | Some (PNum q) => Some q
  | _ => None
  end.

(** [query.filter(p).first()]: the first matching row in table order,
    with its position. *)
Fixpoint first_where (p : MarketPrice -> bool) (tbl : table)
    : option (nat * MarketPrice) :=
  match tbl with
  | [] => None
  | r :: tbl' =>
      if p r then Some (0%nat, r)
      else '(i, r') ← first_where p tbl'; Some (S i, r')
  end.

(** [query.order_by(MarketPrice.date.desc()).first()]: a row of the
    greatest date, the earliest stored one among equals. *)
Definition latest (tbl : table) : option MarketPrice :=
  foldl (fun best r =>
           match best with
           | None => Some r
           | Some b => if dt_gtb (date r) (date b) then Some r else Some b
           end) None tbl.

(** The value returned by [update_market_prices]: the action taken, or
    the failure of the [except] clause. *)
Inductive refresh_result :=
| Success (action : string) (data : gmap string pyval)
| Failure.

(** [update_market_prices]; [scraped] is what the price source returns
    to this call. An exception leaves the stored table as it was. *)
Definition update_market_prices (scraped : gmap string pyval)
    (now : datetime) (tbl : table) : table * refresh_result :=
  let scraped_data :=
    if (size scraped =? 0)%nat
    then <["source" := PStr "fallback - scraping failed"]> get_fallback_prices
    else scraped in
  let today_start := midnight now in
  let existing_price := first_where (fun r => dt_geb (date r) today_start) tbl in
  let done :=
    match existing_price with
    | Some (i, existing) =>
        red ← get_price scraped_data "red_arecanut_price";
        white ← get_price scraped_data "white_arecanut_price";
        Some (<[i := {| source := source existing;
                        red_arecanut_price := Some red;
                        white_arecanut_price := Some white;
                        grade := grade existing;
                        date := now |}]> tbl, "updated")
    | None =>
        red ← get_price scraped_data "red_arecanut_price";
        white ← get_price scraped_data "white_arecanut_price";
        Some (tbl ++ [{| source := "CAMPCO Mangalore";
                         red_arecanut_price := Some red;
                         white_arecanut_price := Some white;
                         grade := "Grade A";
                         date := now |}], "created")
    end in
  match done with
  | Some (tbl', action) => (tbl', Success action scraped_data)
  | None => (tbl, Failure)
  end.

(** The two rows written by [update_market_prices], for use in
    statements: the one that replaces [existing] and the new one. *)
Definition overwritten (existing : MarketPrice) (red_price white_price : Q)
    (now : datetime) : MarketPrice :=
  {| source := source existing;
     red_arecanut_price := Some red_price;
     white_arecanut_price := Some white_price;
     grade := grade existing;
     date := now |}.

Definition appended (red_price white_price : Q) (now : datetime)
    : MarketPrice :=
  {| source := "CAMPCO Mangalore";
     red_arecanut_price := Some red_price;
     white_arecanut_price := Some white_price;
     grade := "Grade A";
     date := now |}.

(** The staleness check of [market_prices]: whether
    [update_market_prices] is called, and the table afterwards. *)
Definition market_prices (scraped : gmap string pyval) (now : datetime)
    (tbl : table) : bool * table :=
  match latest tbl with
  | Some latest_prices =>
      let latest_date := date latest_prices in
      let latest_date :=
        if aware latest_date then latest_date
        else replace_tzinfo_IST latest_date in
      let days_old := days (sub now latest_date) in
      if (1 <=? days_old)%Z
      then (true, (update_market_prices scraped now tbl).1)
      else (false, tbl)
  | None => (true, (update_market_prices scraped now tbl).1)
  end.

(** The admin handler [update_prices], after [admin_required] and the
    [float] conversions of the form: a posted price is a number, or NaN
    ([None]), which is stored as NULL. The row's [date] is the column
    default [get_ist_now]. *)
Definition update_prices (form_source : string)
    (red_price white_price : option Q) (form_grade : string)
    (now : datetime) (tbl : table) : table :=
  tbl ++ [{| source := form_source;
             red_arecanut_price := red_price;
             white_arecanut_price := white_price;
             grade := form_grade;
             date := now |}].

(** The rows stored on the calendar day of [now]. *)
Definition same_day (now : datetime) (r : MarketPrice) : bool :=
  (calendar_day (date r) =? calendar_day now)%Z.

Definition rows_of_day (now : datetime) (tbl : table) : table :=
  List.filter (same_day now) tbl.

End Prices.

(** ** Price forecaster *)

Module Forecast.
Import Num Time Prices.

(** The feature row handed to the regression model. *)
Record features := {
  Year : Z; Month : Z; Day : Z; DayOfWeek : Z; IsWeekend : Z;
  Lag_1 : Q; Lag_2 : Q; Lag_3 : Q; Lag_7 : Q; Lag_14 : Q;
  MA_7 : Q; MA_14 : Q; MA_30 : Q;
  STD_7 : Q; STD_14 : Q;
  Price_Range : Q
}.

(** One element of [predictions]. *)
Record forecast := {
  fc_date : string;
  red : Q;
  white : Q
}.

(** What a request has consumed and done so far: the positions on the
    two random generators ([np.random] and [random]) and, in order, the
    feature rows passed to [price_model.predict]. *)
Record state := {
  np_next : nat;
  py_next : nat;
  model_log : list features
}.

(** Computations that read and advance the state and may raise; the
    state reached is kept when they raise. *)
Definition M (A : Type) : Type := state -> state * option A.

#[export] Instance M_ret : MRet M := fun A a s => (s, Some a).
#[export] Instance M_bind : MBind M := fun A B k m s =>
  match m s with
  | (s', Some a) => k a s'
  | (s', None) => (s', None)
  end.

(** An expression that may raise. *)
Definition lift {A} (o : option A) : M A := fun s => (s, o).

Section Forecaster.

(** Library functions used as given: the calendar fields and
    [strftime('%Y-%m-%d')] of a date, and [np.std]. *)
Variables year month day weekday : datetime -> Z.
Variable strftime : datetime -> string.
Variable np_std : list Q -> Q.

(** The draws of [random_sample()] of [np.random] and of [random()]
    of [random], in the order they are made. *)
Variables np_tape py_tape : nat -> Q.

(** The rounding of a real number to the nearest double. *)
Variable fl : Q -> Q.

(** [np.random.uniform(low, high)] and [random.uniform(a, b)]. *)
Definition np_uniform (low high : Q) : M Q := fun s =>
  ({| np_next := S (np_next s); py_next := py_next s;
      model_log := model_log s |},
   Some (low + (high - low) * np_tape (np_next s))).

Definition py_uniform (a b : Q) : M Q := fun s =>
  ({| np_next := np_next s; py_next := S (py_next s);
      model_log := model_log s |},
   Some (a + (b - a) * py_tape (py_next s))).

(** [price_model.predict(df)[0]]. *)
Definition predict (model : features -> option Q) (row : features) : M Q :=
  fun s =>
    ({| np_next := np_next s; py_next := py_next s;
        model_log := model_log s ++ [row] |},
     model row).

(** [[p.red_arecanut_price for p in rows]] as the numbers that [np.mean],
    [np.std], [max] and [min] take: a NULL among them makes these raise
    [TypeError]. *)
Definition reds (rows : table) : option (list Q) :=
  mapM red_arecanut_price rows.

(** [base_prices[-k] if len(base_prices) >= k else
    historical_prices[-k].red_arecanut_price]; a NULL read from the
    history is taken as raising, as the moving average over the same
    rows, further down in the same dict, does. *)
Definition lag (k : nat) (base_prices : list Q) (historical_prices : table)
    : option Q :=
  if (k <=? length base_prices)%nat then nth_back k base_prices
  else r ← nth_back k historical_prices; red_arecanut_price r.

(** [f(base_prices[-k:]) if len(base_prices) >= k else
    f([p.red_arecanut_price for p in historical_prices[-k:]])]. *)
Definition window {A} (f : list Q -> option A) (k : nat)
    (base_prices : list Q) (historical_prices : table) : option A :=
  if (k <=? length base_prices)%nat then f (lastn k base_prices)
  else prices ← reds (lastn k historical_prices); f prices.

Definition price_range (l : list Q) : option Q :=
  hi ← py_max l; lo ← py_min l; Some (hi - lo).

Definition step_features (historical_prices : table)
    (current_date : datetime) (base_prices : list Q) : option features :=
  lag_1 ← lag 1 base_prices historical_prices;
  lag_2 ← lag 2 base_prices historical_prices;
  lag_3 ← lag 3 base_prices historical_prices;
  lag_7 ← lag 7 base_prices historical_prices;
  lag_14 ← lag 14 base_prices historical_prices;
  ma_7 ← window (fun l => Some (np_mean l)) 7 base_prices historical_prices;
  ma_14 ← window (fun l => Some (np_mean l)) 14 base_prices
             historical_prices;
  ma_30 ← (prices ← reds (if (30 <=? length historical_prices)%nat
                          then lastn 30 historical_prices
                          else historical_prices);
           Some (np_mean prices));
  std_7 ← window (fun l => Some (np_std l)) 7 base_prices historical_prices;
  std_14 ← window (fun l => Some (np_std l)) 14 base_prices
              historical_prices;
  range ← window price_range 7 base_prices historical_prices;
  Some {| Year := year current_date;
          Month := month current_date;
          Day := day current_date;
          DayOfWeek := weekday current_date;
          IsWeekend := if (5 <=? weekday current_date)%Z then 1%Z else 0%Z;
          Lag_1 := lag_1; Lag_2 := lag_2; Lag_3 := lag_3;
          Lag_7 := lag_7; Lag_14 := lag_14;
          MA_7 := ma_7; MA_14 := ma_14; MA_30 := ma_30;
          STD_7 := std_7; STD_14 := std_14;
          Price_Range := range |}.

(** The plausibility clamp on the model's output. *)
Definition clamp (recent_avg red_pred : Q) : M Q :=
  if ltb red_pred 100 || gtb red_pred 1000 then
    u ← np_uniform (- (2 # 100)) (2 # 100);
    mret (recent_avg * (1 + u))
  else mret red_pred.

(** The literal [1.15] as the double it denotes,
    1.149999999999999911182158029987. *)
Definition double_1_15 : Q := 2589569785738035 # 2251799813685248.

(** One iteration of the 15-day loop: the entry appended to
    [predictions] and the new [base_prices]. The product
    [red_pred * 1.15] is a product of doubles. *)
Definition forecast_step (model : features -> option Q)
    (historical_prices : table) (now : datetime) (i : Z)
    (base_prices : list Q) : M (forecast * list Q) :=
  let pred_date := add_days now i in
  row ← lift (step_features historical_prices pred_date base_prices);
  red_pred ← predict model row;
  recent_avg ← lift (prices ← reds (lastn 7 historical_prices);
                     Some (np_mean prices));
  red_pred ← clamp recent_avg red_pred;
  let white_pred := fl (red_pred * double_1_15) in
  let entry := {| fc_date := strftime pred_date;
                  red := round2 red_pred;
                  white := round2 white_pred |} in
  let base_prices := base_prices ++ [red_pred] in
  let base_prices :=
    if (30 <? length base_prices)%nat then tail base_prices
    else base_prices in
  mret (entry, base_prices).

Fixpoint forecast_loop (model : features -> option Q)
    (historical_prices : table) (now : datetime) (range : list Z)
    (base_prices : list Q) (predictions : list forecast)
    : M (list forecast) :=
  match range with
  | [] => mret predictions
  | i :: range' =>
      '(entry, base_prices) ←
        forecast_step model historical_prices now i base_prices;
      forecast_loop model historical_prices now range' base_prices
        (predictions ++ [entry])
  end.

(** [range(1, 16)]. *)
Definition range_1_16 : list Z := map Z.of_nat (seq 1 15).

(** The body of the [try] block of [price_prediction]. A NULL among the
    14 prices of [base_prices] raises in the moving averages of the
    first iteration, before the model is called or a number drawn; the
    list is therefore read as numbers at once. *)
Definition model_predictions (model : features -> option Q)
    (historical_prices : table) (now : datetime) : M (list forecast) :=
  let recent_prices := lastn 14 historical_prices in
  base_prices ← lift (reds recent_prices);
  forecast_loop model historical_prices now range_1_16 base_prices [].

(** The loop of [generate_simple_predictions]. In
    [last_price.red_arecanut_price + random.uniform(-20, 30)] the number
    is drawn before the sum is taken, and the sum raises [TypeError] on
    a NULL price. *)
Fixpoint simple_loop (last_price : MarketPrice) (now : datetime)
    (range : list Z) (predictions : list forecast) : M (list forecast) :=
  match range with
  | [] => mret predictions
  | i :: range' =>
      let pred_date := add_days now i in
      red_pred ← (u ← py_uniform (-20) 30;
                  p ← lift (red_arecanut_price last_price);
                  mret (p + u));
      white_pred ← (u ← py_uniform (-20) 30;
                    p ← lift (white_arecanut_price last_price);
                    mret (p + u));
      simple_loop last_price now range'
        (predictions ++ [{| fc_date := strftime pred_date;
                            red := round2 red_pred;
                            white := round2 white_pred |}])
  end.

Definition generate_simple_predictions (historical_prices : table)
    (now : datetime) : M (list forecast) :=
  match last historical_prices with
  | Some last_price => simple_loop last_price now range_1_16 []
  | None => mret []
  end.

(** [price_prediction]: the forecast handed to the chart, or [None]
    when the request ends in an uncaught exception: the fallback runs
    outside the [try], also when it is called from the [except] clause.
    [price_model] is [None] when the model file did not load. *)
Definition price_prediction (price_model : option (features -> option Q))
    (historical_prices : table) (now : datetime)
    : M (list forecast) :=
  match price_model with
  | Some model =>
      if negb (bool_decide (historical_prices = []))
         && (14 <=? length historical_prices)%nat then
        fun s =>
          match model_predictions model historical_prices now s with
          | (s', Some predictions) => (s', Some predictions)
          | (s', None) =>
              generate_simple_predictions historical_prices now s'
          end
      else generate_simple_predictions historical_prices now
  | None => generate_simple_predictions historical_prices now
  end.

End Forecaster.

End Forecast.

(** ** Irrigation logging *)

Module Irrigation.
Import Num Time.

Record PumpStatus := {
  ps_user_id : Z;
  ps_status : string;
  ps_updated_at : option datetime
}.

(** A row of [irrigation_logs]; [soil_moisture] is a nullable float. *)
Record IrrigationLog := {
  user_id : Z;
  soil_moisture : option Q;
  pump_status : string;
  action_type : string;
  message : string
}.

Record store := {
  pumps : list PumpStatus;
  logs : list IrrigationLog
}.

(** [PumpStatus.query.filter_by(user_id=uid).first()], with the row's
    position. *)
Fixpoint pump_of (uid : Z) (tbl : list PumpStatus)
    : option (nat * PumpStatus) :=
  match tbl with
  | [] => None
  | p :: tbl' =>
      if (ps_user_id p =? uid)%Z then Some (0%nat, p)
      else '(i, p') ← pump_of uid tbl'; Some (S i, p')
  end.

(** The get-or-create at the head of [smart_irrigation]. *)
Definition get_or_create_pump (uid : Z) (now : datetime)
    (tbl : list PumpStatus) : list PumpStatus * nat * PumpStatus :=
  match pump_of uid tbl with
  | Some (i, pump) => (tbl, i, pump)
  | None =>
      let pump := {| ps_user_id := uid; ps_status := "OFF";
                     ps_updated_at := Some now |} in
      (tbl ++ [pump], length tbl, pump)
  end.

(** A float that a form field supplies: a number, or NaN ([None]).
    [x < y] and [x > y] are false when [x] is NaN. *)
Definition float_ltb (x : option Q) (y : Q) : bool :=
  match x with
  | Some q => ltb q y
  | None => false
  end.

Definition float_gtb (x : option Q) (y : Q) : bool :=
  match x with
  | Some q => gtb q y
  | None => false
  end.

(** The [if/elif/else] on [moisture_level]: the message and the
    [status] local assigned with it. *)
Definition classify_moisture (moisture_level : option Q) : string * string :=
  if float_ltb moisture_level 30 then
    ("âš ï¸ Water required now. Soil moisture is low.", "Low")
  else if float_gtb moisture_level 80 then
    ("ðŸš¨ Waterlogging detected â€” stop irrigation immediately!", "High")
  else
    ("âœ… Soil moisture is optimal. No action needed.", "Optimal").

(** The field [moisture_level] of the form as
    [float(request.form.get('moisture_level', 50))] reads it: the field
    is absent, [float] raises [ValueError] on its text, or [float]
    returns a number or NaN. *)
Inductive reading :=
| Absent
| Unreadable
| Posted (x : option Q).

(** The POST form. *)
Record form := {
  action : option string;
  moisture_level : reading
}.

(** What the handler hands back: the page with its [message] and
    [moisture_level] (a float when set, NaN being [Some None]), the
    redirect after a toggle, or the failure of an uncaught exception. *)
Inductive reply :=
| Page (pump : PumpStatus) (msg : option string)
    (moisture : option (option Q))
| Toggled (flash : string)
| ServerError.

(** [smart_irrigation] for user [uid]; [post] is [None] on a GET. The
    pump record that was missing is committed before the form is read,
    so it stays when the request fails. A NaN is stored as NULL. *)
Definition smart_irrigation (uid : Z) (post : option form) (now : datetime)
    (db : store) : store * reply :=
  let '(pumps1, i, pump) := get_or_create_pump uid now (pumps db) in
  match post with
  | None => ({| pumps := pumps1; logs := logs db |}, Page pump None None)
  | Some f =>
      match action f with
      | Some "simulate" =>
          match match moisture_level f with
                | Absent => Some (Some 50)
                | Unreadable => None
                | Posted x => Some x
                end with
          | None => ({| pumps := pumps1; logs := logs db |}, ServerError)
          | Some moisture_level =>
              let '(message, status) := classify_moisture moisture_level in
              let log := {| user_id := uid;
                            soil_moisture := moisture_level;
                            pump_status := ps_status pump;
                            action_type := "Simulation";
                            message := message |} in
              ({| pumps := pumps1; logs := logs db ++ [log] |},
               Page pump (Some message) (Some moisture_level))
          end
      | Some act =>
          if String.eqb act "ON" || String.eqb act "OFF" then
            let pump' := {| ps_user_id := ps_user_id pump;
                            ps_status := act;
                            ps_updated_at := Some now |} in
            let message := "ðŸ’¡ Pump turned " +:+ act +:+ "." in
            let log := {| user_id := uid;
                          soil_moisture := None;
                          pump_status := act;
                          action_type := "Manual";
                          message := message |} in
            ({| pumps := <[i := pump']> pumps1; logs := logs db ++ [log] |},
             Toggled message)
          else
            ({| pumps := pumps1; logs := logs db |}, Page pump None None)
      | None =>
          ({| pumps := pumps1; logs := logs db |}, Page pump None None)
      end
  end.

End Irrigation.

(** ** Sessions, access control and system settings *)

Module Settings.
Import Time.

Record User := {
  id : Z;
  phone : string;
  name : string;
  user_type : string;
  password_hash : string
}.

Record SystemSettings := {
  setting_key : string;
  setting_value : string;
  setting_type : string;
  category : string;
  description : string;
  updated_at : option datetime;
  updated_by : option string
}.

(** The values kept in the session cookie. *)
Inductive sval :=
| SInt (n : Z)
| SStr (s : string).

Inductive exn :=
| KeyError (key : string)
| AttributeError (attr : string).

(** The double-quote character of the flashed messages. *)
Definition dquote : string := String (Ascii.ascii_of_nat 34) EmptyString.

(** [str(e)]. *)
Definition str_exn (e : exn) : string :=
  match e with
  | KeyError k => "'" +:+ k +:+ "'"
  | AttributeError a =>
      "'NoneType' object has no attribute '" +:+ a +:+ "'"
  end.

(** A flashed message with its category, and what a handler returns. *)
Definition flash : Type := string * string.

Inductive response :=
| Render (page : string) (flashed : option flash)
| Redirect (target : string) (flashed : option flash)
| Crash (e : exn).

(** [session[k]]. *)
Definition session_get (session : gmap string sval) (k : string)
    : exn + sval :=
  match session !! k with
  | Some v => inr v
  | None => inl (KeyError k)
  end.

(** [User.query.filter_by(phone=p).first()] and
    [db.session.get(User, uid)]. *)
Definition user_by_phone (users : list User) (p : sval) : option User :=
  match p with
  | SStr p => List.find (fun u => String.eqb (phone u) p) users
  | SInt _ => None
  end.

Definition user_by_id (users : list User) (uid : sval) : option User :=
  match uid with
  | SInt n => List.find (fun u => (id u =? n)%Z) users
  | SStr _ => None
  end.

(** [user.name] where [user] may be [None]. *)
Definition name_of (user : option User) : exn + string :=
  match user with
  | Some u => inr (name u)
  | None => inl (AttributeError "name")
  end.

Section Handlers.

(** [werkzeug.security.check_password_hash]. *)
Variable check_password_hash : string -> string -> bool.

(** The POST branch of [login]. *)
Definition login (users : list User) (form_phone form_password : string)
    (session : gmap string sval) : gmap string sval * response :=
  match user_by_phone users (SStr form_phone) with
  | Some user =>
      if check_password_hash (password_hash user) form_password then
        let session := <["user_id" := SInt (id user)]> session in
        let session := <["user_name" := SStr (name user)]> session in
        let session := <["user_type" := SStr (user_type user)]> session in
        (session,
         Redirect (if String.eqb (user_type user) "Developer"
                   then "admin_dashboard" else "user_dashboard")
           (Some ("Welcome back, " +:+ name user +:+ "!", "success")))
      else
        (session,
         Render "login.html"
           (Some ("Invalid phone number or password.", "danger")))
  | None =>
      (session,
       Render "login.html"
         (Some ("Invalid phone number or password.", "danger")))
  end.


End Handlers.

(** The [admin_required] decorator around a handler that works on a
    table of type [T]. *)
Definition admin_required {T} (users : list User)
    (session : gmap string sval) (tbl : T) (f : T -> T * response)
    : T * response :=
  match session !! "user_id" with
  | None =>
      (tbl, Redirect "login"
              (Some ("Please login to access this page.", "warning")))
  | Some uid =>
      match user_by_id users uid with
      | None => (tbl, Crash (AttributeError "user_type"))
      | Some user =>
          if negb (String.eqb (user_type user) "Developer") then
            (tbl, Redirect "user_dashboard"
                    (Some ("Access denied. Admin privileges required.",
                           "danger")))
          else f tbl
      end
  end.

(** [key.replace(old, new)] for a non-empty [old]: [skip] counts the
    characters of a matched [old] still to be dropped. *)
Fixpoint replace_from (old new : string) (skip : nat) (s : string) : string :=
  match s with
  | EmptyString => EmptyString
  | String c s' =>
      match skip with
      | S k => replace_from old new k s'
      | O =>
          if String.prefix old s
          then new +:+ replace_from old new (String.length old - 1) s'
          else String c (replace_from old new 0 s')
      end
  end.

Definition replace (old new s : string) : string := replace_from old new 0 s.

(** [SystemSettings.query.filter_by(setting_key=k).first()], with the
    row's position. *)
Fixpoint setting_of (k : string) (tbl : list SystemSettings)
    : option (nat * SystemSettings) :=
  match tbl with
  | [] => None
  | s :: tbl' =>
      if String.eqb (setting_key s) k then Some (0%nat, s)
      else '(i, s') ← setting_of k tbl'; Some (S i, s')
  end.

(** The loop of [update_system_settings] over [request.form.items()],
    on the working copy of the table. *)
Fixpoint update_loop (user : option User) (utcnow : datetime)
    (items : list (string * string)) (tbl : list SystemSettings)
    (updated_count : nat) : exn + (list SystemSettings * nat) :=
  match items with
  | [] => inr (tbl, updated_count)
  | (key, value) :: items' =>
      if String.prefix "setting_" key then
        let setting_key := replace "setting_" "" key in
        match setting_of setting_key tbl with
        | Some (i, setting) =>
            let value' :=
              if String.eqb (setting_type setting) "boolean"
              then (if String.eqb value "on" then "true" else "false")
              else value in
            match name_of user with
            | inl e => inl e
            | inr user_name =>
                update_loop user utcnow items'
                  (<[i := {| setting_key := Settings.setting_key setting;
                             setting_value := value';
                             setting_type := setting_type setting;
                             category := category setting;
                             description := description setting;
                             updated_at := Some utcnow;
                             updated_by := Some user_name |}]> tbl)
                  (S updated_count)
            end
        | None => update_loop user utcnow items' tbl updated_count
        end
      else update_loop user utcnow items' tbl updated_count
  end.

(** The [try] block of [update_system_settings], up to the commit. *)
Definition update_system_settings_try (users : list User)
    (session : gmap string sval) (utcnow : datetime)
    (form : list (string * string)) (tbl : list SystemSettings)
    : exn + (list SystemSettings * nat) :=
  match session_get session "user_phone" with
  | inl e => inl e
  | inr p => update_loop (user_by_phone users p) utcnow form tbl 0
  end.

(** [update_system_settings]: commit on success, rollback on any
    exception. *)
Definition update_system_settings (users : list User)
    (session : gmap string sval) (utcnow : datetime)
    (form : list (string * string)) (tbl : list SystemSettings)
    : list SystemSettings * response :=
  match update_system_settings_try users session utcnow form tbl with
  | inr (tbl', updated_count) =>
      (tbl', Redirect "system_settings"
               (Some ("Successfully updated " +:+ pretty updated_count
                      +:+ " settings!", "success")))
  | inl e =>
      (tbl, Redirect "system_settings"
              (Some ("Error updating settings: " +:+ str_exn e, "error")))
  end.

(** The [defaults] dict of [reset_setting]. *)
Definition defaults : gmap string string :=
  list_to_map [("site_name", "Adike Mitra");
               ("site_tagline", "Smart Arecanut Farm Management");
               ("max_upload_size", "16");
               ("detection_confidence_threshold", "0.75");
               ("enable_notifications", "true");
               ("irrigation_auto_mode", "true");
               ("soil_moisture_threshold", "30");
               ("maintenance_mode", "false");
               ("user_registration", "true");
               ("session_timeout", "60");
               ("ai_model_version", "v3.0");
               ("backup_frequency", "daily")].

(** The [try] block of [reset_setting]: the table to commit (if any)
    and the message to flash. *)
Definition reset_setting_try (users : list User)
    (session : gmap string sval) (utcnow : datetime) (key : string)
    (tbl : list SystemSettings)
    : exn + (option (list SystemSettings) * flash) :=
  match setting_of key tbl with
  | Some (i, setting) =>
      match defaults !! key with
      | Some d =>
          match session_get session "user_phone" with
          | inl e => inl e
          | inr p =>
              match name_of (user_by_phone users p) with
              | inl e => inl e
              | inr user_name =>
                  inr (Some (<[i := {| setting_key := setting_key setting;
                                       setting_value := d;
                                       setting_type := setting_type setting;
                                       category := category setting;
                                       description := description setting;
                                       updated_at := Some utcnow;
                                       updated_by := Some user_name |}]> tbl),
                       ("Setting " +:+ dquote +:+ key +:+ dquote
                        +:+ " reset to default value!",
                        "success"))
              end
          end
      | None =>
          inr (None, ("No default value defined for " +:+ dquote +:+ key
                      +:+ dquote, "warning"))
      end
  | None =>
      inr (None, ("Setting " +:+ dquote +:+ key +:+ dquote +:+ " not found!",
                  "error"))
  end.

Definition reset_setting (users : list User) (session : gmap string sval)
    (utcnow : datetime) (key : string) (tbl : list SystemSettings)
    : list SystemSettings * response :=
  match reset_setting_try users session utcnow key tbl with
  | inr (Some tbl', msg) => (tbl', Redirect "system_settings" (Some msg))
  | inr (None, msg) => (tbl, Redirect "system_settings" (Some msg))
  | inl e =>
      (tbl, Redirect "system_settings"
              (Some ("Error resetting setting: " +:+ str_exn e, "error")))
  end.


End Settings.

(** ** Sample inputs *)

Module Samples.
Import Time Prices Forecast.

(** A clock reading at 09:00 of day 20000, and a stored price. *)
Definition morning : datetime :=
  {| wall := 20000 * day_us + 9 * 3600000000; aware := true |}.

Definition price_row (red_price white_price : Q) (d : datetime)
    : MarketPrice :=
  {| source := "CAMPCO Mangalore";
     red_arecanut_price := Some red_price;
     white_arecanut_price := Some white_price;
     grade := "Grade A";
     date := d |}.

(** A row that an administrator stored after posting [nan] as the red
    price. *)
Definition null_red_row (white_price : Q) (d : datetime) : MarketPrice :=
  {| source := "Local Mandi";
     red_arecanut_price := None;
     white_arecanut_price := Some white_price;
     grade := "Grade A";
     date := d |}.

(** The clock at hour [h] of day 20000, and one day earlier. *)
Definition at_hour (h : Z) : datetime :=
  {| wall := 20000 * day_us + h * 3600000000; aware := true |}.

Definition eve_at_hour (h : Z) : datetime :=
  {| wall := 19999 * day_us + h * 3600000000; aware := false |}.

Definition fresh : state :=
  {| np_next := 0; py_next := 0; model_log := [] |}.

(** Stand-ins for the library functions and the random draws: every
    draw of [np.random] is 1/2 and every draw of [random] is 2/5, so
    that [uniform(-0.02, 0.02)] and [uniform(-20, 30)] both give 0; the
    rounding to a double is taken as exact. *)
Definition no_field (d : datetime) : Z := 0.
Definition no_text (d : datetime) : string := "".
Definition no_std (l : list Q) : Q := 0.
Definition np_half (n : nat) : Q := 1 # 2.
Definition py_two_fifths (n : nat) : Q := 2 # 5.
Definition exact (x : Q) : Q := x.

Definition sample_prediction :=
  price_prediction no_field no_field no_field no_field no_text no_std
    np_half py_two_fifths exact.

Definition sample_step :=
  forecast_step no_field no_field no_field no_field no_text no_std np_half
    exact.

(** Two weeks of one price. *)
Definition fortnight_at (red_price : Q) : table :=
  replicate 14 (price_row red_price 160 (add_days morning (-1))).

Definition fortnight : table := fortnight_at 150.

(** A draw of [np.random] close to 1, for which
    [uniform(-0.02, 0.02)] is just below 0.02. *)
Definition np_high (n : nat) : Q := 1502875 # 1503000.

Definition sample_step_high :=
  forecast_step no_field no_field no_field no_field no_text no_std np_high
    exact.

(** The red prices of [fortnight_at red_price], as numbers. *)
Definition fortnight_reds (red_price : Q) : list Q := replicate 14 red_price.

(** An administrator, a password check that accepts, the session of
    that administrator after logging in, and one stored setting. *)
Definition admin : Settings.User :=
  {| Settings.id := 1;
     Settings.phone := "9999999999";
     Settings.name := "Admin";
     Settings.user_type := "Developer";
     Settings.password_hash := "hash" |}.

Definition accept (hash password : string) : bool := true.

Definition admin_session : gmap string Settings.sval :=
  (Settings.login accept [admin] "9999999999" "secret1" ∅).1.

Definition site_name : Settings.SystemSettings :=
  {| Settings.setting_key := "site_name";
     Settings.setting_value := "My Farm";
     Settings.setting_type := "text";
     Settings.category := "general";
     Settings.description := "Application name";
     Settings.updated_at := None;
     Settings.updated_by := None |}.

End Samples.


(** ** Views of a prediction *)

Module Outcome.
Import Detection.

(** The result dict of a prediction that did not raise: the validation
    entry, then the entries of the classifiers that ran. *)
Definition result_of (yellow fruit : option Q) : results :=
  [("validation",
    Validation true 75 "Image validation bypassed - user responsibility")]
  ++ match yellow with
     | Some p =>
         [("yellow_leaf",
           Pred (classify "Yellow Leaf Disease" "Healthy Leaf" p))]
     | None => []
     end
  ++ match fruit with
     | Some p =>
         [("fruit_rot",
           Pred (classify "Fruit Rot (Koleroga)" "Healthy Fruit" p))]
     | None => []
     end.

(** Whether a classifier block runs, and what its model returns. *)
Definition ran {img : Type} (disease_models : gmap string (img -> option Q))
    (key : string) (types : list string) (detection_type : string)
    (a : img) : option (option Q) :=
  if py_in detection_type types then
    match disease_models !! key with
    | Some model => Some (model a)
    | None => None
    end
  else None.

End Outcome.

(** ** Upload validation *)

Module Upload.
Import Detection.

Definition ALLOWED_EXTENSIONS : list string := ["png"; "jpg"; "jpeg"; "gif"].

(** [s.lower()] on the bytes of a name: an ASCII capital is lowered and
    any other byte is kept. A name that holds a character outside ASCII
    does not lower to a name of [ALLOWED_EXTENSIONS] in Python either. *)
Definition lower_char (c : Ascii.ascii) : Ascii.ascii :=
  let n := Ascii.nat_of_ascii c in
  if (65 <=? n)%nat && (n <=? 90)%nat then Ascii.ascii_of_nat (n + 32) else c.

Fixpoint lower (s : string) : string :=
  match s with
  | EmptyString => EmptyString
  | String c s' => String (lower_char c) (lower s')
  end.

Definition dot : Ascii.ascii := Ascii.ascii_of_nat 46.

(** ['.' in s]. *)
Fixpoint has_dot (s : string) : bool :=
  match s with
  | EmptyString => false
  | String c s' => Ascii.eqb c dot || has_dot s'
  end.

(** [s.rsplit('.', 1)[1]]: the text after the last '.', [IndexError]
    when [s] has none. *)
Fixpoint after_last_dot (s : string) : option string :=
  match s with
  | EmptyString => None
  | String c s' =>
      match after_last_dot s' with
      | Some ext => Some ext
      | None => if Ascii.eqb c dot then Some s' else None
      end
  end.

Definition allowed_file (filename : string) : bool :=
  has_dot filename
  && match after_last_dot filename with
     | Some ext => py_in (lower ext) ALLOWED_EXTENSIONS
     | None => false
     end.

End Upload.

(** ** Accounts: registration and the profile page *)

Module Accounts.
Import Settings.

(** A row of [users]: the columns that the login and the admin gate
    read, with the remaining ones. The columns [phone] and [email] are
    declared unique; the handlers look a value up before they store it. *)
Record Account := {
  user : User;
  email : option string;
  location : option string;
  farm_size : option string
}.

(** The fields of the registration form; a field that is not posted is
    [None]. *)
Record registration := {
  form_phone : option string;
  form_email : option string;
  form_name : option string;
  form_location : option string;
  form_farm_size : option string;
  form_user_type : option string;
  form_password : option string;
  form_confirm_password : option string
}.

(** A form value that is truthy: posted and not empty. *)
Definition required (v : option string) : option string :=
  match v with
  | Some s => if String.eqb s "" then None else Some s
  | None => None
  end.

(** [a == b] on values that may be [None]. *)
Definition py_eqb (a b : option string) : bool :=
  match a, b with
  | Some x, Some y => String.eqb x y
  | None, None => true
  | _, _ => false
  end.

(** [User.query.filter_by(phone=p).first()],
    [User.query.filter_by(email=e).first()] and
    [db.session.get(User, uid)] with the position of the row. *)
Definition by_phone (accounts : list Account) (p : string)
    : option Account :=
  List.find (fun a => String.eqb (phone (user a)) p) accounts.

Definition by_email (accounts : list Account) (e : string)
    : option Account :=
  List.find (fun a => py_eqb (email a) (Some e)) accounts.

Fixpoint by_id (accounts : list Account) (uid : Z)
    : option (nat * Account) :=
  match accounts with
  | [] => None
  | a :: rest =>
      if (id (user a) =? uid)%Z then Some (0%nat, a)
      else match by_id rest uid with
           | Some (i, b) => Some (S i, b)
           | None => None
           end
  end.

(** The integer primary key given to a new row: 1 in an empty table,
    else one more than the greatest. *)
Definition next_id (accounts : list Account) : Z :=
  match map (fun a => id (user a)) accounts with
  | [] => 1
  | i :: ids => 1 + foldr Z.max i ids
  end.

Section Handlers.

(** [len(s)], [s.isdigit()] and the two functions of
    [werkzeug.security]; a hash depends on a salt drawn by the library. *)
Variable py_len : string -> nat.
Variable isdigit : string -> bool.
Variable generate_password_hash : string -> string -> string.
Variable check_password_hash : string -> string -> bool.

(** The POST branch of [register]. *)
Definition register (salt : string) (f : registration)
    (accounts : list Account) : list Account * response :=
  match required (form_phone f), required (form_name f),
        required (form_user_type f), required (form_password f) with
  | Some phone, Some name, Some user_type, Some password =>
      if negb (py_len phone =? 10)%nat || negb (isdigit phone) then
        (accounts,
         Redirect "register"
           (Some ("Phone number must be 10 digits.", "danger")))
      else if negb (py_eqb (Some password) (form_confirm_password f)) then
        (accounts,
         Redirect "register" (Some ("Passwords do not match.", "danger")))
      else if bool_decide (is_Some (by_phone accounts phone)) then
        (accounts,
         Redirect "register"
           (Some ("Phone number already registered.", "danger")))
      else if match required (form_email f) with
              | Some e => bool_decide (is_Some (by_email accounts e))
              | None => false
              end then
        (accounts,
         Redirect "register"
           (Some ("Email already registered.", "danger")))
      else
        let new_user :=
          {| user := {| id := next_id accounts;
                        phone := phone;
                        name := name;
                        user_type := user_type;
                        password_hash :=
                          generate_password_hash salt password |};
             email := required (form_email f);
             location := form_location f;
             farm_size := form_farm_size f |} in
        (accounts ++ [new_user],
         Redirect "login"
           (Some ("Registration successful! Please login.", "success")))
  | _, _, _, _ =>
      (accounts,
       Redirect "register"
         (Some ("Please fill all required fields.", "danger")))
  end.

Definition set_name (new_name : string) (a : Account) : Account :=
  {| user := {| id := id (user a);
                phone := phone (user a);
                name := new_name;
                user_type := user_type (user a);
                password_hash := password_hash (user a) |};
     email := email a;
     location := location a;
     farm_size := farm_size a |}.

(** [user.set_password(password)]. *)
Definition set_password (salt password : string) (a : Account) : Account :=
  {| user := {| id := id (user a);
                phone := phone (user a);
                name := name (user a);
                user_type := user_type (user a);
                password_hash := generate_password_hash salt password |};
     email := email a;
     location := location a;
     farm_size := farm_size a |}.

(** [profile], POST with action [update_profile], for the user [uid] of
    the session. A change made before an early return is not committed.
    Without a row for [uid] the first attribute access on [None]
    raises. *)
Definition update_profile (uid : Z)
    (new_name new_email new_location new_farm_size : option string)
    (accounts : list Account) : list Account * response :=
  match by_id accounts uid with
  | Some (i, a) =>
      let a := match required new_name with
               | Some n => set_name n a
               | None => a
               end in
      match required new_email with
      | Some e =>
          match by_email accounts e with
          | Some existing_user =>
              if negb (id (user existing_user) =? uid)%Z then
                (accounts,
                 Redirect "profile"
                   (Some ("Email already in use by another account.",
                          "danger")))
              else
                (<[i := {| user := user a;
                           email := Some e;
                           location := new_location;
                           farm_size := new_farm_size |}]> accounts,
                 Redirect "profile"
                   (Some ("Profile updated successfully!", "success")))
          | None =>
              (<[i := {| user := user a;
                         email := Some e;
                         location := new_location;
                         farm_size := new_farm_size |}]> accounts,
               Redirect "profile"
                 (Some ("Profile updated successfully!", "success")))
          end
      | None =>
          (<[i := {| user := user a;
                     email := email a;
                     location := new_location;
                     farm_size := new_farm_size |}]> accounts,
           Redirect "profile"
             (Some ("Profile updated successfully!", "success")))
      end
  | None =>
      (accounts,
       Crash (AttributeError
                (match required new_name, required new_email with
                 | Some _, _ => "name"
                 | None, Some e =>
                     if bool_decide (is_Some (by_email accounts e))
                     then "id" else "email"
                 | None, None => "location"
                 end)))
  end.

(** [profile], POST with action [change_password], with the posted
    current and new passwords. *)
Definition change_password (salt : string) (uid : Z)
    (current_password new_password : string)
    (confirm_password : option string)
    (accounts : list Account) : list Account * response :=
  match by_id accounts uid with
  | Some (i, a) =>
      if negb (check_password_hash (password_hash (user a))
                 current_password) then
        (accounts,
         Redirect "profile"
           (Some ("Current password is incorrect.", "danger")))
      else if negb (py_eqb (Some new_password) confirm_password) then
        (accounts,
         Redirect "profile"
           (Some ("New passwords do not match.", "danger")))
      else if (py_len new_password <? 6)%nat then
        (accounts,
         Redirect "profile"
           (Some ("Password must be at least 6 characters.", "danger")))
      else
        (<[i := set_password salt new_password a]> accounts,
         Redirect "profile"
           (Some ("Password changed successfully!", "success")))
  | None => (accounts, Crash (AttributeError "check_password"))
  end.

End Handlers.

End Accounts.

(** ** Stored detections: viewing, deleting, the dashboard figures *)

Module Records.
Import Detection.

(** A row of [disease_detections] with its key, its owner and its image,
    and the database with the regular files of the upload directory. *)
Record Stored := {
  id : Z;
  user_id : Z;
  image_path : string;
  row : DiseaseDetection
}.

Record store := {
  detections : list Stored;
  files : gset string
}.

Inductive reply :=
| NotFound
| Flashed (target message category : string)
| Shown (detection : Stored).

(** [DiseaseDetection.query.get(detection_id)]. *)
Definition get (detection_id : Z) (tbl : list Stored) : option Stored :=
  List.find (fun d => (id d =? detection_id)%Z) tbl.

(** [detection_result]: the owner and a developer may view a record. *)
Definition detection_result (user : Settings.User) (detection_id : Z)
    (db : store) : reply :=
  match get detection_id (detections db) with
  | None => NotFound
  | Some detection =>
      if negb (user_id detection =? Settings.id user)%Z
         && negb (String.eqb (Settings.user_type user) "Developer")
      then Flashed "user_dashboard" "Access denied." "danger"
      else Shown detection
  end.

(** [s.lstrip('/')]. *)
Fixpoint lstrip_slash (s : string) : string :=
  match s with
  | EmptyString => EmptyString
  | String c s' =>
      if Ascii.eqb c (Ascii.ascii_of_nat 47) then lstrip_slash s' else s
  end.

Section Files.

(** [os.path.join(app.root_path, p)]. *)
Variable join_root : string -> string.

(** The image of a record is removed when it exists; a path that is no
    regular file is left alone. *)
Definition remove_image (image_path : string) (files : gset string)
    : gset string :=
  if String.eqb image_path "" then files
  else files ∖ {[ join_root (lstrip_slash image_path) ]}.

(** [delete_detection]; [referrer] is [request.referrer]. *)
Definition delete_detection (user : Settings.User) (referrer : option string)
    (detection_id : Z) (db : store) : store * reply :=
  match get detection_id (detections db) with
  | None => (db, NotFound)
  | Some detection =>
      if negb (user_id detection =? Settings.id user)%Z then
        (db, Flashed "user_dashboard" "Access denied." "danger")
      else
        ({| detections :=
              List.filter (fun d => negb (id d =? id detection)%Z)
                (detections db);
            files := remove_image (image_path detection) (files db) |},
         Flashed (match referrer with
                  | Some r => if String.eqb r "" then "user_dashboard" else r
                  | None => "user_dashboard"
                  end)
           "Detection record deleted successfully." "success")
  end.

(** [clear_all_detections]. *)
Definition clear_all_detections (user : Settings.User) (db : store)
    : store * reply :=
  let detections_ :=
    List.filter (fun d => (user_id d =? Settings.id user)%Z)
      (detections db) in
  ({| detections :=
        List.filter (fun d => negb (user_id d =? Settings.id user)%Z)
          (detections db);
      files :=
        foldl (fun fs d => remove_image (image_path d) fs) (files db)
          detections_ |},
   Flashed "user_dashboard" "All detection records cleared successfully."
     "success").

End Files.

(** [round(x, 1)]. *)
Definition round1 (x : Q) : Q := inject_Z (Num.round_half_even (x * 10)) / 10.

(** The [insights] of [user_dashboard], from the user's detections and
    the most recent of them. *)
Record insights := {
  total : Z;
  healthy : Z;
  diseased : Z;
  health_rate : Q;
  recent_disease : option string
}.

Definition user_insights (all_detections recent_detections : list Stored)
    : insights :=
  let total_detections := Z.of_nat (length all_detections) in
  let healthy_count :=
    Z.of_nat
      (length (List.filter
                 (fun d => String.eqb (disease_name (row d)) "Healthy")
                 all_detections)) in
  let disease_count := (total_detections - healthy_count)%Z in
  let health_rate :=
    if (total_detections >? 0)%Z
    then round1 (inject_Z healthy_count / inject_Z total_detections * 100)
    else 0 in
  {| total := total_detections;
     healthy := healthy_count;
     diseased := disease_count;
     health_rate := health_rate;
     recent_disease :=
       option_map (fun d => disease_name (row d))
         (List.find
            (fun d => negb (String.eqb (disease_name (row d)) "Healthy"))
            recent_detections) |}.

End Records.

(** ** Further sample inputs *)

Module Cases.

(** Stand-ins for the hash library, [len] and [isdigit]: the hash of a
    password is the password, whatever the salt; the length is counted
    in bytes and the digits are the ASCII ones. *)
Definition plain_hash (salt password : string) : string := password.

Definition plain_check (hash password : string) : bool :=
  String.eqb hash password.

Fixpoint ascii_digits (s : string) : bool :=
  match s with
  | EmptyString => true
  | String c s' =>
      (48 <=? Ascii.nat_of_ascii c)%nat && (Ascii.nat_of_ascii c <=? 57)%nat
      && ascii_digits s'
  end.

Definition isdigit (s : string) : bool :=
  negb (String.eqb s "") && ascii_digits s.

(** A registered farmer and the registration form of a developer. *)
Definition farmer : Accounts.Account :=
  {| Accounts.user :=
       {| Settings.id := 1;
          Settings.phone := "9876543210";
          Settings.name := "Ravi";
          Settings.user_type := "Farmer";
          Settings.password_hash := "secret1" |};
     Accounts.email := Some "ravi@example.com";
     Accounts.location := None;
     Accounts.farm_size := None |}.

Definition developer_form : Accounts.registration :=
  {| Accounts.form_phone := Some "9123456780";
     Accounts.form_email := None;
     Accounts.form_name := Some "Dev";
     Accounts.form_location := None;
     Accounts.form_farm_size := None;
     Accounts.form_user_type := Some "Developer";
     Accounts.form_password := Some "pass";
     Accounts.form_confirm_password := Some "pass" |}.

Definition sample_register :=
  Accounts.register String.length isdigit plain_hash.

Definition sample_change_password :=
  Accounts.change_password String.length plain_hash plain_check.

(** A session that also holds the phone number, and a boolean setting. *)
Definition operator_session : gmap string Settings.sval :=
  <["user_phone" := Settings.SStr "9999999999"]> Samples.admin_session.

Definition maintenance_mode : Settings.SystemSettings :=
  {| Settings.setting_key := "maintenance_mode";
     Settings.setting_value := "false";
     Settings.setting_type := "boolean";
     Settings.category := "general";
     Settings.description := "Enable maintenance mode";
     Settings.updated_at := None;
     Settings.updated_by := None |}.


(** Two stored detections of user 1 and one of user 2. *)
Definition healthy_row : Detection.DiseaseDetection :=
  {| Detection.disease_name := "Healthy";
     Detection.det_severity := "None";
     Detection.det_confidence := 75;
     Detection.det_recommendation :=
       "No treatment required. Your crop looks healthy!";
     Detection.weather_warning :=
       "Weather is favorable for spraying. Best time: 7 AM - 11 AM." |}.

Definition record (n owner : Z) (image : string) : Records.Stored :=
  {| Records.id := n;
     Records.user_id := owner;
     Records.image_path := image;
     Records.row := healthy_row |}.

Definition three_records : Records.store :=
  {| Records.detections :=
       [record 1 1 "/static/uploads/a.jpg"; record 2 2 "static/uploads/b.jpg";
        record 3 1 ""];
     Records.files :=
       {["/app/static/uploads/a.jpg"; "/app/static/uploads/b.jpg"]} |}.

Definition under_app (p : string) : string := "/app/" +:+ p.

End Cases.

(** * Properties *)

Import Num Time.

(** Split a goal into its conjuncts, and no further. *)
Ltac conjuncts := repeat match goal with |- _ /\ _ => split end.

(** ** Comparison and rounding *)

Lemma gtb_lt x y : gtb x y = true <-> y < x.
Proof.
  unfold gtb. rewrite negb_true_iff, <- not_true_iff_false, Qle_bool_iff.
  split; [apply Qnot_le_lt | apply Qlt_not_le].
Qed.

Lemma gtb_le x y : gtb x y = false <-> x <= y.
Proof. unfold gtb. rewrite negb_false_iff. apply Qle_bool_iff. Qed.

Lemma ltb_lt x y : ltb x y = true <-> x < y.
Proof. unfold ltb. fold (gtb y x). apply gtb_lt. Qed.

Lemma ltb_ge x y : ltb x y = false <-> y <= x.
Proof. unfold ltb. fold (gtb y x). apply gtb_le. Qed.

(** A rounded value is within half a unit of what is rounded. *)
Lemma round_half_even_close x :
  Qabs (inject_Z (round_half_even x) - x) <= 1 # 2.
Proof.
  unfold round_half_even.
  pose proof (Qfloor_le x) as Hlo. pose proof (Qlt_floor x) as Hhi.
  rewrite inject_Z_plus in Hhi. change (inject_Z 1) with 1 in Hhi.
  set (n := Qfloor x) in *.
  apply Qabs_Qle_condition.
  destruct (Qcompare (x - inject_Z n) (1 # 2)) eqn:Hcmp.
  - apply Qeq_alt in Hcmp.
    destruct (Z.even n); [| rewrite inject_Z_plus; change (inject_Z 1) with 1];
      split; lra.
  - apply Qlt_alt in Hcmp. split; lra.
  - apply Qgt_alt in Hcmp. rewrite inject_Z_plus.
    change (inject_Z 1) with 1. split; lra.
Qed.

Lemma round2_close x : Qabs (round2 x - x) <= 1 # 200.
Proof.
  unfold round2.
  pose proof (round_half_even_close (x * 100)) as H.
  apply Qabs_Qle_condition in H. apply Qabs_Qle_condition.
  set (z := inject_Z (round_half_even (x * 100))) in *.
  unfold Qdiv. change (/ 100) with (1 # 100).
  split; lra.
Qed.

(** ** Detection *)

Section DetectionFacts.
Import Detection.

Variable img : Type.
Variable disease_models : gmap string (img -> option Q).

Lemma classify_infected infected healthy p :
  1 # 2 < p ->
  classify infected healthy p =
    {| disease := infected; confidence := round2 (p * 100);
       status := "Infected" |}.
Proof. intros H. unfold classify. apply gtb_lt in H. now rewrite H. Qed.

Lemma classify_healthy infected healthy p :
  p <= 1 # 2 ->
  classify infected healthy p =
    {| disease := healthy; confidence := round2 ((1 - p) * 100);
       status := "Healthy" |}.
Proof. intros H. unfold classify. apply gtb_le in H. now rewrite H. Qed.

(** C1. A detection that requests one classifier ([yellow_leaf] or
    [fruit_rot]) whose model is loaded and returns probability [p] on
    the opened image yields, next to the validation entry, exactly that
    classifier's entry: status "Infected" with confidence
    [round(p * 100, 2)] when [p > 0.5], and status "Healthy" with
    confidence [round((1 - p) * 100, 2)] when [p <= 0.5]. *)
Theorem single_classifier_result (key : string) (a : img)
    (model : img -> option Q) (p : Q) :
  key = "yellow_leaf" \/ key = "fruit_rot" ->
  disease_models !! key = Some model ->
  model a = Some p ->
  exists r,
    predict_disease img disease_models (Some a) key =
      Some [("validation",
             Validation true 75
               "Image validation bypassed - user responsibility");
            (key, Pred r)]
    /\ (1 # 2 < p ->
        status r = "Infected" /\ confidence r = round2 (p * 100))
    /\ (p <= 1 # 2 ->
        status r = "Healthy" /\ confidence r = round2 ((1 - p) * 100)).
Proof.
  intros Hkey Hmodel Hp.
  destruct Hkey as [-> | ->].
  - exists (classify "Yellow Leaf Disease" "Healthy Leaf" p).
    split; [| split].
    + unfold predict_disease, run_model; cbn.
      rewrite Hmodel; cbn. rewrite Hp; cbn. reflexivity.
    + intros H. rewrite (classify_infected _ _ _ H). now split.
    + intros H. rewrite (classify_healthy _ _ _ H). now split.
  - exists (classify "Fruit Rot (Koleroga)" "Healthy Fruit" p).
    split; [| split].
    + unfold predict_disease, run_model; cbn.
      rewrite Hmodel; cbn. rewrite Hp; cbn. reflexivity.
    + intros H. rewrite (classify_infected _ _ _ H). now split.
    + intros H. rewrite (classify_healthy _ _ _ H). now split.
Qed.

End DetectionFacts.

(** C1, at a model that returns 0.9 for the yellow-leaf classifier. *)
Lemma single_classifier_result_witness :
  exists r,
    Detection.predict_disease unit
      {["yellow_leaf" := fun _ : unit => Some (9 # 10)]} (Some tt)
      "yellow_leaf" =
      Some [("validation",
             Detection.Validation true 75
               "Image validation bypassed - user responsibility");
            ("yellow_leaf", Detection.Pred r)]
    /\ (1 # 2 < 9 # 10 ->
        Detection.status r = "Infected"
        /\ Detection.confidence r = round2 ((9 # 10) * 100))
    /\ (9 # 10 <= 1 # 2 ->
        Detection.status r = "Healthy"
        /\ Detection.confidence r = round2 ((1 - (9 # 10)) * 100)).
Proof.
  apply (single_classifier_result unit
           {["yellow_leaf" := fun _ : unit => Some (9 # 10)]}
           "yellow_leaf" tt (fun _ => Some (9 # 10)) (9 # 10)).
  - left; reflexivity.
  - reflexivity.
  - reflexivity.
Defined.

Section PrimaryDisease.
Import Detection.

(** With two classifier entries both "Infected" (their confidences are
    above 50, hence positive), the loop picks the strictly more
    confident one, and the first on a tie. *)
Lemma two_infected_primary v k1 k2 r1 r2 :
  k1 <> "validation" -> k2 <> "validation" ->
  status r1 = "Infected" -> status r2 = "Infected" ->
  0 < confidence r1 ->
  primary_loop [("validation", v); (k1, Pred r1); (k2, Pred r2)] None 0 =
    Some (if gtb (confidence r2) (confidence r1)
          then (Some (disease r2), confidence r2)
          else (Some (disease r1), confidence r1)).
Proof.
  intros H1 H2 S1 S2 C1.
  apply String.eqb_neq in H1, H2.
  cbn [primary_loop]. rewrite H1, H2, S1, S2.
  replace (String.eqb "validation" "validation") with true by reflexivity.
  replace (String.eqb "Infected" "Infected") with true by reflexivity.
  apply gtb_lt in C1. rewrite C1. cbn [andb].
  now destruct (gtb (confidence r2) (confidence r1)).
Qed.

(** An entry that is not "Infected" never becomes the primary disease. *)
Lemma primary_loop_skips_healthy k r rest d c :
  k <> "validation" -> status r <> "Infected" ->
  primary_loop ((k, Pred r) :: rest) d c = primary_loop rest d c.
Proof.
  intros Hk Hs. apply String.eqb_neq in Hk, Hs.
  cbn [primary_loop]. now rewrite Hk, Hs.
Qed.

End PrimaryDisease.

(** C2. With both classifiers requested and both reporting "Healthy"
    (probabilities 0.4 and 0.3, confidences 60 and 70), the persisted row
    is "Healthy" with confidence 75: the maximum is taken over every
    entry of the result that has a confidence, the validation entry's
    fixed 75 included, not over the classifier entries alone, whose
    maximum is 70. *)
Theorem all_healthy_confidence_counts_validation :
  let models : gmap string (unit -> option Q) :=
    <["yellow_leaf" := fun _ => Some (4 # 10)]>
      (<["fruit_rot" := fun _ => Some (3 # 10)]> ∅) in
  let predictions := Detection.predict_disease unit models (Some tt) "both" in
  exists v r1 r2 row,
    predictions =
      Some [("validation", v); ("yellow_leaf", Detection.Pred r1);
            ("fruit_rot", Detection.Pred r2)]
    /\ Detection.status r1 = "Healthy" /\ Detection.confidence r1 == 60
    /\ Detection.status r2 = "Healthy" /\ Detection.confidence r2 == 70
    /\ Detection.disease_detection predictions 0 = Detection.Persisted row
    /\ Detection.disease_name row = "Healthy"
    /\ Detection.det_confidence row == 75
    /\ py_max [Detection.confidence r1; Detection.confidence r2] = Some (Detection.confidence r2).
Proof.
  cbv zeta. do 4 eexists.
  split; [vm_compute; reflexivity |].
  repeat split; vm_compute; reflexivity.
Qed.

(** ** Forecasts *)

Section ForecastFacts.
Import Prices Forecast.

Variables year month day weekday : datetime -> Z.
Variable strftime : datetime -> string.
Variable np_std : list Q -> Q.
Variables np_tape py_tape : nat -> Q.
Variable fl : Q -> Q.

Local Abbreviation forecast_step :=
  (forecast_step year month day weekday strftime np_std np_tape fl).
Local Abbreviation forecast_loop :=
  (forecast_loop year month day weekday strftime np_std np_tape fl).
Local Abbreviation model_predictions :=
  (model_predictions year month day weekday strftime np_std np_tape fl).
Local Abbreviation simple_loop := (simple_loop strftime py_tape).
Local Abbreviation generate_simple_predictions :=
  (generate_simple_predictions strftime py_tape).
Local Abbreviation price_prediction :=
  (price_prediction year month day weekday strftime np_std np_tape py_tape
     fl).

Lemma bind_Some {A B} (m : M A) (k : A -> M B) s s' b :
  (m ≫= k) s = (s', Some b) ->
  exists a s1, m s = (s1, Some a) /\ k a s1 = (s', Some b).
Proof.
  unfold mbind, M_bind. destruct (m s) as [s1 [a |]]; [eauto | discriminate].
Qed.

Lemma bind_run {A B} (m : M A) (k : A -> M B) s s1 a :
  m s = (s1, Some a) -> (m ≫= k) s = k a s1.
Proof. intros H. unfold mbind, M_bind. now rewrite H. Qed.

(** With both prices of the last row present, the fallback loop does not
    raise, does not call the model, and appends one entry per day of its
    range, each from two draws of its own. *)
Lemma simple_loop_spec last_price r w now range :
  red_arecanut_price last_price = Some r ->
  white_arecanut_price last_price = Some w ->
  forall predictions s,
  exists added s',
    simple_loop last_price now range predictions s =
      (s', Some (predictions ++ added))
    /\ length added = length range
    /\ np_next s' = np_next s
    /\ py_next s' = (py_next s + 2 * length range)%nat
    /\ model_log s' = model_log s
    /\ Forall (fun e => exists n,
                 red e = round2 (r + (-20 + (30 - -20) * py_tape n))
                 /\ white e = round2 (w + (-20 + (30 - -20)
                                                 * py_tape (S n))))
         added
    /\ map fc_date added = map (fun i => strftime (add_days now i)) range.
Proof.
  destruct last_price as [src ro wo g d]. cbn. intros -> ->.
  induction range as [| i range IH]; intros predictions s.
  - exists [], s. cbn. rewrite app_nil_r.
    conjuncts; [reflexivity | reflexivity | reflexivity | lia | reflexivity
               | constructor | reflexivity].
  - pose (e := {| fc_date := strftime (add_days now i);
                  red := round2 (r + (-20 + (30 - -20)
                                             * py_tape (py_next s)));
                  white := round2 (w + (-20 + (30 - -20)
                                               * py_tape (S (py_next s)))) |}).
    pose (s2 := {| np_next := np_next s; py_next := S (S (py_next s));
                   model_log := model_log s |}).
    assert (Hstep :
      simple_loop {| source := src; red_arecanut_price := Some r;
                     white_arecanut_price := Some w; grade := g;
                     date := d |} now (i :: range) predictions s =
      simple_loop {| source := src; red_arecanut_price := Some r;
                     white_arecanut_price := Some w; grade := g;
                     date := d |} now range (predictions ++ [e]) s2)
      by reflexivity.
    destruct (IH (predictions ++ [e]) s2)
      as (added & s' & Hrun & Hlen & Hnp & Hpy & Hlog & Hall & Hdates).
    exists (e :: added), s'. conjuncts.
    + rewrite Hstep, Hrun. now rewrite <- app_assoc.
    + cbn. now rewrite Hlen.
    + exact Hnp.
    + rewrite Hpy. cbn [py_next s2 length]. lia.
    + exact Hlog.
    + constructor; [| exact Hall]. exists (py_next s). split; reflexivity.
    + cbn [map]. now rewrite Hdates.
Qed.

(** With a NULL price in the last row the first iteration of the
    fallback loop raises: after one draw when the red price is NULL,
    after two when only the white price is. *)
Lemma simple_loop_null last_price now i range predictions s :
  red_arecanut_price last_price = None
  \/ white_arecanut_price last_price = None ->
  exists s',
    simple_loop last_price now (i :: range) predictions s = (s', None)
    /\ np_next s' = np_next s
    /\ model_log s' = model_log s
    /\ py_next s' =
         (py_next s + match red_arecanut_price last_price with
                      | Some _ => 2
                      | None => 1
                      end)%nat.
Proof.
  destruct last_price as [src [r |] [w |] g d]; cbn [red_arecanut_price
    white_arecanut_price]; intros [H | H]; try discriminate H;
    (eexists; split; [reflexivity |]; cbn [np_next py_next model_log];
     conjuncts; [reflexivity | reflexivity | lia]).
Qed.

(** The three outcomes of the fallback. *)
Lemma generate_simple_predictions_spec historical_prices now s :
  match last historical_prices with
  | None => generate_simple_predictions historical_prices now s = (s, Some [])
  | Some last_price =>
      match red_arecanut_price last_price,
            white_arecanut_price last_price with
      | Some r, Some w =>
          exists predictions s',
            generate_simple_predictions historical_prices now s =
              (s', Some predictions)
            /\ length predictions = 15%nat
            /\ np_next s' = np_next s
            /\ py_next s' = (py_next s + 30)%nat
            /\ model_log s' = model_log s
            /\ Forall (fun e => exists n,
                         red e = round2 (r + (-20 + (30 - -20) * py_tape n))
                         /\ white e =
                              round2 (w + (-20 + (30 - -20)
                                                 * py_tape (S n))))
                 predictions
            /\ map fc_date predictions =
                 map (fun i => strftime (add_days now i)) range_1_16
      | _, _ =>
          exists s',
            generate_simple_predictions historical_prices now s = (s', None)
            /\ np_next s' = np_next s
            /\ model_log s' = model_log s
            /\ py_next s' =
                 (py_next s + match red_arecanut_price last_price with
                              | Some _ => 2
                              | None => 1
                              end)%nat
      end
  end.
Proof.
  unfold Forecast.generate_simple_predictions.
  destruct (last historical_prices) as [last_price |]; [| reflexivity].
  destruct (red_arecanut_price last_price) as [r |] eqn:Hr;
    [destruct (white_arecanut_price last_price) as [w |] eqn:Hw |].
  - destruct (simple_loop_spec last_price r w now range_1_16 Hr Hw [] s)
      as (added & s' & Hrun & Hlen & Hnp & Hpy & Hlog & Hall & Hdates).
    exists added, s'.
    conjuncts; [exact Hrun | exact Hlen | exact Hnp | exact Hpy | exact Hlog
               | exact Hall | exact Hdates].
  - destruct (simple_loop_null last_price now 1
                (map Z.of_nat (seq 2 14)) [] s (or_intror Hw))
      as (s' & Hrun & Hnp & Hlog & Hpy).
    rewrite Hr in Hpy. exists s'.
    conjuncts; [exact Hrun | exact Hnp | exact Hlog | exact Hpy].
  - destruct (simple_loop_null last_price now 1
                (map Z.of_nat (seq 2 14)) [] s (or_introl Hr))
      as (s' & Hrun & Hnp & Hlog & Hpy).
    rewrite Hr in Hpy. exists s'.
    conjuncts; [exact Hrun | exact Hnp | exact Hlog | exact Hpy].
Qed.

(** A completed run of the regression loop appends one entry per day
    of its range. *)
Lemma forecast_loop_length model historical_prices now range :
  forall base_prices predictions s s' result,
    forecast_loop model historical_prices now range base_prices
      predictions s = (s', Some result) ->
    length result = (length predictions + length range)%nat.
Proof.
  induction range as [| i range IH];
    intros base_prices predictions s s' result Hrun.
  - cbn in Hrun. injection Hrun as _ <-. cbn. lia.
  - cbn [Forecast.forecast_loop] in Hrun.
    apply bind_Some in Hrun as ([entry base'] & s1 & _ & Hrun).
    apply IH in Hrun. rewrite Hrun, length_app. cbn. lia.
Qed.

(** What one iteration of the regression loop does: one call of the
    model on the features of the day, the clamp around the average of
    the last 7 stored red prices, and the entry built from the clamped
    value. *)
Lemma forecast_step_inv model historical_prices now i base_prices s s' e
    base_prices' :
  forecast_step model historical_prices now i base_prices s =
    (s', Some (e, base_prices')) ->
  exists row raw s1 recent v,
    step_features year month day weekday np_std historical_prices
      (add_days now i) base_prices = Some row
    /\ model row = Some raw
    /\ model_log s1 = model_log s ++ [row]
    /\ reds (lastn 7 historical_prices) = Some recent
    /\ clamp np_tape (np_mean recent) raw s1 = (s', Some v)
    /\ last base_prices' = Some v
    /\ fc_date e = strftime (add_days now i)
    /\ red e = round2 v
    /\ white e = round2 (fl (v * double_1_15)).
Proof.
  intros Hrun. unfold Forecast.forecast_step in Hrun.
  apply bind_Some in Hrun as (row & s0 & Hrow & Hrun).
  unfold lift in Hrow. injection Hrow as <- Hrow.
  apply bind_Some in Hrun as (raw & s1 & Hraw & Hrun).
  unfold predict in Hraw. injection Hraw as <- Hraw.
  apply bind_Some in Hrun as (avg & s2 & Havg & Hrun).
  unfold lift in Havg. injection Havg as <- Havg.
  destruct (reds (lastn 7 historical_prices)) as [recent |] eqn:Hrecent;
    [| discriminate Havg].
  cbn in Havg. injection Havg as <-.
  apply bind_Some in Hrun as (v & s3 & Hclamp & Hrun).
  injection Hrun as <- <- <-.
  exists row, raw,
    {| np_next := np_next s; py_next := py_next s;
       model_log := model_log s ++ [row] |}, recent, v.
  conjuncts; [exact Hrow | exact Hraw | reflexivity | reflexivity
             | exact Hclamp | | reflexivity | reflexivity | reflexivity].
  destruct (30 <? length (base_prices ++ [v]))%nat eqn:Hlen.
  - destruct base_prices as [| b base_prices]; [discriminate Hlen |].
    cbn [app tail]. apply last_snoc.
  - apply last_snoc.
Qed.

(** The entries of a completed run of the regression loop are dated
    with the days of its range, in order. *)
Lemma forecast_loop_dates model historical_prices now range :
  forall base_prices predictions s s' result,
    forecast_loop model historical_prices now range base_prices
      predictions s = (s', Some result) ->
    map fc_date result =
      map fc_date predictions
      ++ map (fun i => strftime (add_days now i)) range.
Proof.
  induction range as [| i range IH];
    intros base_prices predictions s s' result Hrun.
  - cbn in Hrun. injection Hrun as _ <-. cbn. now rewrite app_nil_r.
  - cbn [Forecast.forecast_loop] in Hrun.
    apply bind_Some in Hrun as ([entry base'] & s1 & Hstep & Hrun).
    apply IH in Hrun. rewrite Hrun, map_app, <- app_assoc. f_equal.
    apply forecast_step_inv in Hstep
      as (row & raw & s2 & recent & v & _ & _ & _ & _ & _ & _ & Hdate & _).
    cbn [map]. now rewrite Hdate.
Qed.

(** What a step of the regression loop consumes: no draw of [random],
    and at most one model call, exactly one when it completes. *)
Lemma forecast_step_effects model historical_prices now i base_prices s s'
    result :
  forecast_step model historical_prices now i base_prices s = (s', result) ->
  py_next s' = py_next s
  /\ (length (model_log s') <= S (length (model_log s)))%nat
  /\ (is_Some result -> length (model_log s') = S (length (model_log s))).
Proof.
  unfold Forecast.forecast_step, mbind, M_bind, lift, predict, clamp,
    np_uniform, mret, M_ret.
  destruct (step_features _ _ _ _ _ _ _ _) as [row |].
  - destruct (model row) as [raw |].
    + destruct (reds (lastn 7 historical_prices)) as [recent |];
        cbn [mbind option_bind].
      * destruct (ltb raw 100 || gtb raw 1000); intros H;
          injection H as <- <-; cbn [py_next model_log];
          rewrite length_app; cbn [length];
          (conjuncts; [reflexivity | lia | intros _; lia]).
      * intros H. injection H as <- <-. cbn [py_next model_log].
        rewrite length_app. cbn [length].
        conjuncts; [reflexivity | lia | intros [x Hx]; discriminate Hx].
    + intros H. injection H as <- <-. cbn [py_next model_log].
      rewrite length_app. cbn [length].
      conjuncts; [reflexivity | lia | intros [x Hx]; discriminate Hx].
  - intros H. injection H as <- <-.
    conjuncts; [reflexivity | lia | intros [x Hx]; discriminate Hx].
Qed.

Lemma forecast_loop_effects model historical_prices now range :
  forall base_prices predictions s s' result,
    forecast_loop model historical_prices now range base_prices
      predictions s = (s', result) ->
    py_next s' = py_next s
    /\ (length (model_log s') <= length (model_log s) + length range)%nat
    /\ (is_Some result ->
        length (model_log s') = (length (model_log s) + length range)%nat).
Proof.
  induction range as [| i range IH];
    intros base_prices predictions s s' result Hrun.
  - cbn in Hrun. injection Hrun as <- <-. cbn [length].
    conjuncts; [reflexivity | lia | intros _; lia].
  - cbn [Forecast.forecast_loop] in Hrun.
    unfold mbind, M_bind in Hrun.
    destruct (forecast_step model historical_prices now i base_prices s)
      as [s1 [[entry base'] |]] eqn:Hstep;
      apply forecast_step_effects in Hstep as (Hpy1 & Hle1 & Heq1).
    + apply IH in Hrun as (Hpy & Hle & Heq).
      specialize (Heq1 (ltac:(eexists; reflexivity))).
      cbn [length].
      conjuncts; [congruence | lia | intros H; specialize (Heq H); lia].
    + injection Hrun as <- <-. cbn [length].
      conjuncts; [exact Hpy1 | lia | intros [x Hx]; discriminate Hx].
Qed.

(** The body of the [try] block: a completed run read its 14 lag prices
    as numbers and went through the 15 iterations; any run makes no
    draw of [random] and at most 15 model calls, exactly 15 when it
    completes. *)
Lemma model_predictions_inv model historical_prices now s s' result :
  model_predictions model historical_prices now s = (s', result) ->
  py_next s' = py_next s
  /\ (length (model_log s') <= length (model_log s) + 15)%nat
  /\ (forall predictions,
        result = Some predictions ->
        length (model_log s') = (length (model_log s) + 15)%nat
        /\ exists base_prices,
             reds (lastn 14 historical_prices) = Some base_prices
             /\ forecast_loop model historical_prices now range_1_16
                  base_prices [] s = (s', Some predictions)).
Proof.
  unfold Forecast.model_predictions, mbind, M_bind, lift.
  destruct (reds (lastn 14 historical_prices)) as [base_prices |].
  - intros Hrun.
    destruct (forecast_loop_effects _ _ _ _ _ _ _ _ _ Hrun)
      as (Hpy & Hle & Heq).
    conjuncts; [exact Hpy | exact Hle |].
    intros predictions ->. split.
    + apply Heq. eexists; reflexivity.
    + exists base_prices. split; [reflexivity | exact Hrun].
  - intros H. injection H as <- <-.
    conjuncts; [reflexivity | lia | intros predictions H; discriminate H].
Qed.

(** The paths of [price_prediction]: the regression completes, or the
    fallback runs, from the start or after the regression was given up. *)
Lemma price_prediction_cases price_model (historical_prices : table) now
    s :
  (exists model s1 predictions,
     price_model = Some model
     /\ (14 <= length historical_prices)%nat
     /\ model_predictions model historical_prices now s =
          (s1, Some predictions)
     /\ price_prediction price_model historical_prices now s =
          (s1, Some predictions))
  \/ ((price_model = None \/ (length historical_prices < 14)%nat)
      /\ price_prediction price_model historical_prices now s =
           generate_simple_predictions historical_prices now s)
  \/ (exists model s1,
        price_model = Some model
        /\ (14 <= length historical_prices)%nat
        /\ model_predictions model historical_prices now s = (s1, None)
        /\ price_prediction price_model historical_prices now s =
             generate_simple_predictions historical_prices now s1).
Proof.
  unfold Forecast.price_prediction.
  destruct price_model as [model |];
    [| right; left; split; [now left | reflexivity]].
  destruct (bool_decide (historical_prices = [])) eqn:Hnil; cbn [negb andb].
  { right; left. split; [| reflexivity]. right.
    apply bool_decide_eq_true_1 in Hnil. subst. cbn. lia. }
  destruct (Nat.leb_spec 14 (length historical_prices)) as [Hlen | Hlen].
  - destruct (model_predictions model historical_prices now s)
      as [s1 [predictions |]] eqn:Hrun.
    + left. exists model, s1, predictions.
      conjuncts; [reflexivity | exact Hlen | exact Hrun | reflexivity].
    + right; right. exists model, s1.
      conjuncts; [reflexivity | exact Hlen | exact Hrun | reflexivity].
  - right; left. split; [now right | reflexivity].
Qed.

(** C3, as the code has it. With fewer than 14 rows of history the
    regression model is not called. An empty history gives an empty
    forecast. When the most recent row holds a red and a white price the
    request returns a forecast of 15 entries, dated with the 15 days
    that follow today, in order. Any forecast that is returned for a
    non-empty history has these 15 entries; the request returns none,
    failing on an uncaught exception, only when the most recent row
    holds NULL for a price. *)
Theorem forecast_length price_model (historical_prices : table) now s :
  ((length historical_prices < 14)%nat ->
   model_log (price_prediction price_model historical_prices now s).1 =
   model_log s)
  /\ (historical_prices = [] ->
      price_prediction price_model historical_prices now s = (s, Some []))
  /\ (forall last_price r w,
        last historical_prices = Some last_price ->
        red_arecanut_price last_price = Some r ->
        white_arecanut_price last_price = Some w ->
        exists predictions s',
          price_prediction price_model historical_prices now s =
            (s', Some predictions)
          /\ length predictions = 15%nat
          /\ map fc_date predictions =
               map (fun i => strftime (add_days now i)) range_1_16)
  /\ (forall predictions s',
        price_prediction price_model historical_prices now s =
          (s', Some predictions) ->
        length predictions =
          (if bool_decide (historical_prices = []) then 0 else 15)%nat
        /\ map fc_date predictions =
             (if bool_decide (historical_prices = []) then []
              else map (fun i => strftime (add_days now i)) range_1_16))
  /\ (forall s',
        price_prediction price_model historical_prices now s = (s', None) ->
        exists last_price,
          last historical_prices = Some last_price
          /\ (red_arecanut_price last_price = None
              \/ white_arecanut_price last_price = None)).
Proof.
  assert (Hregression : forall model s1 predictions,
    (14 <= length historical_prices)%nat ->
    model_predictions model historical_prices now s = (s1, Some predictions) ->
    length predictions = 15%nat
    /\ map fc_date predictions =
         map (fun i => strftime (add_days now i)) range_1_16
    /\ bool_decide (historical_prices = []) = false).
  { intros model s1 predictions Hlen Hrun.
    apply model_predictions_inv in Hrun as (_ & _ & Hrun).
    destruct (Hrun predictions eq_refl) as (_ & base_prices & _ & Hloop).
    pose proof (forecast_loop_length _ _ _ _ _ _ _ _ _ Hloop) as Hn.
    pose proof (forecast_loop_dates _ _ _ _ _ _ _ _ _ Hloop) as Hd.
    conjuncts; [exact Hn | exact Hd |].
    apply bool_decide_eq_false_2. intros ->. cbn in Hlen. lia. }
  assert (Hfallback : forall s0,
    (historical_prices = [] ->
     generate_simple_predictions historical_prices now s0 = (s0, Some []))
    /\ model_log (generate_simple_predictions historical_prices now s0).1 =
       model_log s0
    /\ (forall last_price r w,
          last historical_prices = Some last_price ->
          red_arecanut_price last_price = Some r ->
          white_arecanut_price last_price = Some w ->
          exists predictions s',
            generate_simple_predictions historical_prices now s0 =
              (s', Some predictions)
            /\ length predictions = 15%nat
            /\ map fc_date predictions =
                 map (fun i => strftime (add_days now i)) range_1_16)
    /\ (forall predictions s',
          generate_simple_predictions historical_prices now s0 =
            (s', Some predictions) ->
          length predictions =
            (if bool_decide (historical_prices = []) then 0 else 15)%nat
          /\ map fc_date predictions =
               (if bool_decide (historical_prices = []) then []
                else map (fun i => strftime (add_days now i)) range_1_16))
    /\ (forall s',
          generate_simple_predictions historical_prices now s0 = (s', None) ->
          exists last_price,
            last historical_prices = Some last_price
            /\ (red_arecanut_price last_price = None
                \/ white_arecanut_price last_price = None))).
  { intros s0.
    pose proof (generate_simple_predictions_spec historical_prices now s0)
      as Hspec.
    destruct (last historical_prices) as [last_price |] eqn:Hlast.
    - assert (Hne : bool_decide (historical_prices = []) = false).
      { apply bool_decide_eq_false_2. intros ->. discriminate Hlast. }
      rewrite Hne.
      destruct (red_arecanut_price last_price) as [r |] eqn:Hr;
        [destruct (white_arecanut_price last_price) as [w |] eqn:Hw |].
      + destruct Hspec as (predictions & s' & Hrun & Hn & _ & _ & Hlog & _
                           & Hd).
        rewrite Hrun. cbn [fst]. conjuncts.
        * intros ->. discriminate Hlast.
        * exact Hlog.
        * intros lp r' w' _ _ _. exists predictions, s'.
          conjuncts; [reflexivity | exact Hn | exact Hd].
        * intros p s'' H. injection H as <- <-. split; [exact Hn | exact Hd].
        * intros s'' H. discriminate H.
      + destruct Hspec as (s' & Hrun & _ & Hlog & _).
        rewrite Hrun. cbn [fst]. conjuncts.
        * intros ->. discriminate Hlast.
        * exact Hlog.
        * intros lp r' w' [= <-] _ Hw'. rewrite Hw in Hw'. discriminate Hw'.
        * intros p s'' H. discriminate H.
        * intros s'' _. exists last_price. split; [reflexivity | now right].
      + destruct Hspec as (s' & Hrun & _ & Hlog & _).
        rewrite Hrun. cbn [fst]. conjuncts.
        * intros ->. discriminate Hlast.
        * exact Hlog.
        * intros lp r' w' [= <-] Hr' _. rewrite Hr in Hr'. discriminate Hr'.
        * intros p s'' H. discriminate H.
        * intros s'' _. exists last_price. split; [reflexivity | now left].
    - apply last_None in Hlast. subst historical_prices.
      rewrite Hspec. cbn [fst]. conjuncts.
      + reflexivity.
      + reflexivity.
      + intros lp r w H. discriminate H.
      + intros p s'' H. injection H as <- <-. split; reflexivity.
      + intros s'' H. discriminate H. }
  destruct (price_prediction_cases price_model historical_prices now s)
    as [(model & s1 & predictions & -> & Hlen & Hrun & Hpp)
       | [(Hshort & Hpp) | (model & s1 & -> & Hlen & Hrun & Hpp)]];
    rewrite Hpp.
  - destruct (Hregression model s1 predictions Hlen Hrun) as (Hn & Hd & Hne).
    rewrite Hne. cbn [fst]. conjuncts.
    + intros H. lia.
    + intros ->. cbn in Hlen. lia.
    + intros lp r w _ _ _. exists predictions, s1.
      conjuncts; [reflexivity | exact Hn | exact Hd].
    + intros p s' H. injection H as <- <-. split; [exact Hn | exact Hd].
    + intros s' H. discriminate H.
  - destruct (Hfallback s) as (Hnil & Hlog & Hgood & Hany & Hnone).
    conjuncts; [intros _; exact Hlog | exact Hnil | exact Hgood | exact Hany
               | exact Hnone].
  - destruct (Hfallback s1) as (Hnil & Hlog & Hgood & Hany & Hnone).
    conjuncts; [intros H; lia | intros ->; cbn in Hlen; lia | exact Hgood
               | exact Hany | exact Hnone].
Qed.

(** The clamp keeps an output inside [100, 1000] and replaces any other
    by the recent average scaled by a factor between 0.98 and 1.02. *)
Lemma clamp_spec recent_avg raw s s' v :
  (forall n, 0 <= np_tape n /\ np_tape n <= 1) ->
  clamp np_tape recent_avg raw s = (s', Some v) ->
  (100 <= raw /\ raw <= 1000 -> v = raw)
  /\ (raw < 100 \/ 1000 < raw ->
      Qabs (v - recent_avg) <= (2 # 100) * Qabs recent_avg).
Proof.
  intros Htape Hrun. unfold clamp in Hrun.
  destruct (ltb raw 100 || gtb raw 1000) eqn:Hout.
  - injection Hrun as _ <-.
    destruct (Htape (np_next s)) as [Hlo Hhi].
    set (t := np_tape (np_next s)) in *.
    split.
    + intros [H100 H1000]. apply orb_true_iff in Hout as [Hout | Hout].
      * apply ltb_lt in Hout. lra.
      * apply gtb_lt in Hout. lra.
    + intros _. apply Qabs_Qle_condition.
      destruct (Qlt_le_dec recent_avg 0) as [Hneg | Hpos].
      * rewrite (Qabs_neg recent_avg) by lra. split; nra.
      * rewrite (Qabs_pos recent_avg) by lra. split; nra.
  - injection Hrun as _ <-.
    apply orb_false_iff in Hout as [Hlt Hgt].
    apply ltb_ge in Hlt. apply gtb_le in Hgt.
    split; [reflexivity |]. intros [H | H]; lra.
Qed.

(** C7, as the code has it. In a step of the regression forecast the
    model is called once, on the features of the day. If its output lies
    in [100, 1000] that output is the red prediction of the step;
    otherwise the red prediction is a value within 2% of the average red
    price of the last 7 rows of the history. The red prediction is what
    the step appends to the lag prices; the entry reports it rounded to
    2 decimals, hence within 0.005 of it. *)
Theorem forecast_step_clamp model historical_prices now i base_prices s s' e
    base_prices' :
  (forall n, 0 <= np_tape n /\ np_tape n <= 1) ->
  forecast_step model historical_prices now i base_prices s =
    (s', Some (e, base_prices')) ->
  exists row raw recent v,
    step_features year month day weekday np_std historical_prices
      (add_days now i) base_prices = Some row
    /\ model row = Some raw
    /\ model_log s' = model_log s ++ [row]
    /\ reds (lastn 7 historical_prices) = Some recent
    /\ last base_prices' = Some v
    /\ red e = round2 v
    /\ Qabs (red e - v) <= 1 # 200
    /\ (100 <= raw /\ raw <= 1000 -> v = raw)
    /\ (raw < 100 \/ 1000 < raw ->
        Qabs (v - np_mean recent) <= (2 # 100) * Qabs (np_mean recent)).
Proof.
  intros Htape Hrun.
  apply forecast_step_inv in Hrun
    as (row & raw & s1 & recent & v & Hrow & Hraw & Hlog & Hrecent & Hclamp
        & Hlast & _ & Hred & _).
  destruct (clamp_spec _ _ _ _ _ Htape Hclamp) as [Hin Hout].
  exists row, raw, recent, v.
  conjuncts; [exact Hrow | exact Hraw | | exact Hrecent | exact Hlast
             | exact Hred | rewrite Hred; apply round2_close | exact Hin
             | exact Hout].
  rewrite <- Hlog. unfold clamp in Hclamp.
  destruct (ltb raw 100 || gtb raw 1000); injection Hclamp as <- _;
    reflexivity.
Qed.

(** Every entry of a completed regression loop is the entry of one of
    its steps. *)
Lemma forecast_loop_steps model historical_prices now range :
  forall base_prices predictions s s' result,
    forecast_loop model historical_prices now range base_prices
      predictions s = (s', Some result) ->
    Forall (fun e => exists i base_prices s0 s1 base_prices1,
              forecast_step model historical_prices now i base_prices s0 =
                (s1, Some (e, base_prices1)))
      predictions ->
    Forall (fun e => exists i base_prices s0 s1 base_prices1,
              forecast_step model historical_prices now i base_prices s0 =
                (s1, Some (e, base_prices1)))
      result.
Proof.
  induction range as [| i range IH];
    intros base_prices predictions s s' result Hrun Hall.
  - cbn in Hrun. injection Hrun as _ <-. exact Hall.
  - cbn [Forecast.forecast_loop] in Hrun.
    apply bind_Some in Hrun as ([entry base'] & s1 & Hstep & Hrun).
    apply (IH _ _ _ _ _ Hrun).
    apply Forall_app. split; [exact Hall |].
    constructor; [| constructor].
    exists i, base_prices, s, s1, base'. exact Hstep.
Qed.

(** The double product by [1.15], rounded to 2 decimals, against the
    exact product by 1.15, when the product is rounded to a double with
    a relative error of at most 2^-53. *)
Lemma scaled_close v :
  Qabs (fl (v * double_1_15) - v * double_1_15)
  <= Qabs (v * double_1_15) * (1 # 9007199254740992) ->
  Qabs (round2 (fl (v * double_1_15)) - (115 # 100) * v)
  <= (1 # 200) + Qabs v * (1 # 4503599627370496).
Proof.
  intros H1.
  pose proof (round2_close (fl (v * double_1_15))) as H2.
  set (y := fl (v * double_1_15)) in *.
  set (z := round2 y) in *.
  apply Qabs_Qle_condition in H2. apply Qabs_Qle_condition.
  unfold double_1_15 in *.
  destruct (Qlt_le_dec v 0) as [Hneg | Hpos].
  - rewrite (Qabs_neg (v * _)) in H1 by nra.
    rewrite (Qabs_neg v) by lra.
    apply Qabs_Qle_condition in H1. split; lra.
  - rewrite (Qabs_pos (v * _)) in H1 by nra.
    rewrite (Qabs_pos v) by lra.
    apply Qabs_Qle_condition in H1. split; lra.
Qed.

(** C6, as the code has it. A forecast that is returned comes from one
    of two paths. On the regression path every entry is the entry of a
    step of the loop: its red price is the 2-decimal rounding of the
    step's red prediction (the value the step appends to the lag
    prices), and its white price is the 2-decimal rounding of the double
    product of that unrounded prediction by 1.15; when that product is
    rounded with a relative error of at most 2^-53, as a double product
    is, the white price is within 0.005 + |v| / 2^52 of 1.15 times the
    prediction [v]. On the fallback
    path the white price is the last stored white price plus a random
    perturbation of its own (a draw other than the one added to the
    last red price), rounded to 2 decimals. *)
Theorem white_price_derivation price_model (historical_prices : table)
    now s s' predictions :
  price_prediction price_model historical_prices now s =
    (s', Some predictions) ->
  (exists model,
     price_model = Some model
     /\ model_predictions model historical_prices now s =
          (s', Some predictions)
     /\ Forall (fun e => exists i base_prices s0 s1 base_prices1 v,
                  forecast_step model historical_prices now i base_prices s0 =
                    (s1, Some (e, base_prices1))
                  /\ last base_prices1 = Some v
                  /\ red e = round2 v
                  /\ white e = round2 (fl (v * double_1_15))
                  /\ (Qabs (fl (v * double_1_15) - v * double_1_15)
                      <= Qabs (v * double_1_15) * (1 # 9007199254740992) ->
                      Qabs (white e - (115 # 100) * v)
                      <= (1 # 200) + Qabs v * (1 # 4503599627370496)))
          predictions)
  \/ (exists s0 last_price r w,
        generate_simple_predictions historical_prices now s0 =
          (s', Some predictions)
        /\ last historical_prices = Some last_price
        /\ red_arecanut_price last_price = Some r
        /\ white_arecanut_price last_price = Some w
        /\ Forall (fun e => exists n,
                     red e = round2 (r + (-20 + (30 - -20) * py_tape n))
                     /\ white e =
                          round2 (w + (-20 + (30 - -20) * py_tape (S n))))
             predictions)
  \/ (historical_prices = [] /\ predictions = []).
Proof.
  intros Hreturn.
  assert (Hfallback : forall s0,
    generate_simple_predictions historical_prices now s0 =
      (s', Some predictions) ->
    (exists s0 last_price r w,
       generate_simple_predictions historical_prices now s0 =
         (s', Some predictions)
       /\ last historical_prices = Some last_price
       /\ red_arecanut_price last_price = Some r
       /\ white_arecanut_price last_price = Some w
       /\ Forall (fun e => exists n,
                    red e = round2 (r + (-20 + (30 - -20) * py_tape n))
                    /\ white e =
                         round2 (w + (-20 + (30 - -20) * py_tape (S n))))
            predictions)
    \/ (historical_prices = [] /\ predictions = [])).
  { intros s0 Hgen.
    pose proof (generate_simple_predictions_spec historical_prices now s0)
      as Hspec.
    destruct (last historical_prices) as [last_price |] eqn:Hlast.
    - left.
      destruct (red_arecanut_price last_price) as [r |] eqn:Hr;
        [destruct (white_arecanut_price last_price) as [w |] eqn:Hw |].
      + destruct Hspec as (p & s1 & Hrun & _ & _ & _ & _ & Hall & _).
        rewrite Hrun in Hgen. injection Hgen as -> ->.
        exists s0, last_price, r, w.
        conjuncts; [exact Hrun | reflexivity | exact Hr | exact Hw
                   | exact Hall].
      + destruct Hspec as (s1 & Hrun & _). rewrite Hrun in Hgen.
        discriminate Hgen.
      + destruct Hspec as (s1 & Hrun & _). rewrite Hrun in Hgen.
        discriminate Hgen.
    - right. rewrite Hspec in Hgen. injection Hgen as _ <-.
      apply last_None in Hlast. now split. }
  destruct (price_prediction_cases price_model historical_prices now s)
    as [(model & s1 & p & -> & Hlen & Hrun & Hpp)
       | [(Hshort & Hpp) | (model & s1 & -> & Hlen & Hrun & Hpp)]];
    rewrite Hpp in Hreturn.
  - injection Hreturn as -> ->. left. exists model.
    conjuncts; [reflexivity | exact Hrun |].
    apply model_predictions_inv in Hrun as (_ & _ & Hrun).
    destruct (Hrun predictions eq_refl) as (_ & base_prices & _ & Hloop).
    pose proof (forecast_loop_steps _ _ _ _ _ _ _ _ _ Hloop (Forall_nil_2 _))
      as Hsteps.
    eapply Forall_impl; [exact Hsteps |].
    intros e (i & bp & s0 & s2 & bp1 & Hstep).
    destruct (forecast_step_inv _ _ _ _ _ _ _ _ _ Hstep)
      as (row & raw & s3 & recent & v & _ & _ & _ & _ & _ & Hlast & _ & Hred
          & Hwhite).
    exists i, bp, s0, s2, bp1, v.
    conjuncts; [exact Hstep | exact Hlast | exact Hred | exact Hwhite |].
    rewrite Hwhite. exact (scaled_close v).
  - right. exact (Hfallback s Hreturn).
  - right. exact (Hfallback s1 Hreturn).
Qed.

End ForecastFacts.

(** C3, on a history of one row with the model loaded. *)
Lemma forecast_length_witness :
  exists predictions s',
    Samples.sample_prediction (Some (fun _ => Some 500))
      [Samples.price_row 150 160 Samples.morning] Samples.morning
      Samples.fresh = (s', Some predictions)
    /\ length predictions = 15%nat
    /\ map Forecast.fc_date predictions =
         map (fun i => Samples.no_text (add_days Samples.morning i))
           Forecast.range_1_16.
Proof.
  exact (proj1 (proj2 (proj2
           (forecast_length Samples.no_field Samples.no_field
              Samples.no_field Samples.no_field Samples.no_text
              Samples.no_std Samples.np_half Samples.py_two_fifths
              Samples.exact (Some (fun _ => Some 500))
              [Samples.price_row 150 160 Samples.morning] Samples.morning
              Samples.fresh)))
           (Samples.price_row 150 160 Samples.morning) 150 160
           eq_refl eq_refl eq_refl).
Defined.

(** C3 fails as worded when a price is NULL. An administrator who posts
    [nan] as the red price stores a row without a red price; with that
    row as the most recent one the request ends in an uncaught
    [TypeError], after one draw of [random], and returns no forecast:
    with no model loaded, and also with a model loaded and 14 rows, where
    the regression is given up before the model is called. *)
Lemma null_price_gives_no_forecast :
  Prices.update_prices "Local Mandi" None (Some 160) "Grade A"
    Samples.morning [] = [Samples.null_red_row 160 Samples.morning]
  /\ Samples.sample_prediction None
       [Samples.null_red_row 160 Samples.morning] Samples.morning
       Samples.fresh =
       ({| Forecast.np_next := 0; Forecast.py_next := 1;
           Forecast.model_log := [] |}, None)
  /\ Samples.sample_prediction (Some (fun _ => Some 500))
       (replicate 13 (Samples.price_row 150 160 Samples.morning)
        ++ [Samples.null_red_row 160 Samples.morning]) Samples.morning
       Samples.fresh =
       ({| Forecast.np_next := 0; Forecast.py_next := 1;
           Forecast.model_log := [] |}, None).
Proof.
  split; [reflexivity |]. split; vm_compute; reflexivity.
Qed.

(** C6, with the model loaded on two weeks of price 150. *)
Lemma white_price_derivation_witness :
  exists predictions s',
    Samples.sample_prediction (Some (fun _ => Some 500)) Samples.fortnight
      Samples.morning Samples.fresh = (s', Some predictions)
    /\ ((exists model,
           Some (fun _ : Forecast.features => Some 500) = Some model
           /\ Forecast.model_predictions Samples.no_field Samples.no_field
                Samples.no_field Samples.no_field Samples.no_text
                Samples.no_std Samples.np_half Samples.exact model
                Samples.fortnight Samples.morning Samples.fresh =
                (s', Some predictions)
           /\ Forall (fun e => exists i base_prices s0 s1 base_prices1 v,
                        Samples.sample_step model Samples.fortnight
                          Samples.morning i base_prices s0 =
                          (s1, Some (e, base_prices1))
                        /\ last base_prices1 = Some v
                        /\ Forecast.red e = round2 v
                        /\ Forecast.white e =
                             round2 (Samples.exact
                                       (v * Forecast.double_1_15))
                        /\ (Qabs (Samples.exact (v * Forecast.double_1_15)
                                  - v * Forecast.double_1_15)
                            <= Qabs (v * Forecast.double_1_15)
                               * (1 # 9007199254740992) ->
                            Qabs (Forecast.white e - (115 # 100) * v)
                            <= (1 # 200)
                               + Qabs v * (1 # 4503599627370496)))
                predictions)
        \/ (exists s0 last_price r w,
              Forecast.generate_simple_predictions Samples.no_text
                Samples.py_two_fifths Samples.fortnight Samples.morning s0 =
                (s', Some predictions)
              /\ last Samples.fortnight = Some last_price
              /\ Prices.red_arecanut_price last_price = Some r
              /\ Prices.white_arecanut_price last_price = Some w
              /\ Forall (fun e => exists n,
                           Forecast.red e =
                             round2 (r + (-20 + (30 - -20)
                                                * Samples.py_two_fifths n))
                           /\ Forecast.white e =
                                round2 (w + (-20 + (30 - -20)
                                                   * Samples.py_two_fifths
                                                       (S n))))
                   predictions)
        \/ (Samples.fortnight = [] /\ predictions = [])).
Proof.
  eexists _, _.
  split; [vm_compute; reflexivity |].
  apply (white_price_derivation Samples.no_field Samples.no_field
           Samples.no_field Samples.no_field Samples.no_text Samples.no_std
           Samples.np_half Samples.py_two_fifths Samples.exact
           (Some (fun _ => Some 500)) Samples.fortnight Samples.morning
           Samples.fresh).
  vm_compute; reflexivity.
Defined.

(** C6 fails as worded on both paths. On the fallback path, with no
    model loaded and one stored row of red 150 and white 160, the first
    entry (both perturbations drawn as 0) has red 150 and white 160, not
    150 * 1.15 = 172.5. On the regression path, with a model that
    returns 100.0049 on two weeks of price 150, the first entry has red
    100 and white 115.01: the white price is computed from the unrounded
    prediction, and is neither 1.15 times the reported red price nor the
    rounding of that product. *)
Lemma white_is_not_scaled_red :
  (exists predictions s' e,
     Samples.sample_prediction None
       [Samples.price_row 150 160 Samples.morning] Samples.morning
       Samples.fresh = (s', Some predictions)
     /\ predictions !! 0%nat = Some e
     /\ Forecast.red e == 150
     /\ Forecast.white e == 160
     /\ ~ Forecast.white e == Forecast.red e * (115 # 100))
  /\ (exists predictions s' e,
        Samples.sample_prediction (Some (fun _ => Some (1000049 # 10000)))
          Samples.fortnight Samples.morning Samples.fresh =
          (s', Some predictions)
        /\ predictions !! 0%nat = Some e
        /\ Forecast.red e == 100
        /\ Forecast.white e == 11501 # 100
        /\ ~ Forecast.white e == Forecast.red e * (115 # 100)
        /\ ~ Forecast.white e
             == round2 (Forecast.red e * Forecast.double_1_15)).
Proof.
  split.
  - eexists _, _, _.
    split; [vm_compute; reflexivity |].
    split; [reflexivity |].
    split; [reflexivity |].
    split; [reflexivity |].
    intros H. vm_compute in H. discriminate H.
  - eexists _, _, _.
    split; [vm_compute; reflexivity |].
    split; [reflexivity |].
    split; [reflexivity |].
    split; [reflexivity |].
    split; intros H; vm_compute in H; discriminate H.
Qed.

(** C7, at a model that returns 5000 on two weeks of price 150. *)
Lemma forecast_step_clamp_witness :
  exists s' e base_prices',
    Samples.sample_step (fun _ => Some 5000) Samples.fortnight
      Samples.morning 1 (Samples.fortnight_reds 150) Samples.fresh =
      (s', Some (e, base_prices'))
    /\ exists row raw recent v,
        Forecast.step_features Samples.no_field Samples.no_field
          Samples.no_field Samples.no_field Samples.no_std Samples.fortnight
          (add_days Samples.morning 1) (Samples.fortnight_reds 150) =
          Some row
        /\ (fun _ => Some 5000) row = Some raw
        /\ Forecast.model_log s' = Forecast.model_log Samples.fresh ++ [row]
        /\ Forecast.reds (lastn 7 Samples.fortnight) = Some recent
        /\ last base_prices' = Some v
        /\ Forecast.red e = round2 v
        /\ Qabs (Forecast.red e - v) <= 1 # 200
        /\ (100 <= raw /\ raw <= 1000 -> v = raw)
        /\ (raw < 100 \/ 1000 < raw ->
            Qabs (v - np_mean recent) <= (2 # 100) * Qabs (np_mean recent)).
Proof.
  eexists _, _, _.
  split; [vm_compute; reflexivity |].
  apply (forecast_step_clamp Samples.no_field Samples.no_field
           Samples.no_field Samples.no_field Samples.no_text Samples.no_std
           Samples.np_half Samples.exact (fun _ => Some 5000)
           Samples.fortnight Samples.morning 1 (Samples.fortnight_reds 150)
           Samples.fresh).
  - intros n. unfold Samples.np_half, Qle. cbn. lia.
  - vm_compute; reflexivity.
Defined.

(** ** Market price maintenance *)

Section PriceFacts.
Import Prices.

(** [first_where] finds the first row that satisfies the predicate. *)
Lemma first_where_app p (pre : table) x post :
  Forall (fun r => p r = false) pre -> p x = true ->
  first_where p (pre ++ x :: post) = Some (length pre, x).
Proof.
  induction 1 as [| r pre Hr _ IH]; intros Hx; cbn.
  - now rewrite Hx.
  - rewrite Hr, (IH Hx). reflexivity.
Qed.

Lemma first_where_none p (tbl : table) :
  Forall (fun r => p r = false) tbl -> first_where p tbl = None.
Proof.
  induction 1 as [| r tbl Hr _ IH]; cbn; [reflexivity |].
  now rewrite Hr, IH.
Qed.

Lemma first_where_Some p (tbl : table) i x :
  first_where p tbl = Some (i, x) ->
  exists pre post,
    tbl = pre ++ x :: post /\ length pre = i
    /\ Forall (fun r => p r = false) pre /\ p x = true.
Proof.
  revert i. induction tbl as [| r tbl IH]; intros i H; cbn in H.
  - discriminate H.
  - destruct (p r) eqn:Hr.
    + injection H as <- <-. exists [], tbl. now conjuncts.
    + destruct (first_where p tbl) as [[j y] |] eqn:Hrest; [| discriminate H].
      injection H as <- <-.
      destruct (IH j eq_refl) as (pre & post & -> & <- & Hpre & Hx).
      exists (r :: pre), post.
      conjuncts; [reflexivity | reflexivity | now constructor | exact Hx].
Qed.

Lemma first_where_None p (tbl : table) :
  first_where p tbl = None -> Forall (fun r => p r = false) tbl.
Proof.
  induction tbl as [| r tbl IH]; intros H; cbn in H; [constructor |].
  destruct (p r) eqn:Hr; [discriminate H |].
  destruct (first_where p tbl) as [[j y] |]; [discriminate H |].
  constructor; [exact Hr | now apply IH].
Qed.

Lemma first_where_ext p q (tbl : table) :
  Forall (fun r => p r = q r) tbl -> first_where p tbl = first_where q tbl.
Proof.
  induction 1 as [| r tbl Hr _ IH]; cbn; [reflexivity |].
  now rewrite Hr, IH.
Qed.

Lemma insert_middle (pre : table) x y post :
  <[length pre := y]> (pre ++ x :: post) = pre ++ y :: post.
Proof.
  induction pre as [| r pre IH]; [reflexivity |].
  cbn [length app]. change (<[S (length pre) := y]> (r :: pre ++ x :: post))
    with (r :: <[length pre := y]> (pre ++ x :: post)).
  now rewrite IH.
Qed.

(** Among rows stored no later than [now], the rows at or after the
    midnight before [now] are the rows of the calendar day of [now]. *)
Lemma since_midnight_same_day now r :
  (wall (date r) <= wall now)%Z ->
  dt_geb (date r) (midnight now) = same_day now r.
Proof.
  intros Hle. unfold dt_geb, same_day, midnight, calendar_day; cbn [wall].
  destruct (Z.leb_spec (wall now - wall now `mod` day_us) (wall (date r)));
    destruct (Z.eqb_spec (wall (date r) `div` day_us) (wall now `div` day_us));
    try reflexivity; exfalso; unfold day_us in *;
    Z.div_mod_to_equations; lia.
Qed.

Lemma same_day_now now x : date x = now -> same_day now x = true.
Proof. intros H. unfold same_day. rewrite H. apply Z.eqb_refl. Qed.

Lemma same_day_shift now1 now2 r :
  calendar_day now1 = calendar_day now2 -> same_day now1 r = same_day now2 r.
Proof. intros H. unfold same_day. now rewrite H. Qed.

Lemma price_map_nonempty (scraped : gmap string pyval) k q :
  get_price scraped k = Some q -> (size scraped =? 0)%nat = false.
Proof.
  unfold get_price. intros H. apply Nat.eqb_neq. intros Hsize.
  apply map_size_empty_iff in Hsize. subst scraped.
  rewrite lookup_empty in H. discriminate H.
Qed.

(** One refresh: the first row of the day is overwritten in place, or,
    when the day has no row, one row is appended. *)
Lemma refresh_step scraped now (tbl : table) red_price white_price :
  get_price scraped "red_arecanut_price" = Some red_price ->
  get_price scraped "white_arecanut_price" = Some white_price ->
  Forall (fun r => (wall (date r) <= wall now)%Z) tbl ->
  match first_where (same_day now) tbl with
  | Some (i, existing) =>
      update_market_prices scraped now tbl =
        (<[i := overwritten existing red_price white_price now]> tbl,
         Success "updated" scraped)
  | None =>
      update_market_prices scraped now tbl =
        (tbl ++ [appended red_price white_price now],
         Success "created" scraped)
  end.
Proof.
  intros Hred Hwhite Hpast.
  unfold update_market_prices.
  rewrite (price_map_nonempty _ _ _ Hred).
  rewrite (first_where_ext (fun r => dt_geb (date r) (midnight now))
             (same_day now) tbl)
    by (eapply Forall_impl; [exact Hpast |];
        intros r Hr; now apply since_midnight_same_day).
  destruct (first_where (same_day now) tbl) as [[i existing] |].
  - rewrite Hred, Hwhite. reflexivity.
  - rewrite Hred, Hwhite. reflexivity.
Qed.

(** [latest] is a stored row of the greatest date, and exists as soon
    as the table has a row. *)
Lemma latest_from b (tbl : table) :
  exists r,
    foldl (fun best r =>
             match best with
             | None => Some r
             | Some b => if dt_gtb (date r) (date b) then Some r else Some b
             end) (Some b) tbl = Some r
    /\ (r = b \/ r ∈ tbl)
    /\ (wall (date b) <= wall (date r))%Z
    /\ Forall (fun r' => (wall (date r') <= wall (date r))%Z) tbl.
Proof.
  revert b. induction tbl as [| x tbl IH]; intros b.
  - exists b. conjuncts; [reflexivity | now left | lia | constructor].
  - cbn [foldl].
    destruct (dt_gtb (date x) (date b)) eqn:Hcmp; unfold dt_gtb in Hcmp.
    + apply Z.ltb_lt in Hcmp.
      destruct (IH x) as (r & Hr & Hin & Hle & Hall).
      exists r.
      conjuncts; [exact Hr | | lia | constructor; [exact Hle | exact Hall]].
      right. destruct Hin as [-> | Hin]; [left | now right].
    + apply Z.ltb_ge in Hcmp.
      destruct (IH b) as (r & Hr & Hin & Hle & Hall).
      exists r.
      conjuncts; [exact Hr | | exact Hle | constructor; [lia | exact Hall]].
      destruct Hin as [-> | Hin]; [now left | right; now right].
Qed.

Lemma latest_None (tbl : table) : latest tbl = None <-> tbl = [].
Proof.
  split; [| now intros ->].
  destruct tbl as [| x tbl]; [reflexivity |].
  unfold latest. cbn [foldl].
  destruct (latest_from x tbl) as (r & Hr & _). rewrite Hr. discriminate.
Qed.

Lemma latest_most_recent (tbl : table) r :
  latest tbl = Some r ->
  r ∈ tbl /\ Forall (fun r' => (wall (date r') <= wall (date r))%Z) tbl.
Proof.
  destruct tbl as [| x tbl]; [discriminate |].
  unfold latest. cbn [foldl].
  destruct (latest_from x tbl) as (r0 & Hr & Hin & Hle & Hall).
  rewrite Hr. injection 1 as <-. split.
  - destruct Hin as [-> | Hin]; [left | now right].
  - constructor; [exact Hle | exact Hall].
Qed.

(** C4, as the code has it. A view of the pricing page calls the
    refresh exactly when no price is stored or the most recent stored
    price (a naive stored date read as IST) is at least 24 hours, one
    whole elapsed day, older than the current time. *)
Theorem refresh_iff_one_day_elapsed scraped now (tbl : table) :
  (market_prices scraped now tbl).1 = true <->
  tbl = []
  \/ exists r,
       latest tbl = Some r
       /\ r ∈ tbl
       /\ Forall (fun r' => (wall (date r') <= wall (date r))%Z) tbl
       /\ (day_us <= wall now - wall (date r))%Z.
Proof.
  unfold market_prices.
  destruct (latest tbl) as [r |] eqn:Hlatest.
  - assert (Hwall : wall (if aware (date r) then date r
                          else replace_tzinfo_IST (date r)) = wall (date r))
      by now destruct (aware (date r)).
    unfold days, sub. rewrite Hwall.
    destruct (latest_most_recent _ _ Hlatest) as [Hin Hall].
    destruct (Z.leb_spec 1 ((wall now - wall (date r)) `div` day_us))
      as [Hold | Hnew]; cbn [fst].
    + split; [intros _ | reflexivity]. right. exists r.
      conjuncts; [reflexivity | exact Hin | exact Hall |].
      unfold day_us in *. Z.div_mod_to_equations. lia.
    + split; [discriminate |].
      intros [-> | (r' & Hr' & _ & _ & Hday)]; [discriminate Hlatest |].
      injection Hr' as <-. exfalso.
      unfold day_us in *. Z.div_mod_to_equations. lia.
  - cbn [fst]. split; [intros _ | reflexivity].
    left. now apply latest_None.
Qed.

Lemma filter_none p (l : table) :
  Forall (fun r => p r = false) l -> List.filter p l = [].
Proof.
  induction 1 as [| r l Hr _ IH]; cbn; [reflexivity |]. now rewrite Hr.
Qed.

Lemma filter_same p q (l : table) :
  (forall r, p r = q r) -> List.filter p l = List.filter q l.
Proof.
  intros H. induction l as [| r l IH]; cbn; [reflexivity |].
  now rewrite H, IH.
Qed.

(** C5, as the code has it. A refresh overwrites in place the first
    row stored on the current day (its prices and date; no row is
    added) and appends one row when the day has none. So the second of
    two refreshes on one day adds no row, and the day is left with as
    many rows as it had, or one if it had none; when the table held at
    most one row of that day beforehand, the day is left with exactly
    one row, carrying the prices of the second refresh. *)
Theorem refresh_twice_same_day scraped1 scraped2 now1 now2 (tbl : table)
    red1 white1 red2 white2 :
  get_price scraped1 "red_arecanut_price" = Some red1 ->
  get_price scraped1 "white_arecanut_price" = Some white1 ->
  get_price scraped2 "red_arecanut_price" = Some red2 ->
  get_price scraped2 "white_arecanut_price" = Some white2 ->
  Forall (fun r => (wall (date r) <= wall now1)%Z) tbl ->
  (wall now1 <= wall now2)%Z ->
  calendar_day now1 = calendar_day now2 ->
  let tbl1 := (update_market_prices scraped1 now1 tbl).1 in
  let tbl2 := (update_market_prices scraped2 now2 tbl1).1 in
  match first_where (same_day now1) tbl with
  | Some (i, existing) =>
      tbl1 = <[i := overwritten existing red1 white1 now1]> tbl
  | None => tbl1 = tbl ++ [appended red1 white1 now1]
  end
  /\ length tbl2 = length tbl1
  /\ length (rows_of_day now2 tbl2) =
       Nat.max 1 (length (rows_of_day now1 tbl))
  /\ ((length (rows_of_day now1 tbl) <= 1)%nat ->
      exists x,
        rows_of_day now2 tbl2 = [x]
        /\ red_arecanut_price x = Some red2
        /\ white_arecanut_price x = Some white2
        /\ date x = now2).
Proof.
  intros Hr1 Hw1 Hr2 Hw2 Hpast Hclock Hday tbl1 tbl2.
  pose proof (refresh_step _ _ _ _ _ Hr1 Hw1 Hpast) as Hfirst.
  assert (Hshift : forall r, same_day now1 r = same_day now2 r)
    by (intros r; now apply same_day_shift).
  unfold rows_of_day.
  destruct (first_where (same_day now1) tbl) as [[i existing] |] eqn:Hfind.
  - apply first_where_Some in Hfind
      as (pre & post & -> & <- & Hpre & Hexisting).
    set (x1 := overwritten existing red1 white1 now1) in *.
    assert (Htbl1 : tbl1 = pre ++ x1 :: post).
    { subst tbl1. rewrite Hfirst. cbn [fst]. apply insert_middle. }
    assert (Hpre2 : Forall (fun r => same_day now2 r = false) pre)
      by (eapply Forall_impl; [exact Hpre |];
          intros r Hr; now rewrite <- Hshift).
    assert (Hx1 : same_day now2 x1 = true)
      by (rewrite <- Hshift; now apply same_day_now).
    assert (Hpast1 : Forall (fun r => (wall (date r) <= wall now2)%Z)
                       (pre ++ x1 :: post)).
    { apply Forall_app in Hpast as [Hp1 Hp2].
      apply Forall_cons in Hp2 as [_ Hp2].
      apply Forall_app. split; [| constructor].
      - eapply Forall_impl; [exact Hp1 |]. intros r Hr; cbn in Hr; lia.
      - cbn. lia.
      - eapply Forall_impl; [exact Hp2 |]. intros r Hr; cbn in Hr; lia. }
    pose proof (refresh_step _ _ _ _ _ Hr2 Hw2 Hpast1) as Hsecond.
    rewrite (first_where_app _ _ _ _ Hpre2 Hx1) in Hsecond.
    set (x2 := overwritten x1 red2 white2 now2) in *.
    assert (Htbl2 : tbl2 = pre ++ x2 :: post).
    { subst tbl2. rewrite Htbl1, Hsecond. cbn [fst]. apply insert_middle. }
    assert (Hx2 : same_day now2 x2 = true) by now apply same_day_now.
    assert (Hrows : List.filter (same_day now2) tbl2 =
                    x2 :: List.filter (same_day now2) post).
    { rewrite Htbl2, List.filter_app, (filter_none _ _ Hpre2).
      cbn. now rewrite Hx2. }
    assert (Hrows0 : List.filter (same_day now1) (pre ++ existing :: post) =
                     existing :: List.filter (same_day now2) post).
    { rewrite List.filter_app, (filter_none _ _ Hpre).
      cbn. rewrite Hexisting. f_equal. now apply filter_same. }
    conjuncts.
    + rewrite Htbl1. symmetry. apply insert_middle.
    + rewrite Htbl2, Htbl1, !length_app. reflexivity.
    + rewrite Hrows, Hrows0. cbn [length]. lia.
    + rewrite Hrows, Hrows0. cbn [length]. intros Hone.
      destruct (List.filter (same_day now2) post); [| cbn in Hone; lia].
      exists x2. now conjuncts.
  - apply first_where_None in Hfind as Hnone.
    set (x1 := appended red1 white1 now1) in *.
    assert (Htbl1 : tbl1 = tbl ++ [x1])
      by (subst tbl1; now rewrite Hfirst).
    assert (Hnone2 : Forall (fun r => same_day now2 r = false) tbl)
      by (eapply Forall_impl; [exact Hnone |];
          intros r Hr; now rewrite <- Hshift).
    assert (Hx1 : same_day now2 x1 = true)
      by (rewrite <- Hshift; now apply same_day_now).
    assert (Hpast1 : Forall (fun r => (wall (date r) <= wall now2)%Z)
                       (tbl ++ [x1])).
    { apply Forall_app. split; [| constructor; [cbn; lia | constructor]].
      eapply Forall_impl; [exact Hpast |]. intros r Hr; cbn in Hr; lia. }
    pose proof (refresh_step _ _ _ _ _ Hr2 Hw2 Hpast1) as Hsecond.
    rewrite (first_where_app _ _ _ _ Hnone2 Hx1) in Hsecond.
    set (x2 := overwritten x1 red2 white2 now2) in *.
    assert (Htbl2 : tbl2 = tbl ++ [x2]).
    { subst tbl2. rewrite Htbl1, Hsecond. cbn [fst]. apply insert_middle. }
    assert (Hx2 : same_day now2 x2 = true) by now apply same_day_now.
    assert (Hrows : List.filter (same_day now2) tbl2 = [x2]).
    { rewrite Htbl2, List.filter_app, (filter_none _ _ Hnone2).
      cbn. now rewrite Hx2. }
    rewrite (filter_none _ _ Hnone).
    conjuncts.
    + exact Htbl1.
    + rewrite Htbl2, Htbl1, !length_app. reflexivity.
    + rewrite Hrows. reflexivity.
    + intros _. exists x2. rewrite Hrows. now conjuncts.
Qed.


End PriceFacts.

(** C4 fails when read by calendar dates: a price stored at 23:00 is, at
    01:00 of the next day, one calendar day older than the current date,
    and the page view does not refresh it. *)
Lemma stale_by_date_not_refreshed :
  let stored := Samples.price_row 150 160 (Samples.eve_at_hour 23) in
  let now := Samples.at_hour 1 in
  Prices.latest [stored] = Some stored
  /\ (calendar_day (Prices.date stored) + 1 <= calendar_day now)%Z
  /\ (Prices.market_prices Prices.scrape_mangalore_prices now [stored]).1
     = false.
Proof. cbv zeta. conjuncts; [reflexivity | discriminate | reflexivity]. Qed.

(** C5 fails on a table that holds two rows of the day (one created by a
    refresh at 09:00, one added by the admin update at 10:00): the
    refreshes of 11:00 and 12:00 leave two rows for the day. *)
Lemma duplicate_day_survives_refreshes :
  let scraped := Prices.scrape_mangalore_prices in
  let t1 := (Prices.update_market_prices scraped (Samples.at_hour 9) []).1 in
  let t2 := Prices.update_prices "Local Mandi" (Some 152) (Some 162) "Grade A"
              (Samples.at_hour 10) t1 in
  let t3 := (Prices.update_market_prices scraped (Samples.at_hour 11) t2).1 in
  let t4 := (Prices.update_market_prices scraped (Samples.at_hour 12) t3).1 in
  length (Prices.rows_of_day (Samples.at_hour 12) t4) = 2%nat
  /\ length (Prices.rows_of_day (Samples.at_hour 12) t4) <> 1%nat.
Proof. cbv zeta. split; [vm_compute; reflexivity | vm_compute; discriminate]. Qed.

(** C5, at two refreshes (09:00 and 11:00) of an empty table. *)
Lemma refresh_twice_same_day_witness :
  let tbl1 :=
    (Prices.update_market_prices Prices.scrape_mangalore_prices
       (Samples.at_hour 9) []).1 in
  let tbl2 :=
    (Prices.update_market_prices Prices.get_fallback_prices
       (Samples.at_hour 11) tbl1).1 in
  match Prices.first_where (Prices.same_day (Samples.at_hour 9)) [] with
  | Some (i, existing) =>
      tbl1 = <[i := Prices.overwritten existing 150 160 (Samples.at_hour 9)]> []
  | None => tbl1 = [] ++ [Prices.appended 150 160 (Samples.at_hour 9)]
  end
  /\ length tbl2 = length tbl1
  /\ length (Prices.rows_of_day (Samples.at_hour 11) tbl2) =
       Nat.max 1 (length (Prices.rows_of_day (Samples.at_hour 9) []))
  /\ ((length (Prices.rows_of_day (Samples.at_hour 9) []) <= 1)%nat ->
      exists x,
        Prices.rows_of_day (Samples.at_hour 11) tbl2 = [x]
        /\ Prices.red_arecanut_price x = Some 145
        /\ Prices.white_arecanut_price x = Some 155
        /\ Prices.date x = Samples.at_hour 11).
Proof.
  apply (refresh_twice_same_day Prices.scrape_mangalore_prices
           Prices.get_fallback_prices (Samples.at_hour 9) (Samples.at_hour 11)
           [] 150 160 145 155).
  - reflexivity.
  - reflexivity.
  - reflexivity.
  - reflexivity.
  - constructor.
  - unfold Samples.at_hour, day_us. cbn. lia.
  - reflexivity.
Defined.


(** ** Irrigation logging *)

Section IrrigationFacts.
Import Irrigation.



End IrrigationFacts.


(** ** Sessions and system settings *)

Section SettingsFacts.
Import Settings.

Variable check_password_hash : string -> string -> bool.




End SettingsFacts.



(** C7 fails for the reported value, which is rounded. On two weeks of
    price 150 a model output of 500.123, inside the interval, is reported
    as 500.12. On two weeks of price 150.3 an output of 5000 is replaced
    (with a draw close to the top of its range) by 153.3055 and reported
    as 153.31, farther from the average 150.3 than its 2%, 3.006. *)
Lemma reported_red_is_rounded :
  (exists s' e base_prices',
     Samples.sample_step (fun _ => Some (500123 # 1000)) Samples.fortnight
       Samples.morning 1 (Samples.fortnight_reds 150) Samples.fresh =
       (s', Some (e, base_prices'))
     /\ Forecast.red e == 50012 # 100
     /\ ~ Forecast.red e == 500123 # 1000)
  /\ (exists s' e base_prices',
        Samples.sample_step_high (fun _ => Some 5000)
          (Samples.fortnight_at (1503 # 10)) Samples.morning 1
          (Samples.fortnight_reds (1503 # 10)) Samples.fresh =
          (s', Some (e, base_prices'))
        /\ Forecast.reds (lastn 7 (Samples.fortnight_at (1503 # 10))) =
           Some (replicate 7 (1503 # 10))
        /\ np_mean (replicate 7 (1503 # 10)) == 1503 # 10
        /\ Forecast.red e == 15331 # 100
        /\ ~ Qabs (Forecast.red e - (1503 # 10))
             <= (2 # 100) * Qabs (1503 # 10)).
Proof.
  split.
  - eexists _, _, _. split; [vm_compute; reflexivity |].
    split; [reflexivity |]. intros H. vm_compute in H. discriminate H.
  - eexists _, _, _. split; [vm_compute; reflexivity |].
    split; [reflexivity |]. split; [reflexivity |]. split; [reflexivity |].
    intros H. vm_compute in H. apply H. reflexivity.
Qed.

(** * Further properties *)

(** ** Rounding of bounded values *)

(** Rounding never crosses an integer. *)
Lemma round_half_even_ge z x :
  inject_Z z <= x -> (z <= round_half_even x)%Z.
Proof.
  intros Hz. pose proof (round_half_even_close x) as H.
  apply Qabs_Qle_condition in H. destruct H as [H _].
  destruct (Z.le_gt_cases z (round_half_even x)) as [Hle | Hgt];
    [exact Hle | exfalso].
  assert (Hq : inject_Z (round_half_even x + 1) <= inject_Z z)
    by (rewrite <- Zle_Qle; lia).
  rewrite inject_Z_plus in Hq. change (inject_Z 1) with 1 in Hq. lra.
Qed.

Lemma round_half_even_le z x :
  x <= inject_Z z -> (round_half_even x <= z)%Z.
Proof.
  intros Hz. pose proof (round_half_even_close x) as H.
  apply Qabs_Qle_condition in H. destruct H as [_ H].
  destruct (Z.le_gt_cases (round_half_even x) z) as [Hle | Hgt];
    [exact Hle | exfalso].
  assert (Hq : inject_Z (z + 1) <= inject_Z (round_half_even x))
    by (rewrite <- Zle_Qle; lia).
  rewrite inject_Z_plus in Hq. change (inject_Z 1) with 1 in Hq. lra.
Qed.

(** [round(x, 2)] keeps a value on its side of a whole number. *)
Lemma round2_ge (z : Z) x : inject_Z z <= x -> inject_Z z <= round2 x.
Proof.
  intros Hz. unfold round2.
  assert (H : (z * 100 <= round_half_even (x * 100))%Z).
  { apply round_half_even_ge. rewrite inject_Z_mult.
    change (inject_Z 100) with 100. lra. }
  rewrite Zle_Qle, inject_Z_mult in H.
  change (inject_Z 100) with 100 in H.
  unfold Qdiv. change (/ 100) with (1 # 100). lra.
Qed.

Lemma round2_le (z : Z) x : x <= inject_Z z -> round2 x <= inject_Z z.
Proof.
  intros Hz. unfold round2.
  assert (H : (round_half_even (x * 100) <= z * 100)%Z).
  { apply round_half_even_le. rewrite inject_Z_mult.
    change (inject_Z 100) with 100. lra. }
  rewrite Zle_Qle, inject_Z_mult in H.
  change (inject_Z 100) with 100 in H.
  unfold Qdiv. change (/ 100) with (1 # 100). lra.
Qed.

(** ** The primary disease of a detection *)

Section PrimaryChoice.
Import Detection.

(** The entries that can make the primary disease: classifier entries
    reporting "Infected". *)
Local Abbreviation infected_below kv bound :=
  (forall p, kv.1 <> "validation" -> kv.2 = Pred p ->
             status p = "Infected" -> confidence p <= bound).

Local Abbreviation infected_under kv bound :=
  (forall p, kv.1 <> "validation" -> kv.2 = Pred p ->
             status p = "Infected" -> confidence p < bound).

Lemma primary_loop_from (items : results) : forall d0 c0,
  Forall (fun kv => kv.1 = "validation" \/ exists p, kv.2 = Pred p) items ->
  exists d c,
    primary_loop items d0 c0 = Some (d, c)
    /\ ((d = d0 /\ c = c0 /\ Forall (fun kv => infected_below kv c0) items)
        \/ exists pre k p post,
             items = pre ++ (k, Pred p) :: post
             /\ k <> "validation" /\ status p = "Infected"
             /\ d = Some (disease p) /\ c = confidence p /\ c0 < c
             /\ Forall (fun kv => infected_under kv c) pre
             /\ Forall (fun kv => infected_below kv c) post).
Proof.
  induction items as [| [k v] items IH]; intros d0 c0 Hwf.
  - exists d0, c0. split; [reflexivity |]. left.
    conjuncts; [reflexivity | reflexivity | constructor].
  - apply Forall_cons in Hwf as [Hkv Hwf]. cbn [primary_loop].
    destruct (String.eqb_spec k "validation") as [-> | Hk].
    + destruct (IH d0 c0 Hwf) as (d & c & Hrun & Hcase).
      exists d, c. split; [exact Hrun |].
      destruct Hcase as [(-> & -> & Hall)
                        | (pre & k & p & post & -> & Hk & Hs & -> & -> & Hlt
                           & Hpre & Hpost)].
      * left. conjuncts; [reflexivity | reflexivity |].
        constructor; [| exact Hall]. intros p Hne. now destruct Hne.
      * right. exists (("validation", v) :: pre), k, p, post.
        conjuncts; try reflexivity; try assumption.
        constructor; [| exact Hpre]. intros p' Hne. now destruct Hne.
    + destruct Hkv as [Hkv | [p Hp]]; [now destruct Hk |].
      cbn [fst snd] in Hp. subst v.
      destruct (String.eqb_spec (status p) "Infected") as [Hs | Hs];
        [destruct (gtb (confidence p) c0) eqn:Hgt |]; cbn [andb].
      * apply gtb_lt in Hgt.
        destruct (IH (Some (disease p)) (confidence p) Hwf)
          as (d & c & Hrun & Hcase).
        exists d, c. split; [exact Hrun |]. right.
        destruct Hcase as [(-> & -> & Hall)
                          | (pre & k' & p' & post & -> & Hk' & Hs' & -> & ->
                             & Hlt & Hpre & Hpost)].
        -- exists [], k, p, items.
           conjuncts; try reflexivity; try assumption. constructor.
        -- exists ((k, Pred p) :: pre), k', p', post.
           conjuncts; try reflexivity; try assumption; [lra |].
           constructor; [| exact Hpre].
           intros q _ Hq _. cbn [snd] in Hq. injection Hq as <-. exact Hlt.
      * apply gtb_le in Hgt.
        destruct (IH d0 c0 Hwf) as (d & c & Hrun & Hcase).
        exists d, c. split; [exact Hrun |].
        destruct Hcase as [(-> & -> & Hall)
                          | (pre & k' & p' & post & -> & Hk' & Hs' & -> & ->
                             & Hlt & Hpre & Hpost)].
        -- left. conjuncts; [reflexivity | reflexivity |].
           constructor; [| exact Hall].
           intros q _ Hq _. cbn [snd] in Hq. injection Hq as <-. exact Hgt.
        -- right. exists ((k, Pred p) :: pre), k', p', post.
           conjuncts; try reflexivity; try assumption.
           constructor; [| exact Hpre].
           intros q _ Hq _. cbn [snd] in Hq. injection Hq as <-. lra.
      * destruct (IH d0 c0 Hwf) as (d & c & Hrun & Hcase).
        exists d, c. split; [exact Hrun |].
        destruct Hcase as [(-> & -> & Hall)
                          | (pre & k' & p' & post & -> & Hk' & Hs' & -> & ->
                             & Hlt & Hpre & Hpost)].
        -- left. conjuncts; [reflexivity | reflexivity |].
           constructor; [| exact Hall].
           intros q _ Hq Hsq. cbn [snd] in Hq. injection Hq as <-.
           now destruct Hs.
        -- right. exists ((k, Pred p) :: pre), k', p', post.
           conjuncts; try reflexivity; try assumption.
           constructor; [| exact Hpre].
           intros q _ Hq Hsq. cbn [snd] in Hq. injection Hq as <-.
           now destruct Hs.
Qed.

(** X1. Over any result dict made of the validation entry and
    classifier entries, the loop of [disease_detection] never raises and
    picks the first "Infected" entry of greatest confidence: every
    infected entry before it is strictly less confident and none after
    it is more confident. It picks nothing exactly when no infected entry
    has a positive confidence. *)
Theorem primary_is_first_most_confident (items : results) :
  Forall (fun kv => kv.1 = "validation" \/ exists p, kv.2 = Pred p) items ->
  (primary_loop items None 0 = Some (None, 0)
   /\ Forall (fun kv => infected_below kv 0) items)
  \/ exists pre k p post,
       items = pre ++ (k, Pred p) :: post
       /\ k <> "validation" /\ status p = "Infected"
       /\ primary_loop items None 0 = Some (Some (disease p), confidence p)
       /\ 0 < confidence p
       /\ Forall (fun kv => infected_under kv (confidence p)) pre
       /\ Forall (fun kv => infected_below kv (confidence p)) post.
Proof.
  intros Hwf.
  destruct (primary_loop_from items None 0 Hwf) as (d & c & Hrun & Hcase).
  destruct Hcase as [(-> & -> & Hall)
                    | (pre & k & p & post & Hitems & Hk & Hs & -> & -> & Hlt
                       & Hpre & Hpost)].
  - left. split; [exact Hrun | exact Hall].
  - right. exists pre, k, p, post.
    conjuncts; try assumption.
Qed.

End PrimaryChoice.

Lemma primary_is_first_most_confident_witness :
  let items := Outcome.result_of (Some (9 # 10)) (Some (9 # 10)) in
  Forall (fun kv => kv.1 = "validation" \/ exists p, kv.2 = Detection.Pred p)
    items
  /\ ((Detection.primary_loop items None 0 = Some (None, 0)
       /\ Forall (fun kv =>
                    forall p, kv.1 <> "validation" ->
                              kv.2 = Detection.Pred p ->
                              Detection.status p = "Infected" ->
                              Detection.confidence p <= 0) items)
      \/ exists pre k p post,
           items = pre ++ (k, Detection.Pred p) :: post
           /\ k <> "validation" /\ Detection.status p = "Infected"
           /\ Detection.primary_loop items None 0 =
                Some (Some (Detection.disease p), Detection.confidence p)
           /\ 0 < Detection.confidence p
           /\ Forall (fun kv =>
                        forall q, kv.1 <> "validation" ->
                                  kv.2 = Detection.Pred q ->
                                  Detection.status q = "Infected" ->
                                  Detection.confidence q
                                  < Detection.confidence p) pre
           /\ Forall (fun kv =>
                        forall q, kv.1 <> "validation" ->
                                  kv.2 = Detection.Pred q ->
                                  Detection.status q = "Infected" ->
                                  Detection.confidence q
                                  <= Detection.confidence p) post).
Proof.
  cbv zeta.
  assert (H : Forall (fun kv => kv.1 = "validation"
                                \/ exists p, kv.2 = Detection.Pred p)
                (Outcome.result_of (Some (9 # 10)) (Some (9 # 10)))).
  { unfold Outcome.result_of. cbn [app].
    constructor; [left; reflexivity |].
    constructor; [right; eexists; reflexivity |].
    constructor; [right; eexists; reflexivity |].
    constructor. }
  split; [exact H |].
  exact (primary_is_first_most_confident _ H).
Defined.

(** ** What a detection persists *)

Section DetectionOutcome.
Import Detection Outcome.

Variable img : Type.
Variable disease_models : gmap string (img -> option Q).

Lemma qmax_ge_l x y : x <= qmax x y.
Proof.
  unfold qmax. destruct (gtb y x) eqn:H; [| lra].
  apply gtb_lt in H. lra.
Qed.

Lemma foldl_qmax_ge l : forall x, x <= foldl qmax x l.
Proof.
  induction l as [| y l IH]; intros x; cbn [foldl]; [lra |].
  pose proof (qmax_ge_l x y). pose proof (IH (qmax x y)). lra.
Qed.

(** A classifier entry reports "Infected" with its disease name and a
    confidence of at least 50, or "Healthy". *)
Lemma classify_made infected healthy p :
  (status (classify infected healthy p) = "Infected"
   /\ disease (classify infected healthy p) = infected
   /\ 50 <= confidence (classify infected healthy p))
  \/ status (classify infected healthy p) = "Healthy".
Proof.
  unfold classify. destruct (gtb p (1 # 2)) eqn:H; [left | now right].
  apply gtb_lt in H. cbn [status disease confidence].
  conjuncts; [reflexivity | reflexivity |].
  apply (round2_ge 50). change (inject_Z 50) with 50. lra.
Qed.

Lemma predict_disease_runs a detection_type :
  predict_disease img disease_models (Some a) detection_type =
    match ran disease_models "yellow_leaf" ["yellow_leaf"; "both"]
            detection_type a,
          ran disease_models "fruit_rot" ["fruit_rot"; "both"]
            detection_type a with
    | Some None, _ => None
    | _, Some None => None
    | Some (Some p), Some (Some q) => Some (result_of (Some p) (Some q))
    | Some (Some p), None => Some (result_of (Some p) None)
    | None, Some (Some q) => Some (result_of None (Some q))
    | None, None => Some (result_of None None)
    end.
Proof.
  unfold predict_disease, run_model, ran, result_of.
  cbn [validate_image_content negb mbind option_bind].
  destruct (py_in detection_type ["yellow_leaf"; "both"]);
    destruct (py_in detection_type ["fruit_rot"; "both"]);
    destruct (disease_models !! "yellow_leaf") as [my |];
    destruct (disease_models !! "fruit_rot") as [mf |];
    try destruct (my a); try destruct (mf a); reflexivity.
Qed.

End DetectionOutcome.

Section DetectionOutcome2.
Import Detection Outcome.

Variable img : Type.
Variable disease_models : gmap string (img -> option Q).

(** The outcome of [disease_detection] on a result dict that starts with
    the validation entry (confidence 75) and continues with classifier
    entries whose infected ones name one of the two diseases. *)
Lemma detection_of_entries b reason rest rain :
  Forall (fun kv =>
            kv.1 <> "validation"
            /\ exists p, kv.2 = Pred p
               /\ (status p = "Infected" ->
                   (disease p = "Yellow Leaf Disease"
                    \/ disease p = "Fruit Rot (Koleroga)")
                   /\ 50 <= confidence p)) rest ->
  exists row,
    disease_detection
      (Some (("validation", Validation b 75 reason) :: rest)) rain =
      Persisted row
    /\ ((disease_name row = "Healthy" /\ det_severity row = "None"
         /\ 75 <= det_confidence row)
        \/ (disease_name row = "Yellow Leaf Disease"
            /\ 50 <= det_confidence row
            /\ det_severity row =
                 (if gtb (det_confidence row) 85 then "moderate" else "mild"))
        \/ (disease_name row = "Fruit Rot (Koleroga)"
            /\ 50 <= det_confidence row
            /\ det_severity row =
                 (if gtb (det_confidence row) 90
                  then "severe" else "moderate"))).
Proof.
  intros Hrest.
  set (items := ("validation", Validation b 75 reason) :: rest).
  assert (Hwf : Forall (fun kv => kv.1 = "validation"
                                  \/ exists p, kv.2 = Pred p) items).
  { constructor; [now left |].
    eapply Forall_impl; [exact Hrest |].
    intros kv (_ & p & Hp & _). right. now exists p. }
  unfold disease_detection. fold items.
  destruct (primary_loop_from items None 0 Hwf) as (d & c & Hrun & Hcase).
  destruct Hcase as [(-> & -> & _)
                    | (pre & k & p & post & Hitems & Hk & Hs & -> & -> & _)].
  - rewrite Hrun. cbn [falsy].
    unfold items at 1. cbn [confidences omap snd py_max mbind option_bind].
    eexists. split; [reflexivity |]. left.
    cbn [disease_name det_severity det_confidence].
    conjuncts; [reflexivity | reflexivity |].
    apply foldl_qmax_ge.
  - rewrite Hrun.
    assert (Hin : (k, Pred p) ∈ rest).
    { assert (Hin : (k, Pred p) ∈ items)
        by (rewrite Hitems; apply elem_of_app; right; left).
      unfold items in Hin. apply elem_of_cons in Hin as [Heq | Hin];
        [| exact Hin].
      injection Heq as -> _. now destruct Hk. }
    rewrite Forall_forall in Hrest.
    destruct (Hrest _ Hin) as (_ & q & Hq & Hmade).
    cbn [snd] in Hq. injection Hq as <-.
    destruct (Hmade Hs) as [[Hd | Hd] Hconf]; rewrite Hd;
      (eexists; split; [reflexivity |]); [right; left | right; right];
      cbn [disease_name det_severity det_confidence default];
      conjuncts; try reflexivity; exact Hconf.
Qed.

Lemma result_of_entries yellow fruit :
  exists rest,
    result_of yellow fruit =
      ("validation",
       Validation true 75
         "Image validation bypassed - user responsibility") :: rest
    /\ Forall (fun kv =>
                 kv.1 <> "validation"
                 /\ exists p, kv.2 = Pred p
                    /\ (status p = "Infected" ->
                        (disease p = "Yellow Leaf Disease"
                         \/ disease p = "Fruit Rot (Koleroga)")
                        /\ 50 <= confidence p)) rest.
Proof.
  unfold result_of. eexists. split; [reflexivity |].
  apply Forall_app. split.
  - destruct yellow as [p |]; [| constructor].
    constructor; [| constructor]. split; [discriminate |].
    eexists. split; [reflexivity |]. intros Hs.
    destruct (classify_made "Yellow Leaf Disease" "Healthy Leaf" p)
      as [(_ & Hd & Hc) | Hh]; [| rewrite Hh in Hs; discriminate Hs].
    split; [now left | exact Hc].
  - destruct fruit as [p |]; [| constructor].
    constructor; [| constructor]. split; [discriminate |].
    eexists. split; [reflexivity |]. intros Hs.
    destruct (classify_made "Fruit Rot (Koleroga)" "Healthy Fruit" p)
      as [(_ & Hd & Hc) | Hh]; [| rewrite Hh in Hs; discriminate Hs].
    split; [now right | exact Hc].
Qed.

Lemma ran_raises key types detection_type a :
  ran disease_models key types detection_type a = Some None
  <-> py_in detection_type types = true
      /\ exists model, disease_models !! key = Some model /\ model a = None.
Proof.
  unfold ran. destruct (py_in detection_type types).
  - destruct (disease_models !! key) as [model |].
    + split.
      * intros H. split; [reflexivity |]. exists model.
        split; [reflexivity | congruence].
      * intros (_ & m & Hm & Hraise). injection Hm as <-. now rewrite Hraise.
    + split; [discriminate | intros (_ & m & Hm & _); discriminate Hm].
  - split; [discriminate | intros [H _]; discriminate H].
Qed.

Lemma predict_disease_None a detection_type :
  predict_disease img disease_models (Some a) detection_type = None
  <-> ran disease_models "yellow_leaf" ["yellow_leaf"; "both"]
        detection_type a = Some None
      \/ ran disease_models "fruit_rot" ["fruit_rot"; "both"]
           detection_type a = Some None.
Proof.
  rewrite predict_disease_runs.
  destruct (ran disease_models "yellow_leaf" ["yellow_leaf"; "both"]
              detection_type a) as [[p |] |];
    destruct (ran disease_models "fruit_rot" ["fruit_rot"; "both"]
                detection_type a) as [[q |] |];
    split; intros H; try reflexivity; try discriminate H;
    try (now left); try (now right);
    destruct H as [H | H]; discriminate H.
Qed.

(** X2. A detection persists nothing exactly when the prediction raised:
    the image could not be opened, or a classifier that was requested and
    is loaded raised on it, also when the other classifier succeeded. *)
Theorem detection_fails_iff_prediction_raises opened detection_type rain :
  (exists msg,
     disease_detection
       (predict_disease img disease_models opened detection_type) rain =
       ProcessingFailed msg)
  <-> opened = None
      \/ exists a,
           opened = Some a
           /\ ((py_in detection_type ["yellow_leaf"; "both"] = true
                /\ exists model,
                     disease_models !! "yellow_leaf" = Some model
                     /\ model a = None)
               \/ (py_in detection_type ["fruit_rot"; "both"] = true
                   /\ exists model,
                        disease_models !! "fruit_rot" = Some model
                        /\ model a = None)).
Proof.
  destruct opened as [a |].
  - transitivity
      (predict_disease img disease_models (Some a) detection_type = None).
    + split.
      * intros [msg Hmsg].
        destruct (predict_disease img disease_models (Some a) detection_type)
          as [res |] eqn:Hres; [exfalso | reflexivity].
        rewrite predict_disease_runs in Hres.
        assert (Hshape : exists yellow fruit, res = result_of yellow fruit).
        { destruct (ran disease_models "yellow_leaf" ["yellow_leaf"; "both"]
                      detection_type a) as [[p |] |];
            destruct (ran disease_models "fruit_rot" ["fruit_rot"; "both"]
                        detection_type a) as [[q |] |];
            try discriminate Hres; injection Hres as <-;
            eexists _, _; reflexivity. }
        destruct Hshape as (yellow & fruit & ->).
        destruct (result_of_entries yellow fruit) as (rest & Heq & Hrest).
        destruct (detection_of_entries true
                    "Image validation bypassed - user responsibility"
                    rest rain Hrest) as (row & Hrow & _).
        rewrite Heq in Hmsg.
        discriminate (eq_trans (eq_sym Hrow) Hmsg).
      * intros ->. eexists. reflexivity.
    + rewrite predict_disease_None, !ran_raises. split.
      * intros H. right. exists a. split; [reflexivity | exact H].
      * intros [Hnone | (a' & Ha & H)]; [discriminate Hnone |].
        injection Ha as <-. exact H.
  - split; [intros _; now left | intros _].
    eexists. reflexivity.
Qed.

(** X3. A detection never ends in a server error. When the prediction
    did not raise it persists a row that is "Healthy" with severity
    "None" and a confidence of at least 75, or names one of the two
    diseases with a confidence of at least 50 and the severity tier of
    that confidence (above 85 "moderate", else "mild", for yellow leaf;
    above 90 "severe", else "moderate", for fruit rot). *)
Theorem detection_outcome opened detection_type rain :
  match predict_disease img disease_models opened detection_type with
  | None =>
      exists msg,
        disease_detection
          (predict_disease img disease_models opened detection_type) rain =
          ProcessingFailed msg
  | Some _ =>
      exists row,
        disease_detection
          (predict_disease img disease_models opened detection_type) rain =
          Persisted row
        /\ ((disease_name row = "Healthy" /\ det_severity row = "None"
             /\ 75 <= det_confidence row)
            \/ (disease_name row = "Yellow Leaf Disease"
                /\ 50 <= det_confidence row
                /\ det_severity row =
                     (if gtb (det_confidence row) 85
                      then "moderate" else "mild"))
            \/ (disease_name row = "Fruit Rot (Koleroga)"
                /\ 50 <= det_confidence row
                /\ det_severity row =
                     (if gtb (det_confidence row) 90
                      then "severe" else "moderate")))
  end.
Proof.
  destruct opened as [a |]; [| eexists; reflexivity].
  assert (Hshape :
    predict_disease img disease_models (Some a) detection_type = None
    \/ exists yellow fruit,
         predict_disease img disease_models (Some a) detection_type =
         Some (result_of yellow fruit)).
  { rewrite predict_disease_runs.
    destruct (ran disease_models "yellow_leaf" ["yellow_leaf"; "both"]
                detection_type a) as [[p |] |];
      destruct (ran disease_models "fruit_rot" ["fruit_rot"; "both"]
                  detection_type a) as [[q |] |];
      first [now left | right; eexists _, _; reflexivity]. }
  destruct Hshape as [-> | (yellow & fruit & ->)]; [eexists; reflexivity |].
  destruct (result_of_entries yellow fruit) as (rest & Heq & Hrest).
  rewrite Heq.
  exact (detection_of_entries true
           "Image validation bypassed - user responsibility"
           rest rain Hrest).
Qed.

(** X4. When no classifier runs, because the detection type is none of
    [yellow_leaf], [fruit_rot] and [both] or because no model is loaded,
    an image that opens is still persisted: as "Healthy" with the
    validation entry's confidence 75. *)
Theorem detection_without_classifier a detection_type rain :
  py_in detection_type ["yellow_leaf"; "fruit_rot"; "both"] = false
  \/ (disease_models !! "yellow_leaf" = None
      /\ disease_models !! "fruit_rot" = None) ->
  disease_detection
    (predict_disease img disease_models (Some a) detection_type) rain =
    Persisted
      {| disease_name := "Healthy";
         det_severity := "None";
         det_confidence := 75;
         det_recommendation :=
           "No treatment required. Your crop looks healthy!";
         weather_warning :=
           if (rain >? 60)%Z
           then "Do not spray today, rain expected. Spraying safe tomorrow between 6-10 AM."
           else "Weather is favorable for spraying. Best time: 7 AM - 11 AM." |}.
Proof.
  intros Hnone. rewrite predict_disease_runs. unfold ran.
  destruct Hnone as [Htype | [Hy Hf]].
  - unfold py_in in *. cbn [existsb] in *.
    apply orb_false_iff in Htype as [Hy Htype].
    apply orb_false_iff in Htype as [Hf Htype].
    apply orb_false_iff in Htype as [Hb _].
    rewrite Hy, Hf, Hb. reflexivity.
  - rewrite Hy, Hf.
    destruct (py_in detection_type ["yellow_leaf"; "both"]);
      destruct (py_in detection_type ["fruit_rot"; "both"]); reflexivity.
Qed.

End DetectionOutcome2.

Lemma detection_without_classifier_witness :
  Detection.disease_detection
    (Detection.predict_disease unit
       {["yellow_leaf" := fun _ : unit => Some (9 # 10)]} (Some tt) "leaf")
    70 =
    Detection.Persisted
      {| Detection.disease_name := "Healthy";
         Detection.det_severity := "None";
         Detection.det_confidence := 75;
         Detection.det_recommendation :=
           "No treatment required. Your crop looks healthy!";
         Detection.weather_warning :=
           if (70 >? 60)%Z
           then "Do not spray today, rain expected. Spraying safe tomorrow between 6-10 AM."
           else "Weather is favorable for spraying. Best time: 7 AM - 11 AM." |}.
Proof.
  apply (detection_without_classifier unit
           {["yellow_leaf" := fun _ : unit => Some (9 # 10)]} tt "leaf" 70).
  left. reflexivity.
Defined.

(** ** Refreshing and viewing prices *)

Section PriceViews.
Import Prices.

Lemma first_where_lookup p (tbl : table) i x :
  first_where p tbl = Some (i, x) -> tbl !! i = Some x.
Proof.
  intros H. apply first_where_Some in H as (pre & post & -> & <- & _ & _).
  now apply list_lookup_middle.
Qed.

(** A refresh that finds both prices stores a row dated now. *)
Lemma refresh_stores_now scraped now (tbl : table) red_price white_price :
  get_price scraped "red_arecanut_price" = Some red_price ->
  get_price scraped "white_arecanut_price" = Some white_price ->
  exists x,
    x ∈ (update_market_prices scraped now tbl).1
    /\ date x = now
    /\ red_arecanut_price x = Some red_price
    /\ white_arecanut_price x = Some white_price.
Proof.
  intros Hred Hwhite. unfold update_market_prices.
  rewrite (price_map_nonempty _ _ _ Hred), Hred, Hwhite.
  destruct (first_where _ tbl) as [[i existing] |] eqn:Hfind;
    cbn [mbind option_bind fst].
  - exists (overwritten existing red_price white_price now).
    split; [| conjuncts; reflexivity].
    apply first_where_lookup in Hfind.
    apply list_elem_of_lookup. exists i.
    apply list_lookup_insert_eq. now apply lookup_lt_Some in Hfind.
  - exists (appended red_price white_price now).
    split; [| conjuncts; reflexivity].
    apply elem_of_app. right. left.
Qed.

Lemma view_decision scraped scraped' now (tbl : table) :
  (market_prices scraped now tbl).1 = (market_prices scraped' now tbl).1.
Proof.
  unfold market_prices. destruct (latest tbl) as [r |]; [| reflexivity].
  now destruct (1 <=? _)%Z.
Qed.

(** X5. With a price source that delivers both prices, a view of the
    pricing page leaves a most recent stored price that is less than a
    day old, so that a second view at the same time does not refresh
    again, whatever the source then returns. *)
Theorem view_leaves_fresh_price scraped now (tbl : table) red_price
    white_price :
  get_price scraped "red_arecanut_price" = Some red_price ->
  get_price scraped "white_arecanut_price" = Some white_price ->
  (exists r,
     latest (market_prices scraped now tbl).2 = Some r
     /\ (wall now - wall (date r) < day_us)%Z)
  /\ forall scraped',
       (market_prices scraped' now (market_prices scraped now tbl).2).1
       = false.
Proof.
  intros Hred Hwhite.
  assert (Hfresh : exists r,
             latest (market_prices scraped now tbl).2 = Some r
             /\ (wall now - wall (date r) < day_us)%Z).
  { destruct (refresh_stores_now scraped now tbl _ _ Hred Hwhite)
      as (x & Hx & Hdate & _).
    assert (Hstored : forall tbl',
               tbl' = (update_market_prices scraped now tbl).1 ->
               exists r, latest tbl' = Some r
                         /\ (wall now - wall (date r) < day_us)%Z).
    { intros tbl' ->.
      destruct (latest (update_market_prices scraped now tbl).1)
        as [r |] eqn:Hlatest.
      - exists r. split; [reflexivity |].
        apply latest_most_recent in Hlatest as [_ Hall].
        rewrite Forall_forall in Hall. specialize (Hall x Hx).
        rewrite Hdate in Hall. unfold day_us. lia.
      - apply latest_None in Hlatest. rewrite Hlatest in Hx.
        now apply elem_of_nil in Hx. }
    unfold market_prices.
    destruct (latest tbl) as [r |] eqn:Hlatest; [| now apply Hstored].
    assert (Hwall : wall (if aware (date r) then date r
                          else replace_tzinfo_IST (date r)) = wall (date r))
      by now destruct (aware (date r)).
    unfold days, sub. rewrite Hwall.
    destruct (Z.leb_spec 1 ((wall now - wall (date r)) `div` day_us))
      as [Hold | Hnew]; cbn [snd]; [now apply Hstored |].
    exists r. split; [exact Hlatest |].
    unfold day_us in *. Z.div_mod_to_equations. lia. }
  split; [exact Hfresh |].
  intros scraped'. destruct Hfresh as (r & Hlatest & Hage).
  unfold market_prices at 1. rewrite Hlatest.
  assert (Hwall : wall (if aware (date r) then date r
                        else replace_tzinfo_IST (date r)) = wall (date r))
    by now destruct (aware (date r)).
  unfold days, sub. rewrite Hwall.
  destruct (Z.leb_spec 1 ((wall now - wall (date r)) `div` day_us))
    as [Hold | Hnew]; [exfalso | reflexivity].
  unfold day_us in *. Z.div_mod_to_equations. lia.
Qed.

End PriceViews.

Lemma view_leaves_fresh_price_witness :
  (exists r,
     Prices.latest
       (Prices.market_prices Prices.scrape_mangalore_prices Samples.morning
          []).2 = Some r
     /\ (wall Samples.morning - wall (Prices.date r) < day_us)%Z)
  /\ forall scraped',
       (Prices.market_prices scraped' Samples.morning
          (Prices.market_prices Prices.scrape_mangalore_prices
             Samples.morning []).2).1 = false.
Proof.
  apply (view_leaves_fresh_price Prices.scrape_mangalore_prices
           Samples.morning [] 150 160).
  - reflexivity.
  - reflexivity.
Defined.

Section RefreshEdges.
Import Prices.

Lemma size_zero_empty (scraped : gmap string pyval) :
  (size scraped =? 0)%nat = true <-> scraped = ∅.
Proof. rewrite Nat.eqb_eq. apply map_size_empty_iff. Qed.

(** X6. A refresh fails exactly when the price source returns a
    non-empty result that lacks a numeric red or white price; it then
    leaves the stored table as it was. *)
Theorem refresh_fails_iff_price_missing scraped now (tbl : table) :
  ((update_market_prices scraped now tbl).2 = Failure
   <-> scraped <> ∅
       /\ (get_price scraped "red_arecanut_price" = None
           \/ get_price scraped "white_arecanut_price" = None))
  /\ ((update_market_prices scraped now tbl).2 = Failure ->
      (update_market_prices scraped now tbl).1 = tbl).
Proof.
  unfold update_market_prices.
  destruct (size scraped =? 0)%nat eqn:Hsize.
  - apply size_zero_empty in Hsize. subst scraped.
    change (get_price (<["source" := PStr "fallback - scraping failed"]>
                         get_fallback_prices) "red_arecanut_price")
      with (Some 145).
    change (get_price (<["source" := PStr "fallback - scraping failed"]>
                         get_fallback_prices) "white_arecanut_price")
      with (Some 155).
    destruct (first_where _ tbl) as [[i existing] |]; cbn;
      (split; [split; [discriminate | intros [H _]; now destruct H]
              | discriminate]).
  - assert (Hne : scraped <> ∅).
    { intros ->. discriminate Hsize. }
    destruct (get_price scraped "red_arecanut_price") as [r |];
      destruct (get_price scraped "white_arecanut_price") as [w |];
      destruct (first_where _ tbl) as [[i existing] |]; cbn;
      (split;
       [ split;
         [ first [discriminate | intros _; split; [exact Hne | tauto]]
         | first [reflexivity
                 | intros [_ [H | H]]; discriminate H] ]
       | first [reflexivity | discriminate] ]).
Qed.

(** X7. An empty result of the price source does not fail the refresh:
    the fallback prices 145 and 155 are stored as by a refresh with the
    fallback table, and the returned data carries the "fallback" tag,
    which no stored row receives as its source. *)
Theorem empty_scrape_falls_back now (tbl : table) :
  exists action,
    update_market_prices ∅ now tbl =
      ((update_market_prices get_fallback_prices now tbl).1,
       Success action
         (<["source" := PStr "fallback - scraping failed"]>
            get_fallback_prices))
    /\ (exists x,
          x ∈ (update_market_prices ∅ now tbl).1
          /\ date x = now
          /\ red_arecanut_price x = Some 145
          /\ white_arecanut_price x = Some 155)
    /\ (Forall (fun r => source r <> "fallback - scraping failed") tbl ->
        Forall (fun r => source r <> "fallback - scraping failed")
          (update_market_prices ∅ now tbl).1).
Proof.
  unfold update_market_prices.
  change (size (∅ : gmap string pyval) =? 0)%nat with true.
  change (size get_fallback_prices =? 0)%nat with false.
  change (get_price (<["source" := PStr "fallback - scraping failed"]>
                       get_fallback_prices) "red_arecanut_price")
    with (Some 145).
  change (get_price (<["source" := PStr "fallback - scraping failed"]>
                       get_fallback_prices) "white_arecanut_price")
    with (Some 155).
  change (get_price get_fallback_prices "red_arecanut_price") with (Some 145).
  change (get_price get_fallback_prices "white_arecanut_price")
    with (Some 155).
  destruct (first_where _ tbl) as [[i existing] |] eqn:Hfind;
    cbn [mbind option_bind fst snd].
  - exists "updated". conjuncts; [reflexivity | |].
    + exists (overwritten existing 145 155 now).
      split; [| conjuncts; reflexivity].
      apply first_where_lookup in Hfind.
      apply list_elem_of_lookup. exists i.
      apply list_lookup_insert_eq. now apply lookup_lt_Some in Hfind.
    + intros Hall. apply Forall_insert; [exact Hall |].
      apply first_where_lookup in Hfind.
      rewrite Forall_forall in Hall. apply (Hall existing).
      apply list_elem_of_lookup. now exists i.
  - exists "created". conjuncts; [reflexivity | |].
    + exists (appended 145 155 now).
      split; [| conjuncts; reflexivity].
      apply elem_of_app. right. left.
    + intros Hall. apply Forall_app. split; [exact Hall |].
      constructor; [discriminate | constructor].
Qed.

(** X8. A refresh keeps the history: the rows dated before the midnight
    that precedes now are the same, in the same order, afterwards, and
    the table gains at most one row and loses none. *)
Theorem refresh_keeps_history scraped now (tbl : table) :
  List.filter (fun r => negb (dt_geb (date r) (midnight now)))
    (update_market_prices scraped now tbl).1
  = List.filter (fun r => negb (dt_geb (date r) (midnight now))) tbl
  /\ (length tbl <= length (update_market_prices scraped now tbl).1
      <= S (length tbl))%nat.
Proof.
  assert (Hnow : forall x, date x = now ->
                           negb (dt_geb (date x) (midnight now)) = false).
  { intros x ->. unfold dt_geb, midnight; cbn [wall].
    apply negb_false_iff, Z.leb_le.
    unfold day_us. Z.div_mod_to_equations. lia. }
  unfold update_market_prices.
  set (scraped_data := if (size scraped =? 0)%nat then _ else _).
  destruct (first_where _ tbl) as [[i existing] |] eqn:Hfind.
  - destruct (get_price scraped_data "red_arecanut_price") as [r |];
      [| cbn; split; [reflexivity | lia]].
    destruct (get_price scraped_data "white_arecanut_price") as [w |];
      [| cbn; split; [reflexivity | lia]].
    cbn [mbind option_bind fst].
    apply first_where_Some in Hfind
      as (pre & post & -> & <- & _ & Hexisting).
    rewrite insert_middle, !List.filter_app, !length_app. cbn [List.filter].
    rewrite Hexisting,
      (Hnow {| source := source existing; date := now |} eq_refl).
    cbn [negb length].
    split; [reflexivity | lia].
  - destruct (get_price scraped_data "red_arecanut_price") as [r |];
      [| cbn; split; [reflexivity | lia]].
    destruct (get_price scraped_data "white_arecanut_price") as [w |];
      [| cbn; split; [reflexivity | lia]].
    cbn [mbind option_bind fst].
    rewrite List.filter_app, length_app. cbn [List.filter].
    rewrite (Hnow {| source := "CAMPCO Mangalore"; date := now |} eq_refl).
    cbn [length]. rewrite app_nil_r.
    split; [reflexivity | lia].
Qed.

End RefreshEdges.

(** ** More on forecasts *)

Section ForecastMore.
Import Prices Forecast.

Variables year month day weekday : datetime -> Z.
Variable strftime : datetime -> string.
Variable np_std : list Q -> Q.
Variables np_tape py_tape : nat -> Q.
Variable fl : Q -> Q.

Local Abbreviation forecast_step :=
  (forecast_step year month day weekday strftime np_std np_tape fl).
Local Abbreviation model_predictions :=
  (model_predictions year month day weekday strftime np_std np_tape fl).
Local Abbreviation generate_simple_predictions :=
  (generate_simple_predictions strftime py_tape).
Local Abbreviation price_prediction :=
  (price_prediction year month day weekday strftime np_std np_tape py_tape
     fl).

(** X9. The fallback on a non-empty history, with draws in [0, 1]. When
    the last stored row holds both prices, the fallback returns 15
    entries, each between 20 below and 30 above the last stored price,
    for red and for white, up to the rounding to 2 decimals. When the
    last stored row holds NULL for a price, the fallback raises in its
    first iteration, after one draw for a NULL red price and after two
    for a NULL white price only, and calls no model. *)
Theorem fallback_stays_near_last_price (historical_prices : table) now s
    last_price :
  (forall n, 0 <= py_tape n /\ py_tape n <= 1) ->
  last historical_prices = Some last_price ->
  match red_arecanut_price last_price, white_arecanut_price last_price with
  | Some r, Some w =>
      exists predictions s',
        generate_simple_predictions historical_prices now s =
          (s', Some predictions)
        /\ length predictions = 15%nat
        /\ Forall (fun e =>
                     r - 20 - (1 # 200) <= red e
                     /\ red e <= r + 30 + (1 # 200)
                     /\ w - 20 - (1 # 200) <= white e
                     /\ white e <= w + 30 + (1 # 200))
             predictions
  | _, _ =>
      exists s',
        generate_simple_predictions historical_prices now s = (s', None)
        /\ model_log s' = model_log s
        /\ py_next s' =
             (py_next s + match red_arecanut_price last_price with
                          | Some _ => 2
                          | None => 1
                          end)%nat
  end.
Proof.
  intros Htape Hlast.
  pose proof (generate_simple_predictions_spec strftime py_tape
                historical_prices now s) as Hspec.
  rewrite Hlast in Hspec.
  destruct (red_arecanut_price last_price) as [r |];
    [destruct (white_arecanut_price last_price) as [w |] |].
  - destruct Hspec as (predictions & s' & Hrun & Hn & _ & _ & _ & Hall & _).
    exists predictions, s'. conjuncts; [exact Hrun | exact Hn |].
    eapply Forall_impl; [exact Hall |].
    intros e (n & Hred & Hwhite).
    destruct (Htape n) as [Hn0 Hn1]. destruct (Htape (S n)) as [Hs0 Hs1].
    pose proof (round2_close (r + (-20 + (30 - -20) * py_tape n))) as Hr.
    pose proof (round2_close (w + (-20 + (30 - -20) * py_tape (S n))))
      as Hw.
    rewrite <- Hred in Hr. rewrite <- Hwhite in Hw.
    apply Qabs_Qle_condition in Hr, Hw.
    conjuncts; lra.
  - destruct Hspec as (s' & Hrun & _ & Hlog & Hpy).
    exists s'. conjuncts; [exact Hrun | exact Hlog | exact Hpy].
  - destruct Hspec as (s' & Hrun & _ & Hlog & Hpy).
    exists s'. conjuncts; [exact Hrun | exact Hlog | exact Hpy].
Qed.

(** X10. What a price forecast over a non-empty history consumes. It
    completes on the regression path, with exactly 15 model calls and no
    draw of [random]; or it completes in the fallback, with exactly 30
    draws of [random] (two per entry); or the fallback raises on a NULL
    price of the last stored row and the request returns nothing, after
    one or two draws of [random]. A fallback comes after at most 15
    model calls, and after none without a loaded model or with fewer
    than 14 rows. *)
Theorem forecast_effects price_model (historical_prices : table) now s :
  historical_prices <> [] ->
  let s' := (price_prediction price_model historical_prices now s).1 in
  let result := (price_prediction price_model historical_prices now s).2 in
  (is_Some result
   /\ length (model_log s') = (length (model_log s) + 15)%nat
   /\ py_next s' = py_next s)
  \/ ((length (model_log s') <= length (model_log s) + 15)%nat
      /\ (price_model = None \/ (length historical_prices < 14)%nat ->
          model_log s' = model_log s)
      /\ ((is_Some result /\ py_next s' = (py_next s + 30)%nat)
          \/ (result = None
              /\ exists last_price,
                   last historical_prices = Some last_price
                   /\ (red_arecanut_price last_price = None
                       \/ white_arecanut_price last_price = None)
                   /\ py_next s' =
                        (py_next s
                         + match red_arecanut_price last_price with
                           | Some _ => 2
                           | None => 1
                           end)%nat))).
Proof.
  intros Hne. cbv zeta.
  assert (Hfallback : forall s0,
    model_log (generate_simple_predictions historical_prices now s0).1 =
    model_log s0
    /\ ((is_Some (generate_simple_predictions historical_prices now s0).2
         /\ py_next (generate_simple_predictions historical_prices now s0).1
            = (py_next s0 + 30)%nat)
        \/ ((generate_simple_predictions historical_prices now s0).2 = None
            /\ exists last_price,
                 last historical_prices = Some last_price
                 /\ (red_arecanut_price last_price = None
                     \/ white_arecanut_price last_price = None)
                 /\ py_next
                      (generate_simple_predictions historical_prices now
                         s0).1 =
                      (py_next s0
                       + match red_arecanut_price last_price with
                         | Some _ => 2
                         | None => 1
                         end)%nat))).
  { intros s0.
    pose proof (generate_simple_predictions_spec strftime py_tape
                  historical_prices now s0) as Hspec.
    destruct (last historical_prices) as [last_price |] eqn:Hlast.
    - destruct (red_arecanut_price last_price) as [r |] eqn:Hr;
        [destruct (white_arecanut_price last_price) as [w |] eqn:Hw |].
      + destruct Hspec as (p & s1 & Hrun & _ & _ & Hpy & Hlog & _).
        rewrite Hrun. cbn [fst snd]. split; [exact Hlog | left].
        split; [eexists; reflexivity | exact Hpy].
      + destruct Hspec as (s1 & Hrun & _ & Hlog & Hpy).
        rewrite Hrun. cbn [fst snd]. split; [exact Hlog | right].
        split; [reflexivity |]. exists last_price. rewrite Hr.
        conjuncts; [reflexivity | now right | exact Hpy].
      + destruct Hspec as (s1 & Hrun & _ & Hlog & Hpy).
        rewrite Hrun. cbn [fst snd]. split; [exact Hlog | right].
        split; [reflexivity |]. exists last_price. rewrite Hr.
        conjuncts; [reflexivity | now left | exact Hpy].
    - apply last_None in Hlast. now destruct Hne. }
  destruct (price_prediction_cases year month day weekday strftime np_std
              np_tape py_tape fl price_model historical_prices now s)
    as [(model & s1 & predictions & -> & Hlen & Hrun & Hpp)
       | [(Hshort & Hpp) | (model & s1 & -> & Hlen & Hrun & Hpp)]];
    rewrite Hpp.
  - left. cbn [fst snd].
    apply model_predictions_inv in Hrun as (Hpy & _ & Hrun).
    destruct (Hrun predictions eq_refl) as (Hcalls & _).
    conjuncts; [eexists; reflexivity | exact Hcalls | exact Hpy].
  - right. destruct (Hfallback s) as [Hlog Hcases]. rewrite Hlog.
    conjuncts; [lia | reflexivity | exact Hcases].
  - right. destruct (Hfallback s1) as [Hlog Hcases]. rewrite Hlog.
    apply model_predictions_inv in Hrun as (Hpy & Hle & _).
    conjuncts; [exact Hle | intros [H | H]; [discriminate H | lia] |].
    rewrite <- Hpy. exact Hcases.
Qed.

Lemma lag_one base_prices historical_prices v :
  last base_prices = Some v -> lag 1 base_prices historical_prices = Some v.
Proof.
  intros Hlast. unfold lag, nth_back.
  destruct base_prices as [| b base_prices]; [discriminate Hlast |].
  cbn [length Nat.leb]. rewrite <- Hlast, last_lookup.
  cbn [length Nat.pred Nat.sub]. now rewrite Nat.sub_0_r.
Qed.

Lemma step_features_lag_1 historical_prices current_date base_prices row :
  step_features year month day weekday np_std historical_prices current_date
    base_prices = Some row ->
  lag 1 base_prices historical_prices = Some (Lag_1 row).
Proof.
  unfold step_features. intros H.
  destruct (lag 1 base_prices historical_prices) as [l1 |];
    [| discriminate H].
  destruct (lag 2 base_prices historical_prices); [| discriminate H].
  destruct (lag 3 base_prices historical_prices); [| discriminate H].
  destruct (lag 7 base_prices historical_prices); [| discriminate H].
  destruct (lag 14 base_prices historical_prices); [| discriminate H].
  cbn [mbind option_bind] in H.
  repeat match type of H with
         | context [option_bind _ _ _ ?m] =>
             destruct m; [cbn [mbind option_bind] in H | discriminate H]
         | context [mbind _ ?m] =>
             destruct m; [cbn [mbind option_bind] in H | discriminate H]
         end.
  injection H as <-. reflexivity.
Qed.

(** X11. Consecutive steps of the regression loop are chained through
    the unrounded prediction: the [Lag_1] feature the model receives in
    the next step is the red prediction of the step before, of which the
    reported red price is the rounding. *)
Theorem next_lag_is_previous_prediction model historical_prices now i j
    base_prices s s1 s2 e1 e2 base_prices1 base_prices2 :
  forecast_step model historical_prices now i base_prices s =
    (s1, Some (e1, base_prices1)) ->
  forecast_step model historical_prices now j base_prices1 s1 =
    (s2, Some (e2, base_prices2)) ->
  exists v row,
    last base_prices1 = Some v
    /\ red e1 = round2 v
    /\ last (model_log s2) = Some row
    /\ Lag_1 row = v.
Proof.
  intros Hfirst Hsecond.
  apply forecast_step_inv in Hfirst
    as (row1 & raw1 & s01 & recent1 & v & _ & _ & _ & _ & _ & Hlast & _
        & Hred & _).
  apply forecast_step_inv in Hsecond
    as (row & raw & s0 & recent & v2 & Hrow & _ & Hlog & _ & Hclamp & _).
  exists v, row. conjuncts; [exact Hlast | exact Hred | |].
  - assert (Hs2 : model_log s2 = model_log s0).
    { unfold clamp in Hclamp.
      destruct (ltb raw 100 || gtb raw 1000); injection Hclamp as <- _;
        reflexivity. }
    rewrite Hs2, Hlog. apply last_snoc.
  - apply step_features_lag_1 in Hrow.
    rewrite (lag_one _ _ _ Hlast) in Hrow. now injection Hrow.
Qed.

End ForecastMore.

Lemma fallback_stays_near_last_price_witness :
  exists predictions s',
    Forecast.generate_simple_predictions Samples.no_text
      Samples.py_two_fifths [Samples.price_row 150 160 Samples.morning]
      Samples.morning Samples.fresh = (s', Some predictions)
    /\ length predictions = 15%nat
    /\ Forall (fun e =>
                 150 - 20 - (1 # 200) <= Forecast.red e
                 /\ Forecast.red e <= 150 + 30 + (1 # 200)
                 /\ 160 - 20 - (1 # 200) <= Forecast.white e
                 /\ Forecast.white e <= 160 + 30 + (1 # 200)) predictions.
Proof.
  apply (fallback_stays_near_last_price Samples.no_text
           Samples.py_two_fifths [Samples.price_row 150 160 Samples.morning]
           Samples.morning Samples.fresh
           (Samples.price_row 150 160 Samples.morning)).
  - intros n. unfold Samples.py_two_fifths, Qle. cbn. lia.
  - reflexivity.
Defined.

Lemma forecast_effects_witness :
  let s' := (Samples.sample_prediction None Samples.fortnight
               Samples.morning Samples.fresh).1 in
  let result := (Samples.sample_prediction None Samples.fortnight
                   Samples.morning Samples.fresh).2 in
  (is_Some result
   /\ length (Forecast.model_log s') =
        (length (Forecast.model_log Samples.fresh) + 15)%nat
   /\ Forecast.py_next s' = Forecast.py_next Samples.fresh)
  \/ ((length (Forecast.model_log s')
       <= length (Forecast.model_log Samples.fresh) + 15)%nat
      /\ (@None (Forecast.features -> option Q) = None
          \/ (length Samples.fortnight < 14)%nat ->
          Forecast.model_log s' = Forecast.model_log Samples.fresh)
      /\ ((is_Some result
           /\ Forecast.py_next s' =
                (Forecast.py_next Samples.fresh + 30)%nat)
          \/ (result = None
              /\ exists last_price,
                   last Samples.fortnight = Some last_price
                   /\ (Prices.red_arecanut_price last_price = None
                       \/ Prices.white_arecanut_price last_price = None)
                   /\ Forecast.py_next s' =
                        (Forecast.py_next Samples.fresh
                         + match Prices.red_arecanut_price last_price with
                           | Some _ => 2
                           | None => 1
                           end)%nat))).
Proof.
  apply (forecast_effects Samples.no_field Samples.no_field Samples.no_field
           Samples.no_field Samples.no_text Samples.no_std Samples.np_half
           Samples.py_two_fifths Samples.exact None Samples.fortnight
           Samples.morning Samples.fresh).
  unfold Samples.fortnight, Samples.fortnight_at. cbn [replicate].
  intros H. discriminate H.
Defined.

Lemma next_lag_is_previous_prediction_witness :
  exists s1 e1 base_prices1 s2,
    Samples.sample_step (fun _ => Some 500) Samples.fortnight
      Samples.morning 1 (Samples.fortnight_reds 150) Samples.fresh =
      (s1, Some (e1, base_prices1))
    /\ exists v row,
         last base_prices1 = Some v
         /\ Forecast.red e1 = round2 v
         /\ last (Forecast.model_log s2) = Some row
         /\ Forecast.Lag_1 row = v.
Proof.
  eexists _, _, _, _.
  split; [vm_compute; reflexivity |].
  eapply (next_lag_is_previous_prediction Samples.no_field Samples.no_field
           Samples.no_field Samples.no_field Samples.no_text Samples.no_std
           Samples.np_half Samples.exact (fun _ => Some 500)
           Samples.fortnight Samples.morning 1 2
           (Samples.fortnight_reds 150) Samples.fresh).
  - vm_compute; reflexivity.
  - vm_compute; reflexivity.
Defined.

(** ** Pump records and irrigation logs *)

Section IrrigationMore.
Import Irrigation.

(** The dispatch on the posted action. *)
Lemma action_dispatch {T} (A : T) (B : string -> T) (act : string) :
  match act with
  | "simulate" => A
  | _ => B act
  end = if String.eqb act "simulate" then A else B act.
Proof.
  destruct (String.eqb_spec act "simulate") as [-> | Hne]; [reflexivity |].
  do 8 (destruct act as [| [[] [] [] [] [] [] [] []] act]; try reflexivity).
  destruct act; [now destruct Hne | reflexivity].
Qed.

Lemma smart_irrigation_post uid act m now db :
  smart_irrigation uid (Some {| action := Some act; moisture_level := m |})
    now db =
  let '(pumps1, i, pump) := get_or_create_pump uid now (pumps db) in
  if String.eqb act "simulate" then
    match match m with
          | Absent => Some (Some 50)
          | Unreadable => None
          | Posted x => Some x
          end with
    | None => ({| pumps := pumps1; logs := logs db |}, ServerError)
    | Some x =>
        ({| pumps := pumps1;
            logs := logs db ++ [{| user_id := uid;
                                   soil_moisture := x;
                                   pump_status := ps_status pump;
                                   action_type := "Simulation";
                                   message := (classify_moisture x).1 |}] |},
         Page pump (Some (classify_moisture x).1) (Some x))
    end
  else if String.eqb act "ON" || String.eqb act "OFF" then
    ({| pumps := <[i := {| ps_user_id := ps_user_id pump;
                           ps_status := act;
                           ps_updated_at := Some now |}]> pumps1;
        logs := logs db ++ [{| user_id := uid;
                               soil_moisture := None;
                               pump_status := act;
                               action_type := "Manual";
                               message := "ðŸ’¡ Pump turned " +:+ act +:+ "." |}] |},
     Toggled ("ðŸ’¡ Pump turned " +:+ act +:+ "."))
  else ({| pumps := pumps1; logs := logs db |}, Page pump None None).
Proof.
  unfold smart_irrigation.
  destruct (get_or_create_pump uid now (pumps db)) as [[pumps1 i] pump].
  cbn [action moisture_level].
  destruct m as [| | x];
    [destruct (classify_moisture (Some 50)) as [text status] |
    | destruct (classify_moisture x) as [text status]];
    cbn [fst];
    match goal with
    | |- _ = (if String.eqb act "simulate" then ?A else ?Bact) =>
        let B := eval pattern act in Bact in
        match B with
        | ?f act => exact (action_dispatch A f act)
        end
    end.
Qed.

Lemma pump_of_Some uid (tbl : list PumpStatus) i p :
  pump_of uid tbl = Some (i, p) ->
  tbl !! i = Some p /\ ps_user_id p = uid
  /\ Forall (fun q => ps_user_id q <> uid) (take i tbl).
Proof.
  revert i. induction tbl as [| q tbl IH]; intros i H; cbn in H.
  - discriminate H.
  - destruct (Z.eqb_spec (ps_user_id q) uid) as [Hq | Hq].
    + injection H as <- <-. conjuncts; [reflexivity | exact Hq | constructor].
    + destruct (pump_of uid tbl) as [[j r] |]; [| discriminate H].
      injection H as <- <-. destruct (IH j eq_refl) as (Hl & Hu & Hall).
      conjuncts; [exact Hl | exact Hu | now constructor].
Qed.

Lemma pump_of_None uid (tbl : list PumpStatus) :
  pump_of uid tbl = None <-> uid ∉ map ps_user_id tbl.
Proof.
  induction tbl as [| q tbl IH]; cbn.
  - split; [intros _; apply not_elem_of_nil | reflexivity].
  - destruct (Z.eqb_spec (ps_user_id q) uid) as [Hq | Hq].
    + split; [discriminate |]. intros H. exfalso. apply H. rewrite Hq. left.
    + destruct (pump_of uid tbl) as [[j r] |].
      * split; [discriminate |]. intros H. exfalso.
        apply not_elem_of_cons in H as [_ H]. now apply IH in H.
      * split; [| reflexivity]. intros _.
        apply not_elem_of_cons. split; [congruence | now apply IH].
Qed.

(** Replacing a record by one of the same user does not move any
    user's record. *)
Lemma pump_of_insert other (tbl : list PumpStatus) i p p' :
  tbl !! i = Some p -> ps_user_id p' = ps_user_id p ->
  pump_of other (<[i := p']> tbl) =
    match pump_of other tbl with
    | Some (j, q) => Some (j, if (j =? i)%nat then p' else q)
    | None => None
    end.
Proof.
  revert i. induction tbl as [| q tbl IH]; intros i Hi Hsame.
  - discriminate Hi.
  - destruct i as [| i]; cbn in Hi.
    + injection Hi as ->.
      change (<[0%nat := p']> (p :: tbl)) with (p' :: tbl).
      cbn [pump_of]. rewrite Hsame.
      destruct (ps_user_id p =? other)%Z; [reflexivity |].
      now destruct (pump_of other tbl) as [[j r] |].
    + change (<[S i := p']> (q :: tbl)) with (q :: <[i := p']> tbl).
      cbn [pump_of].
      destruct (ps_user_id q =? other)%Z; [reflexivity |].
      rewrite (IH i Hi Hsame).
      now destruct (pump_of other tbl) as [[j r] |].
Qed.

Lemma pump_of_app other (tbl : list PumpStatus) p :
  pump_of other (tbl ++ [p]) =
    match pump_of other tbl with
    | Some found => Some found
    | None =>
        if (ps_user_id p =? other)%Z then Some (length tbl, p) else None
    end.
Proof.
  induction tbl as [| q tbl IH]; cbn.
  - now destruct (ps_user_id p =? other)%Z.
  - destruct (ps_user_id q =? other)%Z; [reflexivity |].
    rewrite IH. destruct (pump_of other tbl) as [[j r] |]; [reflexivity |].
    now destruct (ps_user_id p =? other)%Z.
Qed.

(** The get-or-create leaves a record of the user at the position it
    returns and moves no other user's record. *)
Lemma get_or_create_pump_spec uid now (tbl : list PumpStatus) :
  let '(pumps1, i, pump) := get_or_create_pump uid now tbl in
  pump_of uid pumps1 = Some (i, pump)
  /\ (forall other, other <> uid -> pump_of other pumps1 = pump_of other tbl)
  /\ map ps_user_id pumps1 =
       map ps_user_id tbl
       ++ (if bool_decide (uid ∈ map ps_user_id tbl) then [] else [uid]).
Proof.
  unfold get_or_create_pump.
  destruct (pump_of uid tbl) as [[i pump] |] eqn:Hfind.
  - conjuncts; [exact Hfind | reflexivity |].
    rewrite bool_decide_eq_true_2, app_nil_r; [reflexivity |].
    destruct (decide (uid ∈ map ps_user_id tbl)) as [Hin | Hout];
      [exact Hin |].
    apply pump_of_None in Hout. congruence.
  - conjuncts.
    + rewrite pump_of_app, Hfind. cbn. now rewrite Z.eqb_refl.
    + intros other Hother. rewrite pump_of_app. cbn.
      destruct (pump_of other tbl) as [[j r] |]; [reflexivity |].
      destruct (Z.eqb_spec uid other); [congruence | reflexivity].
    + rewrite map_app. cbn.
      rewrite bool_decide_eq_false_2; [reflexivity |].
      now apply pump_of_None.
Qed.

(** X12. Switching the pump: a POST with action "ON" or "OFF" leaves the
    user's pump record with that status, stamped now, appends one
    "Manual" log entry with that status and no soil moisture, and moves
    or changes no other user's pump record. *)
Theorem toggle_sets_pump uid act m now db :
  act = "ON" \/ act = "OFF" ->
  let db' :=
    (smart_irrigation uid
       (Some {| action := Some act; moisture_level := m |}) now db).1 in
  (exists i p,
     pump_of uid (pumps db') = Some (i, p)
     /\ ps_status p = act /\ ps_updated_at p = Some now)
  /\ logs db' =
       logs db ++ [{| user_id := uid;
                      soil_moisture := None;
                      pump_status := act;
                      action_type := "Manual";
                      message := "ðŸ’¡ Pump turned " +:+ act +:+ "." |}]
  /\ forall other,
       other <> uid -> pump_of other (pumps db') = pump_of other (pumps db).
Proof.
  intros Hact db'. subst db'. rewrite smart_irrigation_post.
  pose proof (get_or_create_pump_spec uid now (pumps db)) as Hpump.
  destruct (get_or_create_pump uid now (pumps db)) as [[pumps1 i] pump].
  destruct Hpump as (Hfind & Hothers & _).
  assert (Hcase : String.eqb act "simulate" = false
                  /\ String.eqb act "ON" || String.eqb act "OFF" = true)
    by (destruct Hact as [-> | ->]; split; reflexivity).
  destruct Hcase as [-> ->]. cbn [fst pumps logs].
  apply pump_of_Some in Hfind as Hrow. destruct Hrow as (Hi & Huid & _).
  set (pump' := {| ps_user_id := ps_user_id pump; ps_status := act;
                   ps_updated_at := Some now |}).
  conjuncts.
  - exists i, pump'.
    conjuncts; [| reflexivity | reflexivity].
    rewrite (pump_of_insert uid pumps1 i pump pump' Hi eq_refl), Hfind.
    now rewrite Nat.eqb_refl.
  - reflexivity.
  - intros other Hother.
    rewrite (pump_of_insert other pumps1 i pump pump' Hi eq_refl).
    rewrite (Hothers other Hother).
    destruct (pump_of other (pumps db)) as [[j q] |] eqn:Hq; [| reflexivity].
    destruct (Nat.eqb_spec j i) as [-> | _]; [| reflexivity].
    exfalso. rewrite <- (Hothers other Hother) in Hq.
    apply pump_of_Some in Hq as (Hq & Hu & _).
    rewrite Hi in Hq. injection Hq as <-. congruence.
Qed.

(** X13. Every request to the irrigation page keeps one pump record per
    user: the users of the pump records stay the same, in the same
    order, with the requesting user added at the end when they had no
    record; in particular no user gets a second record. *)
Theorem one_pump_per_user uid post now db :
  map ps_user_id (pumps (smart_irrigation uid post now db).1) =
    map ps_user_id (pumps db)
    ++ (if bool_decide (uid ∈ map ps_user_id (pumps db)) then [] else [uid])
  /\ (NoDup (map ps_user_id (pumps db)) ->
      NoDup (map ps_user_id (pumps (smart_irrigation uid post now db).1))).
Proof.
  assert (Hmap :
    map ps_user_id (pumps (smart_irrigation uid post now db).1) =
      map ps_user_id (pumps db)
      ++ (if bool_decide (uid ∈ map ps_user_id (pumps db))
          then [] else [uid])).
  { pose proof (get_or_create_pump_spec uid now (pumps db)) as Hpump.
    destruct post as [[[act |] m] |].
    - rewrite smart_irrigation_post.
      destruct (get_or_create_pump uid now (pumps db)) as [[pumps1 i] pump].
      destruct Hpump as (Hfind & _ & Hmap).
      destruct (String.eqb act "simulate");
        [destruct m as [| | x]; exact Hmap |].
      destruct (String.eqb act "ON" || String.eqb act "OFF");
        [| exact Hmap].
      cbn [fst pumps]. rewrite <- Hmap.
      apply pump_of_Some in Hfind as (Hi & _ & _).
      change (map ps_user_id ?l) with (ps_user_id <$> l).
      rewrite list_fmap_insert. apply list_insert_id.
      rewrite list_lookup_fmap, Hi. reflexivity.
    - unfold smart_irrigation.
      destruct (get_or_create_pump uid now (pumps db)) as [[pumps1 i] pump].
      now destruct Hpump as (_ & _ & Hmap).
    - unfold smart_irrigation.
      destruct (get_or_create_pump uid now (pumps db)) as [[pumps1 i] pump].
      now destruct Hpump as (_ & _ & Hmap). }
  split; [exact Hmap |].
  intros Hnodup. rewrite Hmap.
  destruct (bool_decide_reflect (uid ∈ map ps_user_id (pumps db)))
    as [Hin | Hout].
  - now rewrite app_nil_r.
  - apply NoDup_app. conjuncts; [exact Hnodup | | apply NoDup_singleton].
    intros x Hx Hx'. apply list_elem_of_singleton in Hx'. now subst x.
Qed.


End IrrigationMore.

Lemma toggle_sets_pump_witness :
  let db := {| Irrigation.pumps := []; Irrigation.logs := [] |} in
  let db' :=
    (Irrigation.smart_irrigation 7
       (Some {| Irrigation.action := Some "ON";
                Irrigation.moisture_level := Irrigation.Absent |})
       Samples.morning db).1 in
  (exists i p,
     Irrigation.pump_of 7 (Irrigation.pumps db') = Some (i, p)
     /\ Irrigation.ps_status p = "ON"
     /\ Irrigation.ps_updated_at p = Some Samples.morning)
  /\ Irrigation.logs db' =
       Irrigation.logs db
       ++ [{| Irrigation.user_id := 7;
              Irrigation.soil_moisture := None;
              Irrigation.pump_status := "ON";
              Irrigation.action_type := "Manual";
              Irrigation.message := "ðŸ’¡ Pump turned " +:+ "ON" +:+ "." |}]
  /\ forall other,
       other <> 7%Z ->
       Irrigation.pump_of other (Irrigation.pumps db') =
       Irrigation.pump_of other (Irrigation.pumps db).
Proof.
  apply (toggle_sets_pump 7 "ON" Irrigation.Absent Samples.morning
           {| Irrigation.pumps := []; Irrigation.logs := [] |}).
  left. reflexivity.
Defined.

(** ** Settings rows and the admin gate *)

Section SettingsMore.
Import Settings.

Lemma setting_of_lookup k (tbl : list SystemSettings) i s :
  setting_of k tbl = Some (i, s) -> tbl !! i = Some s.
Proof.
  revert i. induction tbl as [| x tbl IH]; intros i H; cbn in H.
  - discriminate H.
  - destruct (String.eqb (setting_key x) k).
    + now injection H as <- <-.
    + destruct (setting_of k tbl) as [[j y] |]; [| discriminate H].
      injection H as <- <-. now apply IH.
Qed.

(** Writing over a row a row with the same image under [f] keeps the
    images of the table. *)
Lemma map_insert_same {B} (f : SystemSettings -> B)
    (tbl : list SystemSettings) i s s' :
  tbl !! i = Some s -> f s' = f s -> map f (<[i := s']> tbl) = map f tbl.
Proof.
  intros Hi Hf. change (map f ?l) with (f <$> l).
  rewrite list_fmap_insert. apply list_insert_id.
  now rewrite list_lookup_fmap, Hi, Hf.
Qed.

Lemma update_loop_columns user utcnow items :
  forall (tbl tbl' : list SystemSettings) n n',
    update_loop user utcnow items tbl n = inr (tbl', n') ->
    map (fun s => (setting_key s, setting_type s, category s, description s))
      tbl'
    = map (fun s => (setting_key s, setting_type s, category s,
                     description s)) tbl.
Proof.
  induction items as [| [key value] items IH]; intros tbl tbl' n n' H;
    cbn [update_loop] in H.
  - now injection H as <- _.
  - destruct (String.prefix "setting_" key); [| now apply IH in H].
    destruct (setting_of _ tbl) as [[i setting] |] eqn:Hfind;
      [| now apply IH in H].
    destruct (name_of user) as [e | user_name]; [discriminate H |].
    apply IH in H. rewrite H.
    apply setting_of_lookup in Hfind.
    now apply (map_insert_same _ tbl i setting).
Qed.

(** X15. The two settings handlers never add, remove, reorder or rename
    a setting, in any session and for any form: the keys, types,
    categories and descriptions of the stored rows are the same
    afterwards. *)
Theorem settings_handlers_keep_rows users session utcnow form key
    (tbl : list SystemSettings) :
  map (fun s => (setting_key s, setting_type s, category s, description s))
    (update_system_settings users session utcnow form tbl).1
  = map (fun s => (setting_key s, setting_type s, category s, description s))
      tbl
  /\ map (fun s => (setting_key s, setting_type s, category s,
                    description s))
       (reset_setting users session utcnow key tbl).1
     = map (fun s => (setting_key s, setting_type s, category s,
                      description s)) tbl.
Proof.
  split.
  - unfold update_system_settings, update_system_settings_try.
    destruct (session_get session "user_phone") as [e | p]; [reflexivity |].
    destruct (update_loop _ utcnow form tbl 0) as [e | [tbl' n]] eqn:Hloop;
      [reflexivity |].
    cbn [fst]. now apply update_loop_columns in Hloop.
  - unfold reset_setting, reset_setting_try.
    destruct (setting_of key tbl) as [[i setting] |] eqn:Hfind;
      [| reflexivity].
    destruct (defaults !! key) as [d |]; [| reflexivity].
    destruct (session_get session "user_phone") as [e | p]; [reflexivity |].
    destruct (name_of _) as [e | user_name]; [reflexivity |].
    cbn [fst]. apply setting_of_lookup in Hfind.
    now apply (map_insert_same _ tbl i setting).
Qed.

Lemma update_loop_booleans user utcnow items :
  forall (tbl tbl' : list SystemSettings) n n',
    update_loop user utcnow items tbl n = inr (tbl', n') ->
    Forall (fun s => setting_type s = "boolean" ->
                     setting_value s = "true" \/ setting_value s = "false")
      tbl ->
    Forall (fun s => setting_type s = "boolean" ->
                     setting_value s = "true" \/ setting_value s = "false")
      tbl'.
Proof.
  induction items as [| [key value] items IH]; intros tbl tbl' n n' H Hall;
    cbn [update_loop] in H.
  - now injection H as <- _.
  - destruct (String.prefix "setting_" key); [| now apply IH in H].
    destruct (setting_of _ tbl) as [[i setting] |] eqn:Hfind;
      [| now apply IH in H].
    destruct (name_of user) as [e | user_name]; [discriminate H |].
    apply IH in H; [exact H |].
    apply Forall_insert; [exact Hall |].
    cbn [setting_type setting_value]. intros Hbool.
    apply String.eqb_eq in Hbool. rewrite Hbool.
    destruct (String.eqb value "on"); [now left | now right].
Qed.

(** X16. A settings update stores only "true" or "false" in a setting of
    type boolean ("true" exactly for the posted value "on"): if every
    boolean setting holds one of the two before, so it does afterwards,
    whatever the form posts. *)
Theorem update_keeps_booleans users session utcnow form
    (tbl : list SystemSettings) :
  Forall (fun s => setting_type s = "boolean" ->
                   setting_value s = "true" \/ setting_value s = "false")
    tbl ->
  Forall (fun s => setting_type s = "boolean" ->
                   setting_value s = "true" \/ setting_value s = "false")
    (update_system_settings users session utcnow form tbl).1.
Proof.
  intros Hall. unfold update_system_settings, update_system_settings_try.
  destruct (session_get session "user_phone") as [e | p]; [exact Hall |].
  destruct (update_loop _ utcnow form tbl 0) as [e | [tbl' n]] eqn:Hloop;
    [exact Hall |].
  cbn [fst]. now apply (update_loop_booleans _ _ _ _ _ _ _ Hloop).
Qed.

Lemma find_unique_id (users : list User) u :
  NoDup (map id users) -> u ∈ users ->
  List.find (fun v => (id v =? id u)%Z) users = Some u.
Proof.
  induction users as [| v users IH]; intros Hnodup Hin.
  - now apply elem_of_nil in Hin.
  - cbn in Hnodup |- *. apply NoDup_cons in Hnodup as [Hv Hnodup].
    destruct (Z.eqb_spec (id v) (id u)) as [Heq | Hne].
    + apply elem_of_cons in Hin as [-> | Hin]; [reflexivity |].
      exfalso. apply Hv. rewrite Heq.
      apply list_elem_of_fmap. now exists u.
    + apply elem_of_cons in Hin as [-> | Hin]; [now destruct Hne |].
      now apply IH.
Qed.

Lemma user_by_phone_in (users : list User) p u :
  user_by_phone users p = Some u -> u ∈ users.
Proof.
  destruct p as [n | p]; [discriminate |]. cbn. intros H.
  apply List.find_some in H as [H _]. now apply list_elem_of_In.
Qed.

(** X17. The admin gate after a login: with unique user ids, the session
    that a successful login creates reaches an admin handler exactly when
    the user's type is "Developer"; for any other type the handler does
    not run, the table is left as it is and the user is sent to their
    dashboard. *)
Theorem login_then_admin_gate check {T} (users : list User) form_phone
    form_password u (tbl : T) (f : T -> T * response) :
  NoDup (map id users) ->
  user_by_phone users (SStr form_phone) = Some u ->
  check (password_hash u) form_password = true ->
  admin_required users
    (login check users form_phone form_password ∅).1 tbl f =
    if String.eqb (user_type u) "Developer" then f tbl
    else (tbl, Redirect "user_dashboard"
                 (Some ("Access denied. Admin privileges required.",
                        "danger"))).
Proof.
  intros Hnodup Hfind Hcheck. unfold login. rewrite Hfind, Hcheck.
  cbn [fst]. unfold admin_required.
  rewrite lookup_insert_ne by discriminate.
  rewrite lookup_insert_ne by discriminate.
  rewrite lookup_insert_eq.
  unfold user_by_id.
  rewrite (find_unique_id users u Hnodup (user_by_phone_in _ _ _ Hfind)).
  now destruct (String.eqb (user_type u) "Developer").
Qed.

End SettingsMore.

Lemma update_keeps_booleans_witness :
  Forall (fun s => Settings.setting_type s = "boolean" ->
                   Settings.setting_value s = "true"
                   \/ Settings.setting_value s = "false")
    (Settings.update_system_settings [Samples.admin] Cases.operator_session
       (Samples.at_hour 4) [("setting_maintenance_mode", "yes")]
       [Samples.site_name; Cases.maintenance_mode]).1.
Proof.
  apply (update_keeps_booleans [Samples.admin] Cases.operator_session
           (Samples.at_hour 4) [("setting_maintenance_mode", "yes")]
           [Samples.site_name; Cases.maintenance_mode]).
  constructor; [intros H; discriminate H |].
  constructor; [intros _; right; reflexivity | constructor].
Defined.

Lemma login_then_admin_gate_witness :
  Settings.admin_required [Samples.admin]
    (Settings.login Samples.accept [Samples.admin] "9999999999" "secret1"
       ∅).1 [Samples.site_name]
    (fun tbl => (tbl, Settings.Render "system_settings.html" None)) =
    if String.eqb (Settings.user_type Samples.admin) "Developer"
    then ([Samples.site_name], Settings.Render "system_settings.html" None)
    else ([Samples.site_name],
          Settings.Redirect "user_dashboard"
            (Some ("Access denied. Admin privileges required.", "danger"))).
Proof.
  apply (login_then_admin_gate Samples.accept [Samples.admin] "9999999999"
           "secret1" Samples.admin [Samples.site_name]
           (fun tbl => (tbl, Settings.Render "system_settings.html" None))).
  - cbn. constructor; [intros H; inversion H | constructor].
  - reflexivity.
  - reflexivity.
Defined.

(** ** Accepted file names *)

Section UploadFacts.
Import Detection Upload.

Lemma after_last_dot_none s : has_dot s = false -> after_last_dot s = None.
Proof.
  induction s as [| c s IH]; [reflexivity |]. cbn. intros H.
  apply orb_false_iff in H as [Hc Hs]. now rewrite (IH Hs), Hc.
Qed.

Lemma after_last_dot_app stem ext :
  has_dot ext = false -> after_last_dot (stem +:+ "." +:+ ext) = Some ext.
Proof.
  intros Hext. induction stem as [| c stem IH].
  - change (after_last_dot (String dot ext) = Some ext).
    cbn [after_last_dot]. now rewrite (after_last_dot_none _ Hext).
  - change (after_last_dot (String c (stem +:+ "." +:+ ext)) = Some ext).
    cbn [after_last_dot]. now rewrite IH.
Qed.

Lemma has_dot_app stem ext : has_dot (stem +:+ "." +:+ ext) = true.
Proof.
  induction stem as [| c stem IH]; [reflexivity |].
  change (has_dot (String c (stem +:+ "." +:+ ext)) = true).
  cbn [has_dot]. rewrite IH. apply orb_true_r.
Qed.

(** X18. Only the text after the last dot of a file name decides whether
    an upload is accepted, and it is compared without regard to case: a
    name without a dot is refused, and [stem.ext] is accepted exactly when
    [ext], lowered, is one of png, jpg, jpeg and gif, whatever the stem
    (an inner extension as in [a.png.exe] does not count). *)
Theorem allowed_file_by_last_extension stem ext :
  has_dot ext = false ->
  allowed_file (stem +:+ "." +:+ ext) = py_in (lower ext) ALLOWED_EXTENSIONS
  /\ allowed_file ext = false.
Proof.
  intros Hext. unfold allowed_file. split.
  - now rewrite has_dot_app, after_last_dot_app.
  - now rewrite Hext.
Qed.

End UploadFacts.

Lemma allowed_file_by_last_extension_witness :
  Upload.allowed_file ("leaf.exe" +:+ "." +:+ "PNG") =
    Detection.py_in (Upload.lower "PNG") Upload.ALLOWED_EXTENSIONS
  /\ Upload.allowed_file "PNG" = false.
Proof.
  apply (allowed_file_by_last_extension "leaf.exe" "PNG"). reflexivity.
Defined.

(** ** Accounts *)

Section AccountFacts.
Import Settings Accounts.

Variable py_len : string -> nat.
Variable isdigit : string -> bool.
Variable generate_password_hash : string -> string -> string.
Variable check_password_hash : string -> string -> bool.

Local Abbreviation register :=
  (Accounts.register py_len isdigit generate_password_hash).
Local Abbreviation change_password :=
  (Accounts.change_password py_len generate_password_hash
     check_password_hash).
Local Abbreviation set_password :=
  (Accounts.set_password generate_password_hash).
Local Abbreviation login := (Settings.login check_password_hash).

Local Abbreviation ids accounts := (map (fun a => id (user a)) accounts).
Local Abbreviation phones accounts :=
  (map (fun a => phone (user a)) accounts).
Local Abbreviation emails accounts := (omap email accounts).

Lemma required_Some v s : required v = Some s -> v = Some s /\ s <> "".
Proof.
  destruct v as [x |]; [| discriminate]. cbn.
  destruct (String.eqb_spec x "") as [-> | Hne]; [discriminate |].
  intros H. injection H as <-. now split.
Qed.

Lemma py_eqb_eq a b : py_eqb a b = true <-> a = b.
Proof.
  destruct a as [x |], b as [y |]; cbn; try (split; discriminate).
  - rewrite String.eqb_eq. split; [now intros -> | now intros [= ->]].
  - now split.
Qed.

Lemma by_id_lookup (accounts : list Account) uid : forall i a,
  by_id accounts uid = Some (i, a) ->
  accounts !! i = Some a /\ id (user a) = uid.
Proof.
  induction accounts as [| b accounts IH]; intros i a H; cbn in H;
    [discriminate H |].
  destruct (Z.eqb_spec (id (user b)) uid) as [Heq | Hne].
  - injection H as <- <-. now split.
  - destruct (by_id accounts uid) as [[j c] |]; [| discriminate H].
    injection H as <- <-. exact (IH j c eq_refl).
Qed.

Lemma by_id_None (accounts : list Account) uid :
  by_id accounts uid = None -> uid ∉ ids accounts.
Proof.
  induction accounts as [| b accounts IH]; intros H; cbn in H.
  - apply not_elem_of_nil.
  - destruct (Z.eqb_spec (id (user b)) uid) as [Heq | Hne];
      [discriminate H |].
    destruct (by_id accounts uid) as [[j c] |]; [discriminate H |].
    cbn. apply not_elem_of_cons. split; [congruence | now apply IH].
Qed.

Lemma foldr_max_ge (l : list Z) : forall i x,
  x ∈ i :: l -> (x <= foldr Z.max i l)%Z.
Proof.
  induction l as [| y l IH]; intros i x Hin; cbn.
  - apply list_elem_of_singleton in Hin. lia.
  - apply elem_of_cons in Hin as [-> | Hin].
    + pose proof (IH i i (list_elem_of_here _ _)). lia.
    + apply elem_of_cons in Hin as [-> | Hin]; [lia |].
      pose proof (IH i x (list_elem_of_further _ _ _ Hin)). lia.
Qed.

Lemma next_id_fresh (accounts : list Account) :
  next_id accounts ∉ ids accounts.
Proof.
  unfold next_id. intros Hin.
  destruct (ids accounts) as [| i l] eqn:Hids;
    [now apply elem_of_nil in Hin |].
  pose proof (foldr_max_ge l i _ Hin). lia.
Qed.

Lemma by_phone_None (accounts : list Account) p :
  by_phone accounts p = None -> p ∉ phones accounts.
Proof.
  unfold by_phone.
  induction accounts as [| b accounts IH]; intros H; cbn in H |- *.
  - apply not_elem_of_nil.
  - destruct (String.eqb_spec (phone (user b)) p) as [Heq | Hne];
      [discriminate H |].
    apply not_elem_of_cons. split; [congruence | now apply IH].
Qed.

Lemma by_email_None (accounts : list Account) e :
  by_email accounts e = None -> e ∉ emails accounts.
Proof.
  unfold by_email.
  induction accounts as [| b accounts IH]; intros H; cbn in H |- *.
  - apply not_elem_of_nil.
  - destruct (py_eqb (email b) (Some e)) eqn:Heq; [discriminate H |].
    destruct (email b) as [x |] eqn:Hx; [| now apply IH].
    apply not_elem_of_cons. split; [| now apply IH].
    intros ->. cbn in Heq. now rewrite String.eqb_refl in Heq.
Qed.

Lemma by_email_Some (accounts : list Account) e b :
  by_email accounts e = Some b -> b ∈ accounts /\ email b = Some e.
Proof.
  unfold by_email. intros H. apply List.find_some in H as [Hin Heq].
  split; [now apply list_elem_of_In | now apply py_eqb_eq].
Qed.

Lemma unique_id_eq (accounts : list Account) a b :
  NoDup (ids accounts) -> a ∈ accounts -> b ∈ accounts ->
  id (user a) = id (user b) -> a = b.
Proof.
  induction accounts as [| c accounts IH]; intros Hnodup Ha Hb Heq.
  - now apply elem_of_nil in Ha.
  - cbn in Hnodup. apply NoDup_cons in Hnodup as [Hc Hnodup].
    apply elem_of_cons in Ha as [-> | Ha];
      apply elem_of_cons in Hb as [-> | Hb].
    + reflexivity.
    + exfalso. apply Hc. rewrite Heq.
      apply list_elem_of_fmap. now exists b.
    + exfalso. apply Hc. rewrite <- Heq.
      apply list_elem_of_fmap. now exists a.
    + now apply IH.
Qed.

Lemma fmap_insert_same {B} (f : Account -> B) (accounts : list Account)
    i a a' :
  accounts !! i = Some a -> f a' = f a ->
  map f (<[i := a']> accounts) = map f accounts.
Proof.
  intros Hi Hf. change (map f ?l) with (f <$> l).
  rewrite list_fmap_insert. apply list_insert_id.
  now rewrite list_lookup_fmap, Hi, Hf.
Qed.

Lemma omap_insert_same (accounts : list Account) : forall i a a',
  accounts !! i = Some a -> email a' = email a ->
  emails (<[i := a']> accounts) = emails accounts.
Proof.
  induction accounts as [| b accounts IH]; intros i a a' Hi He;
    [discriminate Hi |].
  destruct i as [| i].
  - injection Hi as ->.
    change (<[0%nat := a']> (a :: accounts)) with (a' :: accounts).
    cbn. now rewrite He.
  - change (<[S i := a']> (b :: accounts))
      with (b :: <[i := a']> accounts).
    cbn. now rewrite (IH i a a' Hi He).
Qed.

Lemma omap_insert_elem (accounts : list Account) e : forall i a' z,
  email a' = Some e ->
  z ∈ emails (<[i := a']> accounts) -> z = e \/ z ∈ emails accounts.
Proof.
  induction accounts as [| b accounts IH]; intros i a' z He Hz;
    [now right |].
  destruct i as [| i].
  - change (<[0%nat := a']> (b :: accounts)) with (a' :: accounts) in Hz.
    cbn in Hz. rewrite He in Hz.
    apply elem_of_cons in Hz as [-> | Hz]; [now left | right].
    cbn. destruct (email b); [now apply list_elem_of_further | exact Hz].
  - change (<[S i := a']> (b :: accounts))
      with (b :: <[i := a']> accounts) in Hz.
    cbn in Hz |- *. destruct (email b) as [x |].
    + apply elem_of_cons in Hz as [-> | Hz];
        [right; apply list_elem_of_here |].
      destruct (IH i a' z He Hz) as [-> | Hin]; [now left | right].
      now apply list_elem_of_further.
    + exact (IH i a' z He Hz).
Qed.

Lemma omap_insert_fresh (accounts : list Account) e : forall i a a',
  accounts !! i = Some a -> email a' = Some e ->
  e ∉ emails accounts -> NoDup (emails accounts) ->
  NoDup (emails (<[i := a']> accounts)).
Proof.
  induction accounts as [| b accounts IH]; intros i a a' Hi He Hfresh Hnodup;
    [discriminate Hi |].
  destruct i as [| i].
  - change (<[0%nat := a']> (b :: accounts)) with (a' :: accounts).
    cbn in Hfresh, Hnodup |- *. rewrite He.
    destruct (email b) as [x |].
    + apply NoDup_cons in Hnodup as [_ Hnodup].
      apply not_elem_of_cons in Hfresh as [_ Hfresh].
      now apply NoDup_cons.
    + now apply NoDup_cons.
  - change (<[S i := a']> (b :: accounts))
      with (b :: <[i := a']> accounts).
    cbn in Hfresh, Hnodup |- *. destruct (email b) as [x |].
    + apply NoDup_cons in Hnodup as [Hx Hnodup].
      apply not_elem_of_cons in Hfresh as [Hne Hfresh].
      apply NoDup_cons. split; [| exact (IH i a a' Hi He Hfresh Hnodup)].
      intros Hin.
      destruct (omap_insert_elem accounts e i a' x He Hin) as [-> | Hin'];
        [now destruct Hne | now destruct Hx].
    + exact (IH i a a' Hi He Hfresh Hnodup).
Qed.

(** The outcomes of a registration. *)
Lemma register_cases salt f accounts :
  ((register salt f accounts).1 = accounts
   /\ exists msg,
        (register salt f accounts).2 =
          Redirect "register" (Some (msg, "danger")))
  \/ exists p n t pw,
       form_phone f = Some p /\ form_name f = Some n
       /\ form_user_type f = Some t /\ form_password f = Some pw
       /\ p <> "" /\ n <> "" /\ t <> "" /\ pw <> ""
       /\ py_len p = 10%nat /\ isdigit p = true
       /\ form_confirm_password f = Some pw
       /\ by_phone accounts p = None
       /\ (forall e, required (form_email f) = Some e ->
                     by_email accounts e = None)
       /\ register salt f accounts =
            (accounts
             ++ [{| user := {| id := next_id accounts;
                               phone := p;
                               name := n;
                               user_type := t;
                               password_hash :=
                                 generate_password_hash salt pw |};
                    email := required (form_email f);
                    location := form_location f;
                    farm_size := form_farm_size f |}],
             Redirect "login"
               (Some ("Registration successful! Please login.",
                      "success"))).
Proof.
  unfold Accounts.register.
  destruct (required (form_phone f)) as [p |] eqn:Hp;
    [| left; split; [reflexivity | eexists; reflexivity]].
  destruct (required (form_name f)) as [n |] eqn:Hn;
    [| left; split; [reflexivity | eexists; reflexivity]].
  destruct (required (form_user_type f)) as [t |] eqn:Ht;
    [| left; split; [reflexivity | eexists; reflexivity]].
  destruct (required (form_password f)) as [pw |] eqn:Hpw;
    [| left; split; [reflexivity | eexists; reflexivity]].
  destruct (Nat.eqb_spec (py_len p) 10) as [Hlen | Hlen]; cbn [negb orb];
    [| left; split; [reflexivity | eexists; reflexivity]].
  destruct (isdigit p) eqn:Hdigit; cbn [negb];
    [| left; split; [reflexivity | eexists; reflexivity]].
  destruct (py_eqb (Some pw) (form_confirm_password f)) eqn:Hconfirm;
    cbn [negb];
    [| left; split; [reflexivity | eexists; reflexivity]].
  destruct (by_phone accounts p) as [b |] eqn:Hphone.
  { rewrite bool_decide_eq_true_2 by (now exists b).
    left; split; [reflexivity | eexists; reflexivity]. }
  rewrite bool_decide_eq_false_2 by (intros [x Hx]; discriminate Hx).
  apply required_Some in Hp as [Hp Hp'], Hn as [Hn Hn'],
    Ht as [Ht Ht'], Hpw as [Hpw Hpw'].
  apply py_eqb_eq in Hconfirm.
  destruct (required (form_email f)) as [e |] eqn:He.
  - destruct (by_email accounts e) as [b |] eqn:Hemail.
    { rewrite bool_decide_eq_true_2 by (now exists b).
      left; split; [reflexivity | eexists; reflexivity]. }
    rewrite bool_decide_eq_false_2 by (intros [x Hx]; discriminate Hx).
    right. exists p, n, t, pw.
    conjuncts; try assumption; try reflexivity; try (now symmetry).
    intros e' [= <-]. exact Hemail.
  - right. exists p, n, t, pw.
    conjuncts; try assumption; try reflexivity; try (now symmetry).
Qed.

(** X19. Registration, a profile update and a password change keep the
    accounts apart: if ids, phone numbers and stored e-mail addresses
    are unique before, they are unique afterwards, whatever is posted. *)
Theorem account_handlers_keep_unique salt f uid new_name new_email
    new_location new_farm_size current_password new_password
    confirm_password (accounts : list Account) :
  NoDup (ids accounts) /\ NoDup (phones accounts)
  /\ NoDup (emails accounts) ->
  (NoDup (ids (register salt f accounts).1)
   /\ NoDup (phones (register salt f accounts).1)
   /\ NoDup (emails (register salt f accounts).1))
  /\ (NoDup (ids (update_profile uid new_name new_email new_location
                    new_farm_size accounts).1)
      /\ NoDup (phones (update_profile uid new_name new_email new_location
                          new_farm_size accounts).1)
      /\ NoDup (emails (update_profile uid new_name new_email new_location
                          new_farm_size accounts).1))
  /\ (NoDup (ids (change_password salt uid current_password new_password
                    confirm_password accounts).1)
      /\ NoDup (phones (change_password salt uid current_password
                          new_password confirm_password accounts).1)
      /\ NoDup (emails (change_password salt uid current_password
                          new_password confirm_password accounts).1)).
Proof.
  intros (Hids & Hphones & Hemails). split; [| split].
  - destruct (register_cases salt f accounts)
      as [[-> _] | (p & n & t & pw & _ & _ & _ & _ & _ & _ & _ & _ & _ & _
                    & _ & Hphone & Hemail & ->)];
      [now conjuncts |].
    cbn [fst]. rewrite !map_app, omap_app. cbn [map].
    conjuncts.
    + apply NoDup_app. conjuncts; [exact Hids | | apply NoDup_singleton].
      intros x Hx Hx'. apply list_elem_of_singleton in Hx'. subst x.
      exact (next_id_fresh accounts Hx).
    + apply NoDup_app. conjuncts; [exact Hphones | | apply NoDup_singleton].
      intros x Hx Hx'. apply list_elem_of_singleton in Hx'. subst x.
      exact (by_phone_None accounts p Hphone Hx).
    + cbn. destruct (required (form_email f)) as [e |] eqn:He.
      * apply NoDup_app. conjuncts; [exact Hemails | | apply NoDup_singleton].
        intros x Hx Hx'. apply list_elem_of_singleton in Hx'. subst x.
        exact (by_email_None accounts e (Hemail e eq_refl) Hx).
      * now rewrite app_nil_r.
  - unfold update_profile.
    destruct (by_id accounts uid) as [[i a] |] eqn:Hid; [| now conjuncts].
    destruct (by_id_lookup accounts uid i a Hid) as [Hi Huid].
    set (a1 := match required new_name with
               | Some n => set_name n a
               | None => a
               end).
    assert (Ha1 : id (user a1) = id (user a)
                  /\ phone (user a1) = phone (user a)
                  /\ email a1 = email a).
    { unfold a1. now destruct (required new_name). }
    destruct Ha1 as (Ha1i & Ha1p & Ha1e).
    assert (Hkeep : forall e' l' s',
      NoDup (ids (<[i := {| user := user a1; email := e'; location := l';
                            farm_size := s' |}]> accounts))
      /\ NoDup (phones (<[i := {| user := user a1; email := e';
                                  location := l'; farm_size := s' |}]>
                          accounts))).
    { intros e' l' s'. split.
      - now rewrite (fmap_insert_same (fun a => id (user a)) accounts i a).
      - now rewrite (fmap_insert_same (fun a => phone (user a)) accounts i
                       a). }
    destruct (required new_email) as [e |] eqn:He.
    + destruct (by_email accounts e) as [b |] eqn:Hemail.
      * destruct (Z.eqb_spec (id (user b)) uid) as [Hb | Hb]; cbn [negb];
          [| now conjuncts].
        cbn [fst]. destruct (Hkeep (Some e) new_location new_farm_size).
        conjuncts; [assumption | assumption |].
        destruct (by_email_Some accounts e b Hemail) as [Hin Hbe].
        assert (b = a) as ->.
        { apply (unique_id_eq accounts); [exact Hids | exact Hin | |
                                          congruence].
          apply list_elem_of_lookup. now exists i. }
        rewrite (omap_insert_same accounts i a); [exact Hemails | exact Hi |].
        now rewrite Hbe.
      * cbn [fst]. destruct (Hkeep (Some e) new_location new_farm_size).
        conjuncts; [assumption | assumption |].
        apply (omap_insert_fresh accounts e i a); [exact Hi | reflexivity | |
                                                   exact Hemails].
        now apply by_email_None.
    + cbn [fst]. destruct (Hkeep (email a1) new_location new_farm_size).
      conjuncts; [assumption | assumption |].
      rewrite (omap_insert_same accounts i a); [exact Hemails | exact Hi |].
      exact Ha1e.
  - unfold Accounts.change_password.
    destruct (by_id accounts uid) as [[i a] |] eqn:Hid; [| now conjuncts].
    destruct (by_id_lookup accounts uid i a Hid) as [Hi Huid].
    destruct (check_password_hash (password_hash (user a))
                current_password); cbn [negb]; [| now conjuncts].
    destruct (py_eqb (Some new_password) confirm_password); cbn [negb];
      [| now conjuncts].
    destruct (py_len new_password <? 6)%nat; [now conjuncts |].
    cbn [fst]. conjuncts.
    + now rewrite (fmap_insert_same (fun a => id (user a)) accounts i a).
    + now rewrite (fmap_insert_same (fun a => phone (user a)) accounts i a).
    + now rewrite (omap_insert_same accounts i a).
Qed.

Lemma find_user_phone (accounts : list Account) p :
  List.find (fun u => String.eqb (phone u) p) (map user accounts) =
  option_map user (by_phone accounts p).
Proof.
  unfold by_phone. induction accounts as [| b accounts IH]; [reflexivity |].
  cbn. now destruct (String.eqb (phone (user b)) p).
Qed.

Lemma find_user_id (accounts : list Account) n :
  List.find (fun u => (id u =? n)%Z) (map user accounts) =
  option_map (fun ia => user ia.2) (by_id accounts n).
Proof.
  induction accounts as [| b accounts IH]; [reflexivity |].
  cbn. destruct (id (user b) =? n)%Z; [reflexivity |].
  rewrite IH. now destruct (by_id accounts n) as [[j c] |].
Qed.

Lemma by_phone_snoc (accounts : list Account) a p :
  by_phone accounts p = None ->
  by_phone (accounts ++ [a]) p =
    if String.eqb (phone (user a)) p then Some a else None.
Proof.
  unfold by_phone. induction accounts as [| b accounts IH]; intros H.
  - reflexivity.
  - cbn in H |- *. destruct (String.eqb (phone (user b)) p);
      [discriminate H | exact (IH H)].
Qed.

Lemma by_phone_snoc_other (accounts : list Account) a p :
  phone (user a) <> p ->
  by_phone (accounts ++ [a]) p = by_phone accounts p.
Proof.
  unfold by_phone. intros Hne.
  induction accounts as [| b accounts IH].
  - cbn. now destruct (String.eqb_spec (phone (user a)) p).
  - cbn. now destruct (String.eqb (phone (user b)) p).
Qed.

Lemma by_id_snoc (accounts : list Account) a :
  id (user a) ∉ ids accounts ->
  by_id (accounts ++ [a]) (id (user a)) = Some (length accounts, a).
Proof.
  induction accounts as [| b accounts IH]; intros Hfresh.
  - cbn. now rewrite Z.eqb_refl.
  - cbn in Hfresh |- *. apply not_elem_of_cons in Hfresh as [Hne Hfresh].
    destruct (Z.eqb_spec (id (user b)) (id (user a))) as [Heq | _];
      [now destruct Hne |].
    now rewrite (IH Hfresh).
Qed.

(** A login depends on the table through the row of the posted phone
    number only. *)
Lemma login_by_phone (accounts accounts' : list Account) p pw session :
  by_phone accounts' p = by_phone accounts p ->
  login (map user accounts') p pw session =
  login (map user accounts) p pw session.
Proof.
  intros H. unfold Settings.login, user_by_phone.
  now rewrite !find_user_phone, H.
Qed.

Lemma login_accepts (accounts : list Account) a p pw session :
  by_phone accounts p = Some a ->
  check_password_hash (password_hash (user a)) pw = true ->
  login (map user accounts) p pw session =
    (<["user_type" := SStr (user_type (user a))]>
       (<["user_name" := SStr (name (user a))]>
          (<["user_id" := SInt (id (user a))]> session)),
     Redirect (if String.eqb (user_type (user a)) "Developer"
               then "admin_dashboard" else "user_dashboard")
       (Some ("Welcome back, " +:+ name (user a) +:+ "!", "success"))).
Proof.
  intros Hfind Hcheck. unfold Settings.login, user_by_phone.
  rewrite find_user_phone, Hfind. cbn [option_map]. now rewrite Hcheck.
Qed.

(** X20. Registration and login round trip: given that the hash library
    verifies a password against its own hash, a successful registration
    is followed by a successful login with the posted phone number and
    password, whose session holds the new id, the posted name and the
    posted user type; the login of every other phone number is as
    before. *)
Theorem register_then_login salt f (accounts : list Account) r session :
  (forall salt password,
     check_password_hash (generate_password_hash salt password) password
     = true) ->
  (register salt f accounts).2 = Redirect "login" r ->
  exists p n t pw,
    form_phone f = Some p /\ form_name f = Some n
    /\ form_user_type f = Some t /\ form_password f = Some pw
    /\ login (map user (register salt f accounts).1) p pw session =
         (<["user_type" := SStr t]>
            (<["user_name" := SStr n]>
               (<["user_id" := SInt (next_id accounts)]> session)),
          Redirect (if String.eqb t "Developer"
                    then "admin_dashboard" else "user_dashboard")
            (Some ("Welcome back, " +:+ n +:+ "!", "success")))
    /\ forall p' pw',
         p' <> p ->
         login (map user (register salt f accounts).1) p' pw' session =
         login (map user accounts) p' pw' session.
Proof.
  intros Hlib Hok.
  destruct (register_cases salt f accounts)
    as [[_ [msg Hmsg]]
       | (p & n & t & pw & Hp & Hn & Ht & Hpw & _ & _ & _ & _ & _ & _ & _
          & Hphone & _ & Hreg)].
  { rewrite Hmsg in Hok. discriminate Hok. }
  exists p, n, t, pw. rewrite Hreg. cbn [fst].
  conjuncts; try assumption.
  - rewrite (login_accepts _
               {| user := {| id := next_id accounts; phone := p; name := n;
                             user_type := t;
                             password_hash :=
                               generate_password_hash salt pw |};
                  email := required (form_email f);
                  location := form_location f;
                  farm_size := form_farm_size f |} p pw session).
    + reflexivity.
    + rewrite (by_phone_snoc _ _ _ Hphone). cbn [user phone].
      now rewrite String.eqb_refl.
    + apply Hlib.
  - intros p' pw' Hne. apply login_by_phone.
    apply by_phone_snoc_other. cbn [user phone]. congruence.
Qed.

(** X21. The user type is taken from the registration form as it is:
    an account registered with the type "Developer" passes the admin
    gate after its login, and an account registered with any other type
    is turned away to the dashboard. *)
Theorem registered_type_decides_admin_gate salt f
    (accounts : list Account) r {T} (tbl : T) (h : T -> T * response)
    p pw t :
  (forall salt password,
     check_password_hash (generate_password_hash salt password) password
     = true) ->
  (register salt f accounts).2 = Redirect "login" r ->
  form_phone f = Some p -> form_password f = Some pw ->
  form_user_type f = Some t ->
  admin_required (map user (register salt f accounts).1)
    (login (map user (register salt f accounts).1) p pw ∅).1 tbl h =
    if String.eqb t "Developer" then h tbl
    else (tbl, Redirect "user_dashboard"
                 (Some ("Access denied. Admin privileges required.",
                        "danger"))).
Proof.
  intros Hlib Hok Hp Hpw Ht.
  destruct (register_cases salt f accounts)
    as [[_ [msg Hmsg]]
       | (p0 & n & t0 & pw0 & Hp0 & Hn & Ht0 & Hpw0 & _ & _ & _ & _ & _ & _
          & _ & Hphone & _ & Hreg)].
  { rewrite Hmsg in Hok. discriminate Hok. }
  assert (p0 = p) as -> by congruence.
  assert (pw0 = pw) as -> by congruence.
  assert (t0 = t) as -> by congruence.
  rewrite Hreg. cbn [fst].
  set (new_user :=
         {| user := {| id := next_id accounts; phone := p; name := n;
                       user_type := t;
                       password_hash := generate_password_hash salt pw |};
            email := required (form_email f);
            location := form_location f;
            farm_size := form_farm_size f |}).
  rewrite (login_accepts _ new_user p pw ∅).
  - cbn [fst]. unfold admin_required.
    rewrite lookup_insert_ne by discriminate.
    rewrite lookup_insert_ne by discriminate.
    rewrite lookup_insert_eq.
    unfold user_by_id. rewrite find_user_id.
    change (next_id accounts) with (id (user new_user)).
    rewrite by_id_snoc by exact (next_id_fresh accounts).
    cbn [option_map snd user user_type new_user].
    now destruct (String.eqb t "Developer").
  - rewrite (by_phone_snoc _ _ _ Hphone). cbn [user phone new_user].
    now rewrite String.eqb_refl.
  - apply Hlib.
Qed.

Lemma by_phone_insert_other (accounts : list Account) p : forall i a a',
  accounts !! i = Some a -> phone (user a') = phone (user a) ->
  phone (user a) <> p ->
  by_phone (<[i := a']> accounts) p = by_phone accounts p.
Proof.
  unfold by_phone.
  induction accounts as [| b accounts IH]; intros i a a' Hi Hp Hne;
    [discriminate Hi |].
  destruct i as [| i].
  - injection Hi as ->.
    change (<[0%nat := a']> (a :: accounts)) with (a' :: accounts).
    cbn. rewrite Hp.
    now destruct (String.eqb_spec (phone (user a)) p).
  - change (<[S i := a']> (b :: accounts))
      with (b :: <[i := a']> accounts).
    cbn. now rewrite (IH i a a' Hi Hp Hne).
Qed.

Lemma by_phone_insert_own (accounts : list Account) : forall i a a',
  NoDup (phones accounts) ->
  accounts !! i = Some a -> phone (user a') = phone (user a) ->
  by_phone (<[i := a']> accounts) (phone (user a)) = Some a'.
Proof.
  unfold by_phone.
  induction accounts as [| b accounts IH]; intros i a a' Hnodup Hi Hp;
    [discriminate Hi |].
  cbn in Hnodup. apply NoDup_cons in Hnodup as [Hb Hnodup].
  destruct i as [| i].
  - change (<[0%nat := a']> (b :: accounts)) with (a' :: accounts).
    cbn. now rewrite Hp, String.eqb_refl.
  - change (<[S i := a']> (b :: accounts))
      with (b :: <[i := a']> accounts).
    cbn. destruct (String.eqb_spec (phone (user b)) (phone (user a)))
      as [Heq | _].
    + exfalso. apply Hb. rewrite Heq. apply list_elem_of_fmap.
      exists a. split; [reflexivity |].
      apply list_elem_of_lookup. now exists i.
    + exact (IH i a a' Hnodup Hi Hp).
Qed.

(** X22. A profile update rewrites the requesting user's row only, and
    of that row never the id, the phone number, the user type or the
    password hash. When the posted e-mail address is stored for another
    account nothing is stored at all, not even the posted name;
    otherwise the row takes the posted name and e-mail address where
    they are not empty, and the posted location and farm size as they
    are, also when they are missing. *)
Theorem update_profile_touches_own_row uid new_name new_email new_location
    new_farm_size (accounts : list Account) :
  map (fun a => (id (user a), phone (user a), user_type (user a),
                 password_hash (user a)))
    (update_profile uid new_name new_email new_location new_farm_size
       accounts).1
  = map (fun a => (id (user a), phone (user a), user_type (user a),
                   password_hash (user a))) accounts
  /\ (forall j b,
        accounts !! j = Some b -> id (user b) <> uid ->
        (update_profile uid new_name new_email new_location new_farm_size
           accounts).1 !! j = Some b)
  /\ forall i a,
       by_id accounts uid = Some (i, a) ->
       (forall e b,
          required new_email = Some e -> by_email accounts e = Some b ->
          id (user b) <> uid ->
          update_profile uid new_name new_email new_location new_farm_size
            accounts =
            (accounts,
             Redirect "profile"
               (Some ("Email already in use by another account.",
                      "danger"))))
       /\ ((forall e b,
              required new_email = Some e -> by_email accounts e = Some b ->
              id (user b) = uid) ->
           exists a',
             update_profile uid new_name new_email new_location
               new_farm_size accounts =
               (<[i := a']> accounts,
                Redirect "profile"
                  (Some ("Profile updated successfully!", "success")))
             /\ name (user a') = default (name (user a))
                                   (required new_name)
             /\ email a' = match required new_email with
                           | Some e => Some e
                           | None => email a
                           end
             /\ location a' = new_location
             /\ farm_size a' = new_farm_size).
Proof.
  unfold update_profile.
  destruct (by_id accounts uid) as [[i a] |] eqn:Hid.
  - destruct (by_id_lookup accounts uid i a Hid) as [Hi Huid].
    set (a1 := match required new_name with
               | Some n => set_name n a
               | None => a
               end).
    assert (Ha1 : user a1 = user a \/ exists n, required new_name = Some n
                                                /\ a1 = set_name n a).
    { unfold a1. destruct (required new_name) as [n |];
        [right; now exists n | now left]. }
    assert (Hcols : forall e' l' s',
      map (fun a => (id (user a), phone (user a), user_type (user a),
                     password_hash (user a)))
        (<[i := {| user := user a1; email := e'; location := l';
                   farm_size := s' |}]> accounts)
      = map (fun a => (id (user a), phone (user a), user_type (user a),
                       password_hash (user a))) accounts).
    { intros e' l' s'. apply (fmap_insert_same _ accounts i a _ Hi).
      cbn [user]. destruct Ha1 as [-> | (n & _ & ->)]; reflexivity. }
    assert (Hother : forall e' l' s' j b,
      accounts !! j = Some b -> id (user b) <> uid ->
      <[i := {| user := user a1; email := e'; location := l';
                farm_size := s' |}]> accounts !! j = Some b).
    { intros e' l' s' j b Hj Hne.
      rewrite list_lookup_insert_ne; [exact Hj |].
      intros ->. rewrite Hi in Hj. injection Hj as <-. now destruct Hne. }
    assert (Hname : name (user a1) = default (name (user a))
                                       (required new_name)).
    { unfold a1. now destruct (required new_name). }
    assert (Hemail1 : email a1 = email a).
    { unfold a1. now destruct (required new_name). }
    destruct (required new_email) as [e |] eqn:He.
    + destruct (by_email accounts e) as [b |] eqn:Hemail.
      * destruct (Z.eqb_spec (id (user b)) uid) as [Hb | Hb]; cbn [negb fst].
        -- conjuncts; [apply Hcols | apply Hother |].
           intros i' a' [= <- <-]. split.
           ++ intros e' b' [= <-] Hb' Hne. rewrite Hemail in Hb'.
              injection Hb' as <-. now destruct Hne.
           ++ intros _. eexists. split; [reflexivity |].
              cbn [user email location farm_size]. now conjuncts.
        -- conjuncts; [reflexivity | now intros |].
           intros i' a' [= <- <-]. split.
           ++ intros e' b' _ _ _. reflexivity.
           ++ intros Hown. now destruct (Hb (Hown e b eq_refl Hemail)).
      * cbn [fst]. conjuncts; [apply Hcols | apply Hother |].
        intros i' a' [= <- <-]. split.
        -- intros e' b' [= <-] Hb'. rewrite Hemail in Hb'. discriminate Hb'.
        -- intros _. eexists. split; [reflexivity |].
           cbn [user email location farm_size]. now conjuncts.
    + cbn [fst]. conjuncts; [apply Hcols | apply Hother |].
      intros i' a' [= <- <-]. split.
      * intros e' b' He'. discriminate He'.
      * intros _. eexists. split; [reflexivity |].
        cbn [user email location farm_size]. now conjuncts.
  - cbn [fst]. conjuncts; [reflexivity | now intros |].
    intros i a Hnone. discriminate Hnone.
Qed.

(** X23. A password change succeeds exactly when the current password
    verifies, the confirmation equals the new password and the new
    password has at least 6 characters; otherwise nothing is stored.
    After a success, with unique phone numbers and a hash library that
    verifies a password against its own hash, the user logs in with the
    new password, and the login of every other phone number is as
    before. *)
Theorem change_password_then_login salt uid current_password new_password
    confirm_password (accounts : list Account) i a session :
  (forall salt password,
     check_password_hash (generate_password_hash salt password) password
     = true) ->
  NoDup (phones accounts) ->
  by_id accounts uid = Some (i, a) ->
  ((change_password salt uid current_password new_password
      confirm_password accounts).2 =
     Redirect "profile" (Some ("Password changed successfully!", "success"))
   <-> check_password_hash (password_hash (user a)) current_password = true
       /\ confirm_password = Some new_password
       /\ (6 <= py_len new_password)%nat)
  /\ ((change_password salt uid current_password new_password
         confirm_password accounts).2 <>
        Redirect "profile"
          (Some ("Password changed successfully!", "success")) ->
      (change_password salt uid current_password new_password
         confirm_password accounts).1 = accounts)
  /\ ((change_password salt uid current_password new_password
         confirm_password accounts).2 =
        Redirect "profile"
          (Some ("Password changed successfully!", "success")) ->
      (login
         (map user (change_password salt uid current_password new_password
                      confirm_password accounts).1)
         (phone (user a)) new_password session).1 !! "user_id" =
        Some (SInt uid)
      /\ forall p pw,
           p <> phone (user a) ->
           login
             (map user (change_password salt uid current_password
                          new_password confirm_password accounts).1)
             p pw session =
           login (map user accounts) p pw session).
Proof.
  intros Hlib Hnodup Hid.
  destruct (by_id_lookup accounts uid i a Hid) as [Hi Huid].
  unfold Accounts.change_password. rewrite Hid.
  destruct (check_password_hash (password_hash (user a)) current_password)
    eqn:Hcheck; cbn [negb].
  2:{ conjuncts.
      - split; [intros H; discriminate H | intros [H _]; discriminate H].
      - reflexivity.
      - intros H. discriminate H. }
  destruct (py_eqb (Some new_password) confirm_password) eqn:Hconfirm;
    cbn [negb].
  2:{ conjuncts.
      - split; [intros H; discriminate H | intros (_ & H & _)].
        subst confirm_password. cbn in Hconfirm.
        now rewrite String.eqb_refl in Hconfirm.
      - reflexivity.
      - intros H. discriminate H. }
  apply py_eqb_eq in Hconfirm.
  destruct (Nat.ltb_spec (py_len new_password) 6) as [Hlen | Hlen].
  { conjuncts.
    - split; [intros H; discriminate H | intros (_ & _ & H); lia].
    - reflexivity.
    - intros H. discriminate H. }
  cbn [fst snd]. conjuncts.
  - split; [intros _ | reflexivity]. now conjuncts.
  - intros H. now destruct H.
  - intros _. split.
    + rewrite (login_accepts _ (set_password salt new_password a)).
      * cbn [fst]. rewrite lookup_insert_ne by discriminate.
        rewrite lookup_insert_ne by discriminate.
        rewrite lookup_insert_eq. cbn [Accounts.set_password user id].
        now rewrite Huid.
      * now apply by_phone_insert_own.
      * cbn [Accounts.set_password user password_hash]. apply Hlib.
    + intros p pw Hne. apply login_by_phone.
      apply (by_phone_insert_other accounts p i a); [exact Hi | reflexivity |].
      congruence.
Qed.


End AccountFacts.

Lemma account_handlers_keep_unique_witness :
  let accounts := [Cases.farmer] in
  let registered := (Cases.sample_register "s" Cases.developer_form
                       accounts).1 in
  let updated := (Accounts.update_profile 1 (Some "Ravi K") None None
                    (Some "2 acres") accounts).1 in
  let changed := (Cases.sample_change_password "s" 1 "secret1" "secret2"
                    (Some "secret2") accounts).1 in
  (NoDup (map (fun a => Settings.id (Accounts.user a)) registered)
   /\ NoDup (map (fun a => Settings.phone (Accounts.user a)) registered)
   /\ NoDup (omap Accounts.email registered))
  /\ (NoDup (map (fun a => Settings.id (Accounts.user a)) updated)
      /\ NoDup (map (fun a => Settings.phone (Accounts.user a)) updated)
      /\ NoDup (omap Accounts.email updated))
  /\ (NoDup (map (fun a => Settings.id (Accounts.user a)) changed)
      /\ NoDup (map (fun a => Settings.phone (Accounts.user a)) changed)
      /\ NoDup (omap Accounts.email changed)).
Proof.
  cbv zeta.
  apply (account_handlers_keep_unique String.length Cases.isdigit
           Cases.plain_hash Cases.plain_check "s" Cases.developer_form 1
           (Some "Ravi K") None None (Some "2 acres") "secret1" "secret2"
           (Some "secret2") [Cases.farmer]).
  cbn. conjuncts; apply NoDup_singleton.
Defined.

Lemma register_then_login_witness :
  exists p n t pw,
    Accounts.form_phone Cases.developer_form = Some p
    /\ Accounts.form_name Cases.developer_form = Some n
    /\ Accounts.form_user_type Cases.developer_form = Some t
    /\ Accounts.form_password Cases.developer_form = Some pw
    /\ Settings.login Cases.plain_check
         (map Accounts.user
            (Cases.sample_register "s" Cases.developer_form
               [Cases.farmer]).1) p pw ∅ =
         (<["user_type" := Settings.SStr t]>
            (<["user_name" := Settings.SStr n]>
               (<["user_id" :=
                    Settings.SInt (Accounts.next_id [Cases.farmer])]> ∅)),
          Settings.Redirect
            (if String.eqb t "Developer"
             then "admin_dashboard" else "user_dashboard")
            (Some ("Welcome back, " +:+ n +:+ "!", "success")))
    /\ forall p' pw',
         p' <> p ->
         Settings.login Cases.plain_check
           (map Accounts.user
              (Cases.sample_register "s" Cases.developer_form
                 [Cases.farmer]).1) p' pw' ∅ =
         Settings.login Cases.plain_check
           (map Accounts.user [Cases.farmer]) p' pw' ∅.
Proof.
  apply (register_then_login String.length Cases.isdigit Cases.plain_hash
           Cases.plain_check "s" Cases.developer_form [Cases.farmer]
           (Some ("Registration successful! Please login.", "success")) ∅).
  - intros salt password. apply String.eqb_refl.
  - reflexivity.
Defined.

Lemma registered_type_decides_admin_gate_witness :
  Settings.admin_required
    (map Accounts.user
       (Cases.sample_register "s" Cases.developer_form [Cases.farmer]).1)
    (Settings.login Cases.plain_check
       (map Accounts.user
          (Cases.sample_register "s" Cases.developer_form
             [Cases.farmer]).1) "9123456780" "pass" ∅).1
    [Samples.site_name]
    (fun tbl => (tbl, Settings.Render "admin_settings.html" None)) =
    if String.eqb "Developer" "Developer"
    then ([Samples.site_name], Settings.Render "admin_settings.html" None)
    else ([Samples.site_name],
          Settings.Redirect "user_dashboard"
            (Some ("Access denied. Admin privileges required.", "danger"))).
Proof.
  apply (registered_type_decides_admin_gate String.length Cases.isdigit
           Cases.plain_hash Cases.plain_check "s" Cases.developer_form
           [Cases.farmer]
           (Some ("Registration successful! Please login.", "success"))
           [Samples.site_name]
           (fun tbl => (tbl, Settings.Render "admin_settings.html" None))
           "9123456780" "pass" "Developer").
  - intros salt password. apply String.eqb_refl.
  - reflexivity.
  - reflexivity.
  - reflexivity.
  - reflexivity.
Defined.

Lemma change_password_then_login_witness :
  let res := Cases.sample_change_password "s" 1 "secret1" "secret2"
               (Some "secret2") [Cases.farmer] in
  (res.2 =
     Settings.Redirect "profile"
       (Some ("Password changed successfully!", "success"))
   <-> Cases.plain_check
         (Settings.password_hash (Accounts.user Cases.farmer)) "secret1"
       = true
       /\ Some "secret2" = Some "secret2"
       /\ (6 <= String.length "secret2")%nat)
  /\ (res.2 <>
        Settings.Redirect "profile"
          (Some ("Password changed successfully!", "success")) ->
      res.1 = [Cases.farmer])
  /\ (res.2 =
        Settings.Redirect "profile"
          (Some ("Password changed successfully!", "success")) ->
      (Settings.login Cases.plain_check (map Accounts.user res.1)
         (Settings.phone (Accounts.user Cases.farmer)) "secret2" ∅).1
        !! "user_id" = Some (Settings.SInt 1)
      /\ forall p pw,
           p <> Settings.phone (Accounts.user Cases.farmer) ->
           Settings.login Cases.plain_check (map Accounts.user res.1) p pw ∅
           = Settings.login Cases.plain_check
               (map Accounts.user [Cases.farmer]) p pw ∅).
Proof.
  cbv zeta.
  apply (change_password_then_login String.length Cases.plain_hash
           Cases.plain_check "s" 1 "secret1" "secret2" (Some "secret2")
           [Cases.farmer] 0%nat Cases.farmer ∅).
  - intros salt password. apply String.eqb_refl.
  - cbn. apply NoDup_singleton.
  - reflexivity.
Defined.

(** ** Stored detections *)

Section RecordFacts.
Import Records.

Variable join_root : string -> string.

Local Abbreviation remove_image := (Records.remove_image join_root).
Local Abbreviation delete_detection := (Records.delete_detection join_root).
Local Abbreviation clear_all_detections :=
  (Records.clear_all_detections join_root).
Local Abbreviation path_of d := (join_root (lstrip_slash (image_path d))).

Lemma elem_of_remove_image ip (fs : gset string) p :
  p ∈ remove_image ip fs
  <-> p ∈ fs /\ (ip <> "" -> p <> join_root (lstrip_slash ip)).
Proof.
  unfold Records.remove_image.
  destruct (String.eqb_spec ip "") as [-> | Hne].
  - split; [intros H; split; [exact H | now intros] | now intros [H _]].
  - rewrite elem_of_difference, elem_of_singleton. split.
    + intros [H Hp]. split; [exact H | now intros _].
    + intros [H Hp]. split; [exact H | now apply Hp].
Qed.

Lemma elem_of_remove_images (l : list Stored) : forall (fs : gset string) p,
  p ∈ foldl (fun fs d => remove_image (image_path d) fs) fs l
  <-> p ∈ fs /\ Forall (fun d => image_path d <> "" -> p <> path_of d) l.
Proof.
  induction l as [| d l IH]; intros fs p; cbn [foldl].
  - split; [intros H; split; [exact H | constructor] | now intros [H _]].
  - rewrite IH, elem_of_remove_image, Forall_cons. tauto.
Qed.

Lemma get_filter_other k k0 (tbl : list Stored) :
  get k (List.filter (fun d => negb (id d =? k0)%Z) tbl) =
  if (k =? k0)%Z then None else get k tbl.
Proof.
  unfold get. induction tbl as [| d tbl IH]; cbn.
  - now destruct (k =? k0)%Z.
  - destruct (Z.eqb_spec (id d) k0) as [Hd | Hd]; cbn.
    + rewrite IH. destruct (Z.eqb_spec k k0) as [Hk | Hk]; [reflexivity |].
      destruct (Z.eqb_spec (id d) k) as [Hdk | _]; [congruence | reflexivity].
    + destruct (Z.eqb_spec (id d) k) as [Hdk | Hdk].
      * destruct (Z.eqb_spec k k0) as [Hk | Hk]; [congruence | reflexivity].
      * exact IH.
Qed.

Lemma get_Some k (tbl : list Stored) d :
  get k tbl = Some d -> d ∈ tbl /\ id d = k.
Proof.
  unfold get. intros H. apply List.find_some in H as [Hin Hk].
  split; [now apply list_elem_of_In | now apply Z.eqb_eq].
Qed.

(** X24. Only the owner deletes a record. For an id that is stored, a
    user who is not the owner is refused and nothing changes, also a
    developer, who may view the record; for the owner the record can no
    longer be fetched, every other id fetches what it did, the image
    file of the record is gone and no other file is touched. An id that
    is not stored changes nothing. *)
Theorem delete_detection_owner_only user referrer detection_id db :
  match get detection_id (detections db) with
  | None => delete_detection user referrer detection_id db = (db, NotFound)
  | Some d =>
      if (user_id d =? Settings.id user)%Z then
        get detection_id
          (detections (delete_detection user referrer detection_id db).1)
        = None
        /\ (forall k,
              k <> detection_id ->
              get k (detections
                       (delete_detection user referrer detection_id db).1)
              = get k (detections db))
        /\ (image_path d <> "" ->
            path_of d
            ∉ files (delete_detection user referrer detection_id db).1)
        /\ (forall p,
              p <> path_of d ->
              p ∈ files (delete_detection user referrer detection_id db).1
              <-> p ∈ files db)
        /\ files (delete_detection user referrer detection_id db).1
           ⊆ files db
      else
        delete_detection user referrer detection_id db =
          (db, Flashed "user_dashboard" "Access denied." "danger")
        /\ (Settings.user_type user = "Developer" ->
            detection_result user detection_id db = Shown d)
  end.
Proof.
  unfold Records.delete_detection, detection_result.
  destruct (get detection_id (detections db)) as [d |] eqn:Hget;
    [| reflexivity].
  destruct (get_Some _ _ _ Hget) as [_ Hid].
  destruct (user_id d =? Settings.id user)%Z; cbn [negb andb fst].
  - cbn [detections files]. rewrite Hid. conjuncts.
    + rewrite get_filter_other. now rewrite Z.eqb_refl.
    + intros k Hk. rewrite get_filter_other.
      now destruct (Z.eqb_spec k detection_id).
    + intros Hne Hin. apply elem_of_remove_image in Hin as [_ Hin].
      now apply Hin.
    + intros p Hp. rewrite elem_of_remove_image. split; [now intros [H _] |].
      intros H. split; [exact H | now intros _].
    + intros p Hp. now apply elem_of_remove_image in Hp as [Hp _].
  - split; [reflexivity |]. intros ->. reflexivity.
Qed.

(** X25. Clearing one's detections leaves no record of the user and all
    records of the other users, in their order; of the files exactly
    the images of the user's records are removed. *)
Theorem clear_all_detections_own_only user db :
  Forall (fun d => user_id d <> Settings.id user)
    (detections (clear_all_detections user db).1)
  /\ List.filter (fun d => negb (user_id d =? Settings.id user)%Z)
       (detections (clear_all_detections user db).1)
     = List.filter (fun d => negb (user_id d =? Settings.id user)%Z)
         (detections db)
  /\ forall p,
       p ∈ files (clear_all_detections user db).1
       <-> p ∈ files db
           /\ forall d, d ∈ detections db ->
                        user_id d = Settings.id user ->
                        image_path d <> "" -> p <> path_of d.
Proof.
  unfold Records.clear_all_detections. cbn [fst detections files].
  conjuncts.
  - induction (detections db) as [| d tbl IH]; cbn; [constructor |].
    destruct (Z.eqb_spec (user_id d) (Settings.id user)); cbn;
      [exact IH | now constructor].
  - induction (detections db) as [| d tbl IH]; cbn; [reflexivity |].
    destruct (Z.eqb_spec (user_id d) (Settings.id user)) as [Hd | Hd]; cbn;
      [exact IH |].
    destruct (Z.eqb_spec (user_id d) (Settings.id user)); [contradiction |].
    cbn. now rewrite IH.
  - intros p. rewrite elem_of_remove_images.
    enough (Forall (fun d => image_path d <> "" -> p <> path_of d)
              (List.filter (fun d => (user_id d =? Settings.id user)%Z)
                 (detections db))
            <-> forall d, d ∈ detections db ->
                          user_id d = Settings.id user ->
                          image_path d <> "" -> p <> path_of d) by tauto.
    rewrite Forall_forall. split.
    + intros H d Hin Hown. apply H. apply list_elem_of_In.
      apply List.filter_In. split; [now apply list_elem_of_In |].
      now apply Z.eqb_eq.
    + intros H d Hin. apply list_elem_of_In in Hin.
      apply List.filter_In in Hin as [Hin Hown].
      apply H; [now apply list_elem_of_In | now apply Z.eqb_eq].
Qed.

Lemma filter_all (f : Stored -> bool) (l : list Stored) :
  Forall (fun x => f x = true) l -> List.filter f l = l.
Proof.
  induction 1 as [| x l Hx _ IH]; cbn; [reflexivity |].
  now rewrite Hx, IH.
Qed.

Lemma get_middle (pre tbl : list Stored) d :
  id d ∉ map id pre -> get (id d) (pre ++ d :: tbl) = Some d.
Proof.
  unfold get. induction pre as [| x pre IH]; intros Hpre; cbn.
  - now rewrite Z.eqb_refl.
  - cbn in Hpre. apply not_elem_of_cons in Hpre as [Hx Hpre].
    destruct (Z.eqb_spec (id x) (id d)) as [Heq | _]; [congruence |].
    now apply IH.
Qed.

Lemma unique_id_split (pre tbl : list Stored) d :
  NoDup (map id (pre ++ d :: tbl)) ->
  (id d ∉ map id pre)
  /\ Forall (fun x => negb (id x =? id d)%Z = true) pre
  /\ Forall (fun x => negb (id x =? id d)%Z = true) tbl
  /\ NoDup (map id (pre ++ tbl)).
Proof.
  rewrite !map_app. cbn [map]. intros H.
  apply NoDup_app in H as (Hpre & Hdisj & Htbl).
  apply NoDup_cons in Htbl as [Hd Htbl].
  assert (Hfresh : id d ∉ map id pre).
  { intros Hin. apply (Hdisj _ Hin). apply list_elem_of_here. }
  conjuncts.
  - exact Hfresh.
  - apply Forall_forall. intros x Hx.
    destruct (Z.eqb_spec (id x) (id d)) as [Heq | _]; [| reflexivity].
    exfalso. apply Hfresh. rewrite <- Heq.
    apply list_elem_of_fmap. now exists x.
  - apply Forall_forall. intros x Hx.
    destruct (Z.eqb_spec (id x) (id d)) as [Heq | _]; [| reflexivity].
    exfalso. apply Hd. rewrite <- Heq.
    apply list_elem_of_fmap. now exists x.
  - apply NoDup_app. conjuncts; [exact Hpre | | exact Htbl].
    intros x Hx Hx'. apply (Hdisj _ Hx). now apply list_elem_of_further.
Qed.

Lemma delete_each user referrer (tbl : list Stored) :
  forall (pre : list Stored) (fs : gset string),
  NoDup (map id (pre ++ tbl)) ->
  foldl (fun db d => (delete_detection user referrer (id d) db).1)
    {| detections := pre ++ tbl; files := fs |}
    (List.filter (fun d => (user_id d =? Settings.id user)%Z) tbl)
  = {| detections :=
         pre ++ List.filter
                  (fun d => negb (user_id d =? Settings.id user)%Z) tbl;
       files :=
         foldl (fun fs d => remove_image (image_path d) fs) fs
           (List.filter (fun d => (user_id d =? Settings.id user)%Z)
              tbl) |}.
Proof.
  induction tbl as [| d tbl IH]; intros pre fs Hnodup.
  - reflexivity.
  - cbn [List.filter].
    destruct (user_id d =? Settings.id user)%Z eqn:Hown; cbn [negb foldl].
    + destruct (unique_id_split pre tbl d Hnodup)
        as (Hfresh & Hpre & Htbl & Hrest).
      unfold Records.delete_detection at 2. cbn [detections files].
      rewrite (get_middle pre tbl d Hfresh), Hown. cbn [negb fst].
      rewrite List.filter_app. cbn [List.filter].
      rewrite Z.eqb_refl. cbn [negb].
      rewrite (filter_all _ pre Hpre), (filter_all _ tbl Htbl).
      exact (IH pre _ Hrest).
    + replace (pre ++ d :: tbl) with ((pre ++ [d]) ++ tbl) in Hnodup |- *
        by now rewrite <- app_assoc.
      rewrite (IH (pre ++ [d]) fs Hnodup). now rewrite <- app_assoc.
Qed.

(** X26. With unique record ids, clearing all detections of a user
    leaves the database and the files as deleting each record of the
    user in turn does. *)
Theorem clear_all_is_repeated_delete user referrer db :
  NoDup (map id (detections db)) ->
  (clear_all_detections user db).1 =
  foldl (fun db d => (delete_detection user referrer (id d) db).1) db
    (List.filter (fun d => (user_id d =? Settings.id user)%Z)
       (detections db)).
Proof.
  intros Hnodup. destruct db as [tbl fs]. cbn [detections] in *.
  symmetry. exact (delete_each user referrer tbl [] fs Hnodup).
Qed.

Lemma round1_ge (z : Z) x : inject_Z z <= x -> inject_Z z <= round1 x.
Proof.
  intros Hz. unfold round1.
  assert (H : (z * 10 <= round_half_even (x * 10))%Z).
  { apply round_half_even_ge. rewrite inject_Z_mult.
    change (inject_Z 10) with 10. lra. }
  rewrite Zle_Qle, inject_Z_mult in H.
  change (inject_Z 10) with 10 in H.
  unfold Qdiv. change (/ 10) with (1 # 10). lra.
Qed.

Lemma round1_le (z : Z) x : x <= inject_Z z -> round1 x <= inject_Z z.
Proof.
  intros Hz. unfold round1.
  assert (H : (round_half_even (x * 10) <= z * 10)%Z).
  { apply round_half_even_le. rewrite inject_Z_mult.
    change (inject_Z 10) with 10. lra. }
  rewrite Zle_Qle, inject_Z_mult in H.
  change (inject_Z 10) with 10 in H.
  unfold Qdiv. change (/ 10) with (1 # 10). lra.
Qed.

Lemma share_bounds (h n : Z) :
  (0 <= h <= n)%Z -> (0 < n)%Z ->
  0 <= inject_Z h / inject_Z n * 100
  /\ inject_Z h / inject_Z n * 100 <= 100.
Proof.
  intros Hh Hn.
  assert (Hn' : 0 < inject_Z n)
    by (change 0 with (inject_Z 0); now rewrite <- Zlt_Qlt).
  assert (Hh0 : 0 <= inject_Z h)
    by (change 0 with (inject_Z 0); rewrite <- Zle_Qle; lia).
  assert (Hhn : inject_Z h <= inject_Z n) by (rewrite <- Zle_Qle; lia).
  assert (H0 : 0 <= inject_Z h / inject_Z n)
    by (apply Qle_shift_div_l; [exact Hn' | lra]).
  assert (H1 : inject_Z h / inject_Z n <= 1)
    by (apply Qle_shift_div_r; [exact Hn' | lra]).
  split; lra.
Qed.

(** X27. The dashboard figures are consistent: healthy and diseased
    records add up to the total and neither count is negative; the
    health rate lies between 0 and 100, is 0 without any record and is
    100 when there are records and all are healthy; and a most recent
    disease is reported exactly when one of the recent records is not
    "Healthy". *)
Theorem insights_consistent (all_detections recent_detections : list Stored) :
  let i := user_insights all_detections recent_detections in
  (healthy i + diseased i = total i)%Z
  /\ (0 <= healthy i)%Z /\ (0 <= diseased i)%Z
  /\ 0 <= health_rate i /\ health_rate i <= 100
  /\ (all_detections = [] -> health_rate i = 0)
  /\ (all_detections <> [] -> diseased i = 0%Z -> health_rate i == 100)
  /\ (recent_disease i = None
      <-> Forall (fun d => Detection.disease_name (row d) = "Healthy")
            recent_detections).
Proof.
  unfold user_insights.
  cbn [total healthy diseased health_rate recent_disease].
  set (is_healthy := fun d => String.eqb (Detection.disease_name (row d))
                                "Healthy").
  pose proof (List.filter_length_le is_healthy all_detections) as Hle.
  set (h := length (List.filter is_healthy all_detections)) in *.
  set (n := length all_detections) in *.
  conjuncts.
  - lia.
  - lia.
  - lia.
  - destruct (Z.gtb_spec (Z.of_nat n) 0) as [Hn | Hn]; [| lra].
    apply (round1_ge 0).
    apply (share_bounds (Z.of_nat h) (Z.of_nat n)); lia.
  - destruct (Z.gtb_spec (Z.of_nat n) 0) as [Hn | Hn]; [| lra].
    apply (round1_le 100).
    apply (share_bounds (Z.of_nat h) (Z.of_nat n)); lia.
  - intros Hnil. subst n. now rewrite Hnil.
  - intros Hne Hzero.
    assert (Hn : (0 < Z.of_nat n)%Z).
    { subst n. destruct all_detections; [now destruct Hne | cbn; lia]. }
    destruct (Z.gtb_spec (Z.of_nat n) 0) as [_ | Hn']; [| lia].
    replace (Z.of_nat h) with (Z.of_nat n) by lia.
    assert (Hn' : 0 < inject_Z (Z.of_nat n))
      by (change 0 with (inject_Z 0); now rewrite <- Zlt_Qlt).
    assert (Hx : inject_Z (Z.of_nat n) / inject_Z (Z.of_nat n) * 100 == 100)
      by (field; lra).
    apply Qle_antisym.
    + apply (round1_le 100). rewrite Hx. change (inject_Z 100) with 100. lra.
    + apply (round1_ge 100). rewrite Hx. change (inject_Z 100) with 100. lra.
  - induction recent_detections as [| d l IH]; cbn.
    + split; [constructor | reflexivity].
    + destruct (String.eqb_spec (Detection.disease_name (row d)) "Healthy")
        as [Hd | Hd]; cbn.
      * rewrite IH. split; [now constructor |].
        intros H. now apply Forall_cons in H as [_ H].
      * split; [intros H; discriminate H |].
        intros H. apply Forall_cons in H as [H _]. now destruct Hd.
Qed.


End RecordFacts.

Lemma clear_all_is_repeated_delete_witness :
  (Records.clear_all_detections Cases.under_app
     (Accounts.user Cases.farmer) Cases.three_records).1 =
  foldl (fun db d =>
           (Records.delete_detection Cases.under_app
              (Accounts.user Cases.farmer) None (Records.id d) db).1)
    Cases.three_records
    (List.filter
       (fun d => (Records.user_id d
                  =? Settings.id (Accounts.user Cases.farmer))%Z)
       (Records.detections Cases.three_records)).
Proof.
  apply (clear_all_is_repeated_delete Cases.under_app
           (Accounts.user Cases.farmer) None Cases.three_records).
  cbn [map Records.detections Cases.three_records Cases.record Records.id].
  apply (bool_decide_unpack _). vm_compute. exact I.
Defined.
